(** * pyrender GPU buffer management: a shallow embedding

    The development embeds the buffer-handling code of
    [pyrender/primitive.py], [pyrender/compute_shader.py] and
    [pyrender/advanced_features.py] and proves properties of it.

    Conventions.
    - A Python method becomes a computation in the monad [Py.M]: it
      threads the object it is called on together with the OpenGL
      context, and either returns a value or raises an exception.  A
      raised exception keeps the state reached at the raise, as Python
      does.
    - OpenGL is an external library: every call the code makes is
      recorded, with its arguments, in the context's log, and the calls
      that generate names draw them from a counter.  The driver is
      taken to accept every recorded call.
    - numpy arrays are a shape and the row-major list of their
      elements; float32 values are IEEE-754 binary32 numbers of the
      Standard Library ([spec_float] with precision 24).
    - The reserve ratio is a Python number; it is modelled as an exact
      rational and the product [count * ratio] is computed exactly. *)

From Stdlib Require Import ZArith QArith Qround Lia List String.
From Stdlib Require Import Floats.SpecFloat.
From stdpp Require Import gmap strings list.
From stdpp Require Import pretty.

(* ===================================================================== *)
(** ** Python results, exceptions and the state-and-exception monad      *)
(* ===================================================================== *)

Module Py.

Inductive exn : Type :=
| ValueError (msg : string)
| IndexError (msg : string)
| TypeError (msg : string).

Inductive result (A : Type) : Type :=
| Ok (a : A)
| Raise (e : exn).
Arguments Ok {A} a.
Arguments Raise {A} e.

Definition is_ok {A} (r : result A) : bool :=
  match r with Ok _ => true | Raise _ => false end.

(** Sequencing of fallible pure steps. *)
Definition and_then {A B} (r : result A) (k : A -> result B) : result B :=
  match r with
  | Ok a => k a
  | Raise e => Raise e
  end.

(** [int(x)] on a number: truncation towards zero. *)
Definition int (x : Q) : Z := Z.quot (Qnum x) (Z.pos (Qden x)).

(** A method running on state [S]. *)
Definition M (S A : Type) : Type := S -> result A * S.

Definition ret {S A} (a : A) : M S A := fun s => (Ok a, s).

Definition bind {S A B} (m : M S A) (k : A -> M S B) : M S B :=
  fun s =>
    match m s with
    | (Ok a, s') => k a s'
    | (Raise e, s') => (Raise e, s')
    end.

Definition raise {S A} (e : exn) : M S A := fun s => (Raise e, s).

Definition lift {S A} (r : result A) : M S A := fun s => (r, s).

Definition get {S} : M S S := fun s => (Ok s, s).

Definition modify {S} (f : S -> S) : M S unit := fun s => (Ok tt, f s).

(** [for x in l: body x] *)
Fixpoint for_each {S A} (l : list A) (body : A -> M S unit) : M S unit :=
  match l with
  | [] => ret tt
  | x :: t => bind (body x) (fun _ => for_each t body)
  end.

End Py.

Export Py.

Declare Scope py_scope.
Delimit Scope py_scope with py.
Notation "x <- c1 ;; c2" := (Py.bind c1 (fun x => c2))
  (at level 100, c1 at next level, right associativity) : py_scope.
Notation "c1 ;; c2" := (Py.bind c1 (fun _ => c2))
  (at level 100, right associativity) : py_scope.

(* ===================================================================== *)
(** ** numpy arrays                                                      *)
(* ===================================================================== *)

Module Np.

(** A binary32 value. *)
Definition f32 : Type := spec_float.

(** An element of an array handed in by a caller: an integer (any of
    numpy's integer types) or a binary64 float. *)
Inductive num : Type :=
| Int (z : Z)
| Float (x : spec_float).

(** The cast to float32 that [dtype=np.float32] performs: rounding to
    nearest, ties to even, at 24 bits of precision. *)
Definition to_float32 (v : num) : f32 :=
  match v with
  | Int z => binary_normalize 24 128 z 0 false
  | Float (S754_finite s m e) =>
      binary_normalize 24 128 (cond_Zopp s (Z.pos m)) e s
  | Float x => x
  end.

(** Truncation of a float towards zero; [None] for NaN and the
    infinities. *)
Definition trunc (x : spec_float) : option Z :=
  match x with
  | S754_zero _ => Some 0%Z
  | S754_finite s m e =>
      Some (cond_Zopp s
              (if (0 <=? e)%Z then (Z.pos m * 2 ^ e)%Z
               else (Z.pos m / 2 ^ (- e))%Z))
  | _ => None
  end.

(** The cast of [astype(np.uint32)] on a float: truncation, then the
    low 32 bits.  What numpy stores for a NaN, an infinity or a value
    outside the range depends on the platform; this model takes 0
    and the wrap-around. *)
Definition to_uint32 (x : f32) : Z :=
  match trunc x with
  | Some z => (z mod 2 ^ 32)%Z
  | None => 0%Z
  end.

Record ndarray (A : Type) : Type :=
  mk_ndarray { shape : list nat; data : list A }.
Arguments mk_ndarray {A} shape data.
Arguments shape {A} _.
Arguments data {A} _.

Definition array_like : Type := ndarray num.

Definition prod_dims (dims : list nat) : nat := fold_right Nat.mul 1%nat dims.

(** [a.ndim], [a.size], [a.flatten()] *)
Definition ndim {A} (a : ndarray A) : nat := length (shape a).
Definition size {A} (a : ndarray A) : nat := prod_dims (shape a).
Definition flatten {A} (a : ndarray A) : list A := data a.

(** The array holds as many elements as its shape says. *)
Definition well_formed {A} (a : ndarray A) : Prop :=
  length (data a) = size a.

(** [a.shape[i]]: a tuple index out of range raises IndexError. *)
Definition shape_at {A} (a : ndarray A) (i : nat) : result nat :=
  match nth_error (shape a) i with
  | Some n => Ok n
  | None => Raise (IndexError "tuple index out of range")
  end.

(** [len(a)]: a 0-dimensional array has no length. *)
Definition len {A} (a : ndarray A) : result nat :=
  match shape a with
  | n :: _ => Ok n
  | [] => Raise (TypeError "len() of unsized object")
  end.

(** [np.asanyarray(value, dtype=np.float32)] followed by
    [np.ascontiguousarray]: same shape, every element cast. *)
Definition asanyarray_float32 (value : array_like) : ndarray f32 :=
  mk_ndarray (shape value) (map to_float32 (data value)).

(** [a.flatten().astype(np.uint32)] *)
Definition flatten_uint32 (a : ndarray f32) : list Z :=
  map to_uint32 (flatten a).

Definition atleast_1d {A} (a : ndarray A) : ndarray A :=
  match shape a with
  | [] => mk_ndarray [1%nat] (data a)
  | _ => a
  end.

(** Row-major data of the concatenation along axis 1 of two arrays
    with [rows] leading entries, whose rows hold [ca] and [cb]
    elements. *)
Fixpoint interleave {A} (rows ca cb : nat) (la lb : list A) : list A :=
  match rows with
  | O => []
  | S r =>
      firstn ca la ++ firstn cb lb
        ++ interleave r ca cb (skipn ca la) (skipn cb lb)
  end.

Definition concat_error : exn :=
  ValueError "all the input array dimensions except for the concatenation axis must match exactly".

(** [np.hstack((a, b))]: along axis 0 for 1-dimensional arrays, along
    axis 1 otherwise; every other dimension has to agree. *)
Definition hstack {A} (a b : ndarray A) : result (ndarray A) :=
  let a := atleast_1d a in
  let b := atleast_1d b in
  match shape a, shape b with
  | [n], [m] => Ok (mk_ndarray [(n + m)%nat] (data a ++ data b))
  | d0 :: d1 :: rest, e0 :: e1 :: rest' =>
      if decide (d0 = e0 /\ rest = rest') then
        Ok (mk_ndarray (d0 :: (d1 + e1)%nat :: rest)
              (interleave d0 (d1 * prod_dims rest) (e1 * prod_dims rest)
                 (data a) (data b)))
      else Raise concat_error
  | _, _ => Raise concat_error
  end.

(** The first [k] entries of each of [rows] rows of [cols] entries. *)
Fixpoint take_cols {A} (rows cols k : nat) (l : list A) : list A :=
  match rows with
  | O => []
  | S r => firstn k (firstn cols l) ++ take_cols r cols k (skipn cols l)
  end.

(** [value[:, :k]] on a 2-dimensional array. *)
Definition slice_cols {A} (k : nat) (a : ndarray A) : ndarray A :=
  match shape a with
  | [rows; cols] =>
      mk_ndarray [rows; Nat.min k cols] (take_cols rows cols k (data a))
  | _ => a
  end.

(** The transpose of one [r] by [c] matrix given row by row. *)
Definition transpose_block {A} (r c : nat) (l : list A) : list A :=
  flat_map (fun j => flat_map (fun i =>
    match nth_error l (i * c + j) with Some x => [x] | None => [] end)
    (seq 0 r)) (seq 0 c).

Fixpoint transpose_blocks {A} (n r c : nat) (l : list A) : list A :=
  match n with
  | O => []
  | S k => transpose_block r c (firstn (r * c) l)
             ++ transpose_blocks k r c (skipn (r * c) l)
  end.

(** [np.transpose(a, [0,2,1])] *)
Definition transpose_021 {A} (a : ndarray A) : result (ndarray A) :=
  match shape a with
  | [n; r; c] => Ok (mk_ndarray [n; c; r] (transpose_blocks n r c (data a)))
  | _ => Raise (ValueError "axes don't match array")
  end.

Definition f32_zero : f32 := S754_zero false.
Definition f32_one : f32 := binary_normalize 24 128 1 0 false.

(** [np.eye(4).flatten().astype(np.float32)] *)
Definition eye4_flat : list f32 :=
  flat_map (fun i => map (fun j => if Nat.eqb i j then f32_one else f32_zero)
                       (seq 0 4)) (seq 0 4).

(** An array as its raw memory: element type, shape and bytes. *)
Inductive dtype : Type :=
| float32 | float64 | int32 | uint32 | uint8 | int8.

Record rawarray : Type :=
  mk_rawarray { r_dtype : dtype; r_shape : list nat; tobytes : list Byte.byte }.

(** [data.nbytes] *)
Definition nbytes (a : rawarray) : Z := Z.of_nat (length (tobytes a)).

#[global] Instance dtype_eq_dec : EqDecision dtype := ltac:(solve_decision).

(** [dtype.itemsize] *)
Definition itemsize (t : dtype) : nat :=
  match t with
  | float32 | int32 | uint32 => 4
  | float64 => 8
  | uint8 | int8 => 1
  end.

(** The raw memory holds the elements that the shape counts. *)
Definition raw_well_formed (a : rawarray) : Prop :=
  length (tobytes a) = (prod_dims (r_shape a) * itemsize (r_dtype a))%nat.

(** Row [i] of the row-major data [l] of an array whose rows hold
    [cols] elements. *)
Definition row {A} (cols i : nat) (l : list A) : list A :=
  firstn cols (skipn (i * cols) l).

(** [a[:, k]]: the entries at index [k] of the second axis.  An array
    of fewer than two dimensions has no second axis, and [k] has to lie
    within it. *)
Definition take_axis1 {A} (k : nat) (a : ndarray A) : result (ndarray A) :=
  match shape a with
  | n :: c :: rest =>
      if (k <? c)%nat then
        let block := prod_dims rest in
        Ok (mk_ndarray (n :: rest)
              (flat_map (fun i =>
                 firstn block (skipn (k * block) (row (c * block) i (data a))))
                 (seq 0 n)))
      else
        Raise (IndexError ("index " ++ pretty k
                             ++ " is out of bounds for axis 1 with size "
                             ++ pretty c))
  | dims =>
      Raise (IndexError ("too many indices for array: array is "
                           ++ pretty (length dims)
                           ++ "-dimensional, but 2 were indexed"))
  end.

End Np.

(* ===================================================================== *)
(** ** The OpenGL context, as far as the code drives it                   *)
(* ===================================================================== *)

Module GL.

Inductive target : Type :=
| GL_ARRAY_BUFFER
| GL_ELEMENT_ARRAY_BUFFER
| GL_SHADER_STORAGE_BUFFER.

Inductive usage : Type :=
| GL_STATIC_DRAW
| GL_DYNAMIC_DRAW
| GL_DYNAMIC_COPY.

#[global] Instance target_eq_dec : EqDecision target := ltac:(solve_decision).

(** What a call hands to the driver as buffer contents. *)
Inductive payload : Type :=
| Floats (l : list Np.f32)
| UInts (l : list Z)
| Bytes (l : list Byte.byte).

(** The calls of the embedded code, with their arguments; the calls
    that generate a name also carry the name they returned. *)
Inductive call : Type :=
| glGenVertexArrays (n : Z) (name : Z)
| glBindVertexArray (array : Z)
| glDeleteVertexArrays (n : Z) (arrays : list Z)
| glGenBuffers (n : Z) (name : Z)
| glBindBuffer (t : target) (buffer : Z)
| glBufferData (t : target) (size : Z) (data : option payload) (u : usage)
| glBufferSubData (t : target) (offset size : Z) (data : payload)
| glDeleteBuffers (n : Z) (buffers : list Z)
| glVertexAttribPointer (index size : Z) (normalized : bool)
    (stride pointer : Z)
| glEnableVertexAttribArray (index : Z)
| glVertexAttribDivisor (index divisor : Z)
| glBindBufferBase (t : target) (index buffer : Z).

Record context : Type := mk_context { next_name : Z; log : list call }.

Definition record (c : call) (g : context) : context :=
  mk_context (next_name g) (log g ++ [c]).

Definition fresh (mk : Z -> call) (g : context) : Z * context :=
  (next_name g, mk_context (next_name g + 1) (log g ++ [mk (next_name g)])).

(** The payloads written by [glBufferSubData] to target [t], in order. *)
Definition uploads (t : target) (calls : list call) : list payload :=
  flat_map (fun c =>
    match c with
    | glBufferSubData t' _ _ d => if decide (t' = t) then [d] else []
    | _ => []
    end) calls.

End GL.

(** An object together with the context its methods drive. *)
Definition World (Obj : Type) : Type := (Obj * GL.context)%type.

(** [self] *)
Definition self {Obj} : M (World Obj) Obj := fun w => (Ok (fst w), w).

(** An assignment to attributes of [self]. *)
Definition assign {Obj} (f : Obj -> Obj) : M (World Obj) unit :=
  fun w => (Ok tt, (f (fst w), snd w)).

(** A call into the driver. *)
Definition gl {Obj} (c : GL.call) : M (World Obj) unit :=
  fun w => (Ok tt, (fst w, GL.record c (snd w))).

(** [glGenVertexArrays(1)] and [glGenBuffers(1)] *)
Definition gl_gen {Obj} (mk : Z -> GL.call) : M (World Obj) Z :=
  fun w => let (name, g) := GL.fresh mk (snd w) in (Ok name, (fst w, g)).

(** A method keeps the part [proj] of the world when, returning or
    raising, it leaves that part as it was. *)
Definition keeps {Obj X A} (proj : World Obj -> X) (m : M (World Obj) A)
  : Prop :=
  forall w, proj (snd (m w)) = proj w.

(* ===================================================================== *)
(** ** [pyrender/primitive.py]: class Primitive                           *)
(* ===================================================================== *)

Module Primitive.

Import Np GL.
Local Open Scope py_scope.

(** Modelled from the spec: [FLOAT_SZ] of [pyrender/constants.py],
    which is not among the sources.  Vertex attributes are stored as
    32-bit floats, 4 bytes each. *)
Definition FLOAT_SZ : Z := 4.

(** Modelled from the spec: [UINT_SZ] of [pyrender/constants.py].
    Indices are uploaded as unsigned 32-bit integers, 4 bytes each. *)
Definition UINT_SZ : Z := 4.

(** Modelled from the spec: the primitive mode enumeration of
    [pyrender/constants.py], the integer range POINTS=0 to
    TRIANGLE_FAN=6 with TRIANGLES=4. *)
Module GLTF.
Definition POINTS : Z := 0.
Definition TRIANGLES : Z := 4.
Definition TRIANGLE_FAN : Z := 6.
End GLTF.

(** Modelled from the spec: [pyrender/material.py] is not among the
    sources.  A material is the default one that
    [MetallicRoughnessMaterial()] builds or one made by the caller. *)
Inductive Material : Type :=
| MetallicRoughnessMaterial
| CustomMaterial (id : Z).

(** A value offered as a material: an instance of [Material] or
    something else. *)
Inductive object : Type :=
| Instance_of_Material (m : Material)
| Other_object.

(** The attributes of a [Primitive].  [None] stands for Python's
    [None]; in [_needs_vertex_update], [_needs_index_update] and
    [_element_buffer_id], which [__init__] does not create and the code
    probes with [hasattr], [None] stands for a missing attribute.  The
    joints, weights and targets are kept as they were handed in. *)
Record Primitive : Type := mkPrimitive {
  _positions : ndarray f32;
  _normals : option (ndarray f32);
  _tangents : option (ndarray f32);
  _texcoord_0 : option (ndarray f32);
  _texcoord_1 : option (ndarray f32);
  _color_0 : option (ndarray f32);
  _joints_0 : option array_like;
  _weights_0 : option array_like;
  _indices : option (ndarray f32);
  _material : Material;
  _mode : Z;
  _targets : option array_like;
  _poses : option (ndarray f32);
  _bounds : option (ndarray f32);
  _vaid : option Z;
  _buffers : list Z;
  _is_transparent : option bool;
  _buf_flags : option Z;
  _buffer_reserve_ratio : Q;
  _vertex_buffer_capacity : option Z;
  _index_buffer_capacity : option Z;
  _needs_vertex_update : option bool;
  _needs_index_update : option bool;
  _element_buffer_id : option Z
}.

(** Attribute assignment [self.<field> = v], one function per field. *)
Definition set_positions (v : ndarray f32) (p : Primitive) : Primitive :=
  mkPrimitive v (_normals p) (_tangents p) (_texcoord_0 p) (_texcoord_1 p)
    (_color_0 p) (_joints_0 p) (_weights_0 p) (_indices p) (_material p)
    (_mode p) (_targets p) (_poses p) (_bounds p) (_vaid p) (_buffers p)
    (_is_transparent p) (_buf_flags p) (_buffer_reserve_ratio p)
    (_vertex_buffer_capacity p) (_index_buffer_capacity p)
    (_needs_vertex_update p) (_needs_index_update p) (_element_buffer_id p).

Definition set_normals (v : option (ndarray f32)) (p : Primitive) : Primitive :=
  mkPrimitive (_positions p) v (_tangents p) (_texcoord_0 p) (_texcoord_1 p)
    (_color_0 p) (_joints_0 p) (_weights_0 p) (_indices p) (_material p)
    (_mode p) (_targets p) (_poses p) (_bounds p) (_vaid p) (_buffers p)
    (_is_transparent p) (_buf_flags p) (_buffer_reserve_ratio p)
    (_vertex_buffer_capacity p) (_index_buffer_capacity p)
    (_needs_vertex_update p) (_needs_index_update p) (_element_buffer_id p).

Definition set_tangents (v : option (ndarray f32)) (p : Primitive) : Primitive :=
  mkPrimitive (_positions p) (_normals p) v (_texcoord_0 p) (_texcoord_1 p)
    (_color_0 p) (_joints_0 p) (_weights_0 p) (_indices p) (_material p)
    (_mode p) (_targets p) (_poses p) (_bounds p) (_vaid p) (_buffers p)
    (_is_transparent p) (_buf_flags p) (_buffer_reserve_ratio p)
    (_vertex_buffer_capacity p) (_index_buffer_capacity p)
    (_needs_vertex_update p) (_needs_index_update p) (_element_buffer_id p).

Definition set_texcoord_0 (v : option (ndarray f32)) (p : Primitive) : Primitive :=
  mkPrimitive (_positions p) (_normals p) (_tangents p) v (_texcoord_1 p)
    (_color_0 p) (_joints_0 p) (_weights_0 p) (_indices p) (_material p)
    (_mode p) (_targets p) (_poses p) (_bounds p) (_vaid p) (_buffers p)
    (_is_transparent p) (_buf_flags p) (_buffer_reserve_ratio p)
    (_vertex_buffer_capacity p) (_index_buffer_capacity p)
    (_needs_vertex_update p) (_needs_index_update p) (_element_buffer_id p).

Definition set_texcoord_1 (v : option (ndarray f32)) (p : Primitive) : Primitive :=
  mkPrimitive (_positions p) (_normals p) (_tangents p) (_texcoord_0 p) v
    (_color_0 p) (_joints_0 p) (_weights_0 p) (_indices p) (_material p)
    (_mode p) (_targets p) (_poses p) (_bounds p) (_vaid p) (_buffers p)
    (_is_transparent p) (_buf_flags p) (_buffer_reserve_ratio p)
    (_vertex_buffer_capacity p) (_index_buffer_capacity p)
    (_needs_vertex_update p) (_needs_index_update p) (_element_buffer_id p).

Definition set_color_0 (v : option (ndarray f32)) (p : Primitive) : Primitive :=
  mkPrimitive (_positions p) (_normals p) (_tangents p) (_texcoord_0 p)
    (_texcoord_1 p) v (_joints_0 p) (_weights_0 p) (_indices p) (_material p)
    (_mode p) (_targets p) (_poses p) (_bounds p) (_vaid p) (_buffers p)
    (_is_transparent p) (_buf_flags p) (_buffer_reserve_ratio p)
    (_vertex_buffer_capacity p) (_index_buffer_capacity p)
    (_needs_vertex_update p) (_needs_index_update p) (_element_buffer_id p).

Definition set_joints_0 (v : option array_like) (p : Primitive) : Primitive :=
  mkPrimitive (_positions p) (_normals p) (_tangents p) (_texcoord_0 p)
    (_texcoord_1 p) (_color_0 p) v (_weights_0 p) (_indices p) (_material p)
    (_mode p) (_targets p) (_poses p) (_bounds p) (_vaid p) (_buffers p)
    (_is_transparent p) (_buf_flags p) (_buffer_reserve_ratio p)
    (_vertex_buffer_capacity p) (_index_buffer_capacity p)
    (_needs_vertex_update p) (_needs_index_update p) (_element_buffer_id p).

Definition set_weights_0 (v : option array_like) (p : Primitive) : Primitive :=
  mkPrimitive (_positions p) (_normals p) (_tangents p) (_texcoord_0 p)
    (_texcoord_1 p) (_color_0 p) (_joints_0 p) v (_indices p) (_material p)
    (_mode p) (_targets p) (_poses p) (_bounds p) (_vaid p) (_buffers p)
    (_is_transparent p) (_buf_flags p) (_buffer_reserve_ratio p)
    (_vertex_buffer_capacity p) (_index_buffer_capacity p)
    (_needs_vertex_update p) (_needs_index_update p) (_element_buffer_id p).

Definition set_indices (v : option (ndarray f32)) (p : Primitive) : Primitive :=
  mkPrimitive (_positions p) (_normals p) (_tangents p) (_texcoord_0 p)
    (_texcoord_1 p) (_color_0 p) (_joints_0 p) (_weights_0 p) v (_material p)
    (_mode p) (_targets p) (_poses p) (_bounds p) (_vaid p) (_buffers p)
    (_is_transparent p) (_buf_flags p) (_buffer_reserve_ratio p)
    (_vertex_buffer_capacity p) (_index_buffer_capacity p)
    (_needs_vertex_update p) (_needs_index_update p) (_element_buffer_id p).

Definition set_material (v : Material) (p : Primitive) : Primitive :=
  mkPrimitive (_positions p) (_normals p) (_tangents p) (_texcoord_0 p)
    (_texcoord_1 p) (_color_0 p) (_joints_0 p) (_weights_0 p) (_indices p) v
    (_mode p) (_targets p) (_poses p) (_bounds p) (_vaid p) (_buffers p)
    (_is_transparent p) (_buf_flags p) (_buffer_reserve_ratio p)
    (_vertex_buffer_capacity p) (_index_buffer_capacity p)
    (_needs_vertex_update p) (_needs_index_update p) (_element_buffer_id p).

Definition set_mode (v : Z) (p : Primitive) : Primitive :=
  mkPrimitive (_positions p) (_normals p) (_tangents p) (_texcoord_0 p)
    (_texcoord_1 p) (_color_0 p) (_joints_0 p) (_weights_0 p) (_indices p)
    (_material p) v (_targets p) (_poses p) (_bounds p) (_vaid p) (_buffers p)
    (_is_transparent p) (_buf_flags p) (_buffer_reserve_ratio p)
    (_vertex_buffer_capacity p) (_index_buffer_capacity p)
    (_needs_vertex_update p) (_needs_index_update p) (_element_buffer_id p).

Definition set_targets (v : option array_like) (p : Primitive) : Primitive :=
  mkPrimitive (_positions p) (_normals p) (_tangents p) (_texcoord_0 p)
    (_texcoord_1 p) (_color_0 p) (_joints_0 p) (_weights_0 p) (_indices p)
    (_material p) (_mode p) v (_poses p) (_bounds p) (_vaid p) (_buffers p)
    (_is_transparent p) (_buf_flags p) (_buffer_reserve_ratio p)
    (_vertex_buffer_capacity p) (_index_buffer_capacity p)
    (_needs_vertex_update p) (_needs_index_update p) (_element_buffer_id p).

Definition set_poses (v : option (ndarray f32)) (p : Primitive) : Primitive :=
  mkPrimitive (_positions p) (_normals p) (_tangents p) (_texcoord_0 p)
    (_texcoord_1 p) (_color_0 p) (_joints_0 p) (_weights_0 p) (_indices p)
    (_material p) (_mode p) (_targets p) v (_bounds p) (_vaid p) (_buffers p)
    (_is_transparent p) (_buf_flags p) (_buffer_reserve_ratio p)
    (_vertex_buffer_capacity p) (_index_buffer_capacity p)
    (_needs_vertex_update p) (_needs_index_update p) (_element_buffer_id p).

Definition set_bounds (v : option (ndarray f32)) (p : Primitive) : Primitive :=
  mkPrimitive (_positions p) (_normals p) (_tangents p) (_texcoord_0 p)
    (_texcoord_1 p) (_color_0 p) (_joints_0 p) (_weights_0 p) (_indices p)
    (_material p) (_mode p) (_targets p) (_poses p) v (_vaid p) (_buffers p)
    (_is_transparent p) (_buf_flags p) (_buffer_reserve_ratio p)
    (_vertex_buffer_capacity p) (_index_buffer_capacity p)
    (_needs_vertex_update p) (_needs_index_update p) (_element_buffer_id p).

Definition set_vaid (v : option Z) (p : Primitive) : Primitive :=
  mkPrimitive (_positions p) (_normals p) (_tangents p) (_texcoord_0 p)
    (_texcoord_1 p) (_color_0 p) (_joints_0 p) (_weights_0 p) (_indices p)
    (_material p) (_mode p) (_targets p) (_poses p) (_bounds p) v (_buffers p)
    (_is_transparent p) (_buf_flags p) (_buffer_reserve_ratio p)
    (_vertex_buffer_capacity p) (_index_buffer_capacity p)
    (_needs_vertex_update p) (_needs_index_update p) (_element_buffer_id p).

Definition set_buffers (v : list Z) (p : Primitive) : Primitive :=
  mkPrimitive (_positions p) (_normals p) (_tangents p) (_texcoord_0 p)
    (_texcoord_1 p) (_color_0 p) (_joints_0 p) (_weights_0 p) (_indices p)
    (_material p) (_mode p) (_targets p) (_poses p) (_bounds p) (_vaid p) v
    (_is_transparent p) (_buf_flags p) (_buffer_reserve_ratio p)
    (_vertex_buffer_capacity p) (_index_buffer_capacity p)
    (_needs_vertex_update p) (_needs_index_update p) (_element_buffer_id p).

Definition set_is_transparent (v : option bool) (p : Primitive) : Primitive :=
  mkPrimitive (_positions p) (_normals p) (_tangents p) (_texcoord_0 p)
    (_texcoord_1 p) (_color_0 p) (_joints_0 p) (_weights_0 p) (_indices p)
    (_material p) (_mode p) (_targets p) (_poses p) (_bounds p) (_vaid p)
    (_buffers p) v (_buf_flags p) (_buffer_reserve_ratio p)
    (_vertex_buffer_capacity p) (_index_buffer_capacity p)
    (_needs_vertex_update p) (_needs_index_update p) (_element_buffer_id p).

Definition set_buf_flags (v : option Z) (p : Primitive) : Primitive :=
  mkPrimitive (_positions p) (_normals p) (_tangents p) (_texcoord_0 p)
    (_texcoord_1 p) (_color_0 p) (_joints_0 p) (_weights_0 p) (_indices p)
    (_material p) (_mode p) (_targets p) (_poses p) (_bounds p) (_vaid p)
    (_buffers p) (_is_transparent p) v (_buffer_reserve_ratio p)
    (_vertex_buffer_capacity p) (_index_buffer_capacity p)
    (_needs_vertex_update p) (_needs_index_update p) (_element_buffer_id p).

Definition set_buffer_reserve_ratio (v : Q) (p : Primitive) : Primitive :=
  mkPrimitive (_positions p) (_normals p) (_tangents p) (_texcoord_0 p)
    (_texcoord_1 p) (_color_0 p) (_joints_0 p) (_weights_0 p) (_indices p)
    (_material p) (_mode p) (_targets p) (_poses p) (_bounds p) (_vaid p)
    (_buffers p) (_is_transparent p) (_buf_flags p) v (_vertex_buffer_capacity
    p) (_index_buffer_capacity p) (_needs_vertex_update p)
    (_needs_index_update p) (_element_buffer_id p).

Definition set_vertex_buffer_capacity (v : option Z) (p : Primitive) : Primitive :=
  mkPrimitive (_positions p) (_normals p) (_tangents p) (_texcoord_0 p)
    (_texcoord_1 p) (_color_0 p) (_joints_0 p) (_weights_0 p) (_indices p)
    (_material p) (_mode p) (_targets p) (_poses p) (_bounds p) (_vaid p)
    (_buffers p) (_is_transparent p) (_buf_flags p) (_buffer_reserve_ratio p)
    v (_index_buffer_capacity p) (_needs_vertex_update p) (_needs_index_update
    p) (_element_buffer_id p).

Definition set_index_buffer_capacity (v : option Z) (p : Primitive) : Primitive :=
  mkPrimitive (_positions p) (_normals p) (_tangents p) (_texcoord_0 p)
    (_texcoord_1 p) (_color_0 p) (_joints_0 p) (_weights_0 p) (_indices p)
    (_material p) (_mode p) (_targets p) (_poses p) (_bounds p) (_vaid p)
    (_buffers p) (_is_transparent p) (_buf_flags p) (_buffer_reserve_ratio p)
    (_vertex_buffer_capacity p) v (_needs_vertex_update p)
    (_needs_index_update p) (_element_buffer_id p).

Definition set_needs_vertex_update (v : option bool) (p : Primitive) : Primitive :=
  mkPrimitive (_positions p) (_normals p) (_tangents p) (_texcoord_0 p)
    (_texcoord_1 p) (_color_0 p) (_joints_0 p) (_weights_0 p) (_indices p)
    (_material p) (_mode p) (_targets p) (_poses p) (_bounds p) (_vaid p)
    (_buffers p) (_is_transparent p) (_buf_flags p) (_buffer_reserve_ratio p)
    (_vertex_buffer_capacity p) (_index_buffer_capacity p) v
    (_needs_index_update p) (_element_buffer_id p).

Definition set_needs_index_update (v : option bool) (p : Primitive) : Primitive :=
  mkPrimitive (_positions p) (_normals p) (_tangents p) (_texcoord_0 p)
    (_texcoord_1 p) (_color_0 p) (_joints_0 p) (_weights_0 p) (_indices p)
    (_material p) (_mode p) (_targets p) (_poses p) (_bounds p) (_vaid p)
    (_buffers p) (_is_transparent p) (_buf_flags p) (_buffer_reserve_ratio p)
    (_vertex_buffer_capacity p) (_index_buffer_capacity p)
    (_needs_vertex_update p) v (_element_buffer_id p).

Definition set_element_buffer_id (v : option Z) (p : Primitive) : Primitive :=
  mkPrimitive (_positions p) (_normals p) (_tangents p) (_texcoord_0 p)
    (_texcoord_1 p) (_color_0 p) (_joints_0 p) (_weights_0 p) (_indices p)
    (_material p) (_mode p) (_targets p) (_poses p) (_bounds p) (_vaid p)
    (_buffers p) (_is_transparent p) (_buf_flags p) (_buffer_reserve_ratio p)
    (_vertex_buffer_capacity p) (_index_buffer_capacity p)
    (_needs_vertex_update p) (_needs_index_update p) v.

(** The state a method of [Primitive] runs on. *)
Definition state : Type := World Primitive.

(** *** Properties and their setters *)

(** [positions.setter] *)
Definition positions_setter (value : array_like) : M state unit :=
  let value := asanyarray_float32 value in
  assign (set_positions value) ;;
  assign (set_bounds None).

(** [normals.setter] *)
Definition normals_setter (value : option array_like) : M state unit :=
  value <- match value with
           | Some value =>
               let value := asanyarray_float32 value in
               p <- self ;;
               if decide (shape value <> shape (_positions p)) then
                 raise (ValueError "Incorrect normals shape")
               else ret (Some value)
           | None => ret None
           end ;;
  assign (set_normals value).

(** [tangents.setter] *)
Definition tangents_setter (value : option array_like) : M state unit :=
  value <- match value with
           | Some value =>
               let value := asanyarray_float32 value in
               p <- self ;;
               n <- lift (shape_at (_positions p) 0) ;;
               if decide (shape value <> [n; 4%nat]) then
                 raise (ValueError "Incorrect tangent shape")
               else ret (Some value)
           | None => ret None
           end ;;
  assign (set_tangents value).

(** The test [value.ndim != 2 or value.shape[0] !=
    self.positions.shape[0] or value.shape[1] < 2] of the texture
    coordinate setters, with [bad_cols] the test on the column count;
    [or] evaluates its operands from left to right and stops at the
    first true one. *)
Definition texcoord_shape_is_wrong (bad_cols : nat -> bool)
    (value : ndarray f32) : M state bool :=
  if negb (ndim value =? 2)%nat then ret true
  else
    rows <- lift (shape_at value 0) ;;
    p <- self ;;
    n <- lift (shape_at (_positions p) 0) ;;
    if negb (rows =? n)%nat then ret true
    else
      cols <- lift (shape_at value 1) ;;
      ret (bad_cols cols).

(** [texcoord_0.setter] *)
Definition texcoord_0_setter (value : option array_like) : M state unit :=
  value <- match value with
           | Some value =>
               let value := asanyarray_float32 value in
               wrong <- texcoord_shape_is_wrong (fun cols => cols <? 2)%nat value ;;
               if wrong then
                 raise (ValueError "Incorrect texture coordinate shape")
               else
                 cols <- lift (shape_at value 1) ;;
                 if (2 <? cols)%nat then ret (Some (slice_cols 2 value))
                 else ret (Some value)
           | None => ret None
           end ;;
  assign (set_texcoord_0 value).

(** [texcoord_1.setter] *)
Definition texcoord_1_setter (value : option array_like) : M state unit :=
  value <- match value with
           | Some value =>
               let value := asanyarray_float32 value in
               wrong <- texcoord_shape_is_wrong
                          (fun cols => negb (cols =? 2))%nat value ;;
               if wrong then
                 raise (ValueError "Incorrect texture coordinate shape")
               else ret (Some value)
           | None => ret None
           end ;;
  assign (set_texcoord_1 value).

(** [joints_0.setter] and [weights_0.setter] *)
Definition joints_0_setter (value : option array_like) : M state unit :=
  assign (set_joints_0 value).

Definition weights_0_setter (value : option array_like) : M state unit :=
  assign (set_weights_0 value).

(** [indices.setter] *)
Definition indices_setter (value : option array_like) : M state unit :=
  let value := match value with
               | Some value => Some (asanyarray_float32 value)
               | None => None
               end in
  assign (set_indices value).

(** [material.setter] *)
Definition material_setter (value : option object) : M state unit :=
  value <- match value with
           | None => ret MetallicRoughnessMaterial
           | Some (Instance_of_Material m) => ret m
           | Some Other_object =>
               raise (TypeError "Object material must be of type Material")
           end ;;
  assign (set_material value).

(** [mode.setter] *)
Definition mode_setter (value : Z) : M state unit :=
  if ((value <? GLTF.POINTS) || (value >? GLTF.TRIANGLE_FAN))%Z then
    raise (ValueError "Invalid mode")
  else assign (set_mode value).

(** [targets.setter] *)
Definition targets_setter (value : option array_like) : M state unit :=
  assign (set_targets value).

(** [poses.setter] *)
Definition poses_setter (value : option array_like) : M state unit :=
  value <- match value with
           | Some value =>
               let value := asanyarray_float32 value in
               let value := if (ndim value =? 2)%nat
                            then mk_ndarray (1%nat :: shape value) (data value)
                            else value in
               d1 <- lift (shape_at value 1) ;;
               wrong <- (if negb (d1 =? 4)%nat then ret true
                         else d2 <- lift (shape_at value 2) ;;
                              ret (negb (d2 =? 4)%nat)) ;;
               if wrong : bool then
                 raise (ValueError "Pose matrices must be of shape (n,4,4)")
               else ret (Some value)
           | None => ret None
           end ;;
  assign (set_poses value) ;;
  assign (set_bounds None).

Section ColorArrays.

(** [format_color_array] of [pyrender/utils.py], which is not among
    the sources: it is a parameter of the colour setter. *)
Variable format_color_array :
  array_like -> nat * nat -> result (ndarray f32).

(** [color_0.setter] *)
Definition color_0_setter (value : option array_like) : M state unit :=
  value <- match value with
           | Some value =>
               p <- self ;;
               n <- lift (len (_positions p)) ;;
               value <- lift (format_color_array value (n, 4%nat)) ;;
               ret (Some value)
           | None => ret None
           end ;;
  assign (set_is_transparent None) ;;
  assign (set_color_0 value).

(** [__init__] *)
Definition __init__ (positions : array_like)
    (normals tangents texcoord_0 texcoord_1 color_0 joints_0 weights_0
       indices : option array_like)
    (material : option object) (mode : option Z)
    (targets poses : option array_like) (buffer_reserve_ratio : Q)
  : M state unit :=
  let mode := match mode with None => GLTF.TRIANGLES | Some mode => mode end in
  positions_setter positions ;;
  normals_setter normals ;;
  tangents_setter tangents ;;
  texcoord_0_setter texcoord_0 ;;
  texcoord_1_setter texcoord_1 ;;
  color_0_setter color_0 ;;
  joints_0_setter joints_0 ;;
  weights_0_setter weights_0 ;;
  indices_setter indices ;;
  material_setter material ;;
  mode_setter mode ;;
  targets_setter targets ;;
  poses_setter poses ;;
  assign (set_bounds None) ;;
  assign (set_vaid None) ;;
  assign (set_buffers []) ;;
  assign (set_is_transparent None) ;;
  assign (set_buf_flags None) ;;
  assign (set_buffer_reserve_ratio buffer_reserve_ratio) ;;
  assign (set_vertex_buffer_capacity None) ;;
  assign (set_index_buffer_capacity None).

End ColorArrays.

(** The object [__init__] starts from.  No attribute exists yet; the
    fields hold placeholders, and [None] in the three attributes that
    the code probes with [hasattr]. *)
Definition blank : Primitive :=
  mkPrimitive (mk_ndarray [0%nat] []) None None None None None None None None
    MetallicRoughnessMaterial GLTF.TRIANGLES None None None None [] None None
    1%Q None None None None None.

(** *** Binding to a context *)

(** [vertex_data = np.hstack((vertex_data, attribute))] when the
    attribute is present. *)
Definition stack (vertex_data : ndarray f32) (attribute : option (ndarray f32))
  : result (ndarray f32) :=
  match attribute with
  | Some a => hstack vertex_data a
  | None => Ok vertex_data
  end.

(** The interleaved vertex data that [_add_to_context] and
    [_update_vertex_buffer] assemble: positions, then the normals,
    tangents, texture coordinates and colours that are present,
    flattened. *)
Definition vertex_data (p : Primitive) : result (list f32) :=
  and_then (stack (_positions p) (_normals p)) (fun v =>
  and_then (stack v (_tangents p)) (fun v =>
  and_then (stack v (_texcoord_0 p)) (fun v =>
  and_then (stack v (_texcoord_1 p)) (fun v =>
  and_then (stack v (_color_0 p)) (fun v =>
  Ok (flatten v)))))).

(** [attr_sizes] of [_add_to_context] *)
Definition attr_sizes (p : Primitive) : list Z :=
  let width {A} (attribute : option A) (sz : Z) : list Z :=
    match attribute with Some _ => [sz] | None => [] end in
  [3%Z]
    ++ width (_normals p) 3%Z
    ++ width (_tangents p) 4%Z
    ++ width (_texcoord_0 p) 2%Z
    ++ width (_texcoord_1 p) 2%Z
    ++ width (_color_0 p) 4%Z.

(** [for i, sz in enumerate(attr_sizes)], from index [i] and offset
    [offset] on. *)
Fixpoint attrib_pointers (total_sz : Z) (sizes : list Z) (i offset : Z)
  : M state unit :=
  match sizes with
  | [] => ret tt
  | sz :: rest =>
      gl (glVertexAttribPointer i sz false (FLOAT_SZ * total_sz)
            (FLOAT_SZ * offset)) ;;
      gl (glEnableVertexAttribArray i) ;;
      attrib_pointers total_sz rest (i + 1) (offset + sz)
  end.

(** [sum(attr_sizes)] *)
Definition sum (l : list Z) : Z := fold_right Z.add 0%Z l.

(** [_add_to_context] *)
Definition _add_to_context : M state unit :=
  p <- self ;;
  match _vaid p with
  | Some _ => raise (ValueError "Mesh is already bound to a context")
  | None =>
      (* Generate and bind VAO *)
      vaid <- gl_gen (glGenVertexArrays 1) ;;
      assign (set_vaid (Some vaid)) ;;
      gl (glBindVertexArray vaid) ;;
      (* Fill vertex buffer *)
      vertexbuffer <- gl_gen (glGenBuffers 1) ;;
      assign (fun p => set_buffers (_buffers p ++ [vertexbuffer]) p) ;;
      gl (glBindBuffer GL_ARRAY_BUFFER vertexbuffer) ;;
      p <- self ;;
      vertex_data <- lift (vertex_data p) ;;
      let attr_sizes := attr_sizes p in
      let n := Z.of_nat (length vertex_data) in
      let buffer_size := int (inject_Z n * _buffer_reserve_ratio p) in
      assign (set_vertex_buffer_capacity (Some buffer_size)) ;;
      gl (glBufferData GL_ARRAY_BUFFER (FLOAT_SZ * buffer_size) None
            GL_DYNAMIC_DRAW) ;;
      gl (glBufferSubData GL_ARRAY_BUFFER 0 (FLOAT_SZ * n)
            (Floats vertex_data)) ;;
      attrib_pointers (sum attr_sizes) attr_sizes 0 0 ;;
      (* Fill model matrix buffer *)
      pose_data <- match _poses p with
                   | Some poses =>
                       t <- lift (transpose_021 poses) ;; ret (flatten t)
                   | None => ret eye4_flat
                   end ;;
      modelbuffer <- gl_gen (glGenBuffers 1) ;;
      assign (fun p => set_buffers (_buffers p ++ [modelbuffer]) p) ;;
      gl (glBindBuffer GL_ARRAY_BUFFER modelbuffer) ;;
      gl (glBufferData GL_ARRAY_BUFFER
            (FLOAT_SZ * Z.of_nat (length pose_data))
            (Some (Floats pose_data)) GL_STATIC_DRAW) ;;
      for_each [0; 1; 2; 3]%Z (fun i =>
        let idx := (i + Z.of_nat (length attr_sizes))%Z in
        gl (glEnableVertexAttribArray idx) ;;
        gl (glVertexAttribPointer idx 4 false (FLOAT_SZ * 4 * 4)
              (4 * FLOAT_SZ * i)) ;;
        gl (glVertexAttribDivisor idx 1)) ;;
      (* Fill element buffer *)
      match _indices p with
      | Some indices =>
          elementbuffer <- gl_gen (glGenBuffers 1) ;;
          assign (fun p => set_buffers (_buffers p ++ [elementbuffer]) p) ;;
          assign (set_element_buffer_id (Some elementbuffer)) ;;
          gl (glBindBuffer GL_ELEMENT_ARRAY_BUFFER elementbuffer) ;;
          let indices_data := flatten_uint32 indices in
          let m := Z.of_nat (size indices) in
          let buffer_size := int (inject_Z m * _buffer_reserve_ratio p) in
          assign (set_index_buffer_capacity (Some buffer_size)) ;;
          gl (glBufferData GL_ELEMENT_ARRAY_BUFFER (UINT_SZ * buffer_size)
                None GL_DYNAMIC_DRAW) ;;
          gl (glBufferSubData GL_ELEMENT_ARRAY_BUFFER 0 (UINT_SZ * m)
                (UInts indices_data))
      | None => ret tt
      end ;;
      gl (glBindVertexArray 0)
  end.

(** [_remove_from_context] *)
Definition _remove_from_context : M state unit :=
  p <- self ;;
  match _vaid p with
  | Some vaid =>
      gl (glDeleteVertexArrays 1 [vaid]) ;;
      gl (glDeleteBuffers (Z.of_nat (length (_buffers p))) (_buffers p)) ;;
      assign (set_vaid None) ;;
      assign (set_buffers [])
  | None => ret tt
  end.

(** [_in_context] *)
Definition _in_context : M state bool :=
  p <- self ;;
  ret (match _vaid p with Some _ => true | None => false end).

(** [_bind] *)
Definition _bind : M state unit :=
  p <- self ;;
  match _vaid p with
  | None =>
      raise (ValueError
               "Cannot bind a Mesh that has not been added to a context")
  | Some vaid => gl (glBindVertexArray vaid)
  end.

(** [_unbind] *)
Definition _unbind : M state unit := gl (glBindVertexArray 0).

(** [delete] *)
Definition delete : M state unit :=
  _unbind ;;
  _remove_from_context.

(** *** Dynamic updates *)

(** [capacity is not None and count <= capacity] *)
Definition fits (count : Z) (capacity : option Z) : bool :=
  match capacity with
  | Some c => (count <=? c)%Z
  | None => false
  end.

(** [update_positions] *)
Definition update_positions (positions : array_like) : M state unit :=
  let positions := asanyarray_float32 positions in
  assign (set_positions positions) ;;
  assign (set_bounds None) ;;
  assign (set_needs_vertex_update (Some true)).

(** [_update_vertex_buffer] *)
Definition _update_vertex_buffer : M state unit :=
  in_context <- _in_context ;;
  if negb in_context then ret tt
  else
    p <- self ;;
    (* Bind VAO: the guard above leaves only [_vaid p = Some vaid] *)
    match _vaid p with
    | None => ret tt
    | Some vaid =>
        gl (glBindVertexArray vaid) ;;
        vertex_data <- lift (vertex_data p) ;;
        let n := Z.of_nat (length vertex_data) in
        match _buffers p with
        | b0 :: _ =>
            gl (glBindBuffer GL_ARRAY_BUFFER b0) ;;
            if fits n (_vertex_buffer_capacity p) then
              gl (glBufferSubData GL_ARRAY_BUFFER 0 (FLOAT_SZ * n)
                    (Floats vertex_data))
            else
              let buffer_size := int (inject_Z n * _buffer_reserve_ratio p) in
              assign (set_vertex_buffer_capacity (Some buffer_size)) ;;
              gl (glBufferData GL_ARRAY_BUFFER (FLOAT_SZ * buffer_size) None
                    GL_DYNAMIC_DRAW) ;;
              gl (glBufferSubData GL_ARRAY_BUFFER 0 (FLOAT_SZ * n)
                    (Floats vertex_data))
        | [] => ret tt
        end ;;
        gl (glBindVertexArray 0)
    end.

(** [update_topology] *)
Definition update_topology (indices : option array_like) : M state unit :=
  let indices := match indices with
                 | Some indices => Some (asanyarray_float32 indices)
                 | None => None
                 end in
  assign (set_indices indices) ;;
  assign (set_bounds None) ;;
  assign (set_needs_index_update (Some true)).

(** [_update_index_buffer] *)
Definition _update_index_buffer : M state unit :=
  in_context <- _in_context ;;
  if negb in_context then ret tt
  else
    p <- self ;;
    match _vaid p with
    | None => ret tt
    | Some vaid =>
        gl (glBindVertexArray vaid) ;;
        match _indices p with
        | Some indices =>
            let indices_data := flatten_uint32 indices in
            (* Check if we already have an element buffer *)
            element_buffer <-
              match _element_buffer_id p with
              | Some element_buffer => ret element_buffer
              | None =>
                  element_buffer <- gl_gen (glGenBuffers 1) ;;
                  assign (fun p =>
                            set_buffers (_buffers p ++ [element_buffer]) p) ;;
                  assign (set_element_buffer_id (Some element_buffer)) ;;
                  assign (set_index_buffer_capacity None) ;;
                  ret element_buffer
              end ;;
            gl (glBindBuffer GL_ELEMENT_ARRAY_BUFFER element_buffer) ;;
            p <- self ;;
            let m := Z.of_nat (size indices) in
            if fits m (_index_buffer_capacity p) then
              gl (glBufferSubData GL_ELEMENT_ARRAY_BUFFER 0 (UINT_SZ * m)
                    (UInts indices_data))
            else
              let buffer_size := int (inject_Z m * _buffer_reserve_ratio p) in
              assign (set_index_buffer_capacity (Some buffer_size)) ;;
              gl (glBufferData GL_ELEMENT_ARRAY_BUFFER (UINT_SZ * buffer_size)
                    None GL_DYNAMIC_DRAW) ;;
              gl (glBufferSubData GL_ELEMENT_ARRAY_BUFFER 0 (UINT_SZ * m)
                    (UInts indices_data))
        | None =>
            (* If indices are None, unbind element buffer *)
            gl (glBindBuffer GL_ELEMENT_ARRAY_BUFFER 0)
        end ;;
        gl (glBindVertexArray 0)
    end.

(** [hasattr(self, flag) and self.flag] *)
Definition is_set (flag : option bool) : bool :=
  match flag with
  | Some b => b
  | None => false
  end.

(** [sync_gpu] *)
Definition sync_gpu : M state unit :=
  in_context <- _in_context ;;
  if negb in_context then ret tt
  else
    p <- self ;;
    (if is_set (_needs_vertex_update p) then
       _update_vertex_buffer ;;
       assign (set_needs_vertex_update (Some false))
     else ret tt) ;;
    p <- self ;;
    (if is_set (_needs_index_update p) then
       _update_index_buffer ;;
       assign (set_needs_index_update (Some false))
     else ret tt).

(** *** Writes of new content *)

(** A full-content write of the vertex buffer: the new positions
    become current and the buffer is brought up to date. *)
Definition write_vertices (positions : array_like) : M state unit :=
  update_positions positions ;;
  _update_vertex_buffer.

(** A full-content write of the index buffer. *)
Definition write_indices (indices : array_like) : M state unit :=
  update_topology (Some indices) ;;
  _update_index_buffer.



(** The capacity recorded after a write of [count] elements: unchanged
    when the count fits, [int(count * ratio)] otherwise. *)
Definition grow (ratio : Q) (count : Z) (capacity : option Z) : option Z :=
  if fits count capacity then capacity
  else Some (int (inject_Z count * ratio)).

(** The calls by which a write of [count] elements of [elt_sz] bytes
    reaches the buffer bound to [t]: a reallocation when the count does
    not fit, then the upload. *)
Definition write_calls (t : target) (elt_sz : Z) (ratio : Q) (count : Z)
    (capacity : option Z) (data : payload) : list call :=
  (if fits count capacity then []
   else [glBufferData t (elt_sz * int (inject_Z count * ratio)) None
           GL_DYNAMIC_DRAW])
    ++ [glBufferSubData t 0 (elt_sz * count) data].

(** A pending vertex update, if there is one, finds attributes that
    stack: [sync_gpu] will not raise in [_update_vertex_buffer]. *)
Definition vertex_update_ready (p : Primitive) : bool :=
  negb (is_set (_needs_vertex_update p)) || is_ok (vertex_data p).

(** The instancing poses, if any, can be transposed: [_add_to_context]
    will not raise while it fills the model matrix buffer. *)
Definition poses_ready (p : Primitive) : bool :=
  match _poses p with
  | Some poses => is_ok (transpose_021 poses)
  | None => true
  end.

(** The primitive has been added to a context. *)
Definition bound (p : Primitive) : Prop :=
  exists vaid b0 bs, _vaid p = Some vaid /\ _buffers p = b0 :: bs.

(** *** The layout of the vertex buffer *)

(** An attribute, when present, has shape [dims] and holds as many
    elements as its shape says. *)
Definition has_shape (attribute : option (ndarray f32)) (dims : list nat)
  : Prop :=
  match attribute with
  | Some a => shape a = dims /\ well_formed a
  | None => True
  end.

(** What has been stacked so far: [n] rows of [c] entries, row [i]
    being [rows i]. *)
Definition stacked (n c : nat) (rows : nat -> list f32) (v : ndarray f32)
  : Prop :=
  shape v = [n; c] /\ length (data v) = (n * c)%nat
  /\ forall i, (i < n)%nat -> row c i (data v) = rows i.

(** The entries of vertex [i] in an attribute of [width] columns;
    nothing when the attribute is absent. *)
Definition attr_row (attribute : option (ndarray f32)) (width i : nat)
  : list f32 :=
  match attribute with
  | Some a => row width i (data a)
  | None => []
  end.

(** The record of vertex [i] in the vertex buffer: its position, then
    the attributes that are present, in the order of declaration. *)
Definition vertex_record (p : Primitive) (i : nat) : list f32 :=
  row 3 i (data (_positions p))
    ++ attr_row (_normals p) 3 i
    ++ attr_row (_tangents p) 4 i
    ++ attr_row (_texcoord_0 p) 2 i
    ++ attr_row (_texcoord_1 p) 2 i
    ++ attr_row (_color_0 p) 4 i.

(** The primitive that [_add_to_context] leaves when it returns, [n]
    being the first name the driver hands out and [count] the number of
    floats of the vertex data: the vertex array is [n], the vertex and
    model matrix buffers are [n + 1] and [n + 2], and the element
    buffer, when there are indices, is [n + 3]. *)
Definition after_bind (p : Primitive) (n count : Z) : Primitive :=
  let r := _buffer_reserve_ratio p in
  let p1 :=
    set_vertex_buffer_capacity (Some (int (inject_Z count * r)))
      (set_buffers (_buffers p ++ [n + 1; n + 2]%Z) (set_vaid (Some n) p)) in
  match _indices p with
  | Some indices =>
      set_index_buffer_capacity
        (Some (int (inject_Z (Z.of_nat (size indices)) * r)))
        (set_element_buffer_id (Some (n + 3)%Z)
           (set_buffers (_buffers p ++ [n + 1; n + 2; n + 3]%Z) p1))
  | None => p1
  end.

(** The attributes that [_add_to_context] puts into the vertex buffer,
    in its order, each with the number of floats it gives a vertex. *)
Definition vertex_attributes (p : Primitive) : list (nat * ndarray f32) :=
  let present (width : nat) (attribute : option (ndarray f32)) :=
    match attribute with Some a => [(width, a)] | None => [] end in
  [(3%nat, _positions p)]
    ++ present 3%nat (_normals p)
    ++ present 4%nat (_tangents p)
    ++ present 2%nat (_texcoord_0 p)
    ++ present 2%nat (_texcoord_1 p)
    ++ present 4%nat (_color_0 p).

(** What the driver reads for vertex [i] through an attribute pointer
    of [size] floats with the given [stride] and [pointer], both in
    bytes, from a buffer that holds the floats [buffer]. *)
Definition fetch (buffer : list f32) (size stride pointer : Z) (i : nat)
  : list f32 :=
  firstn (Z.to_nat size)
    (skipn (Z.to_nat ((Z.of_nat i * stride + pointer) / FLOAT_SZ)) buffer).

(** *** The flags of the render buffer *)

Section BufFlags.

(** [BufFlags] of [pyrender/constants.py], which is not among the
    sources: the flags are parameters. *)
Variables (POSITION NORMAL TANGENT TEXCOORD_0 TEXCOORD_1 COLOR_0 JOINTS_0
             WEIGHTS_0 : Z).

(** [if attribute is not None: buf_flags |= flag] *)
Definition with_flag {A} (attribute : option A) (flag buf_flags : Z) : Z :=
  match attribute with
  | Some _ => Z.lor buf_flags flag
  | None => buf_flags
  end.

(** [_compute_buf_flags] *)
Definition _compute_buf_flags : M state Z :=
  p <- self ;;
  let buf_flags := POSITION in
  let buf_flags := with_flag (_normals p) NORMAL buf_flags in
  let buf_flags := with_flag (_tangents p) TANGENT buf_flags in
  let buf_flags := with_flag (_texcoord_0 p) TEXCOORD_0 buf_flags in
  let buf_flags := with_flag (_texcoord_1 p) TEXCOORD_1 buf_flags in
  let buf_flags := with_flag (_color_0 p) COLOR_0 buf_flags in
  let buf_flags := with_flag (_joints_0 p) JOINTS_0 buf_flags in
  let buf_flags := with_flag (_weights_0 p) WEIGHTS_0 buf_flags in
  ret buf_flags.

(** The property [buf_flags] *)
Definition buf_flags : M state Z :=
  p <- self ;;
  match _buf_flags p with
  | None =>
      flags <- _compute_buf_flags ;;
      assign (set_buf_flags (Some flags)) ;;
      ret flags
  | Some flags => ret flags
  end.

End BufFlags.

(** *** Transparency *)

Section Transparency.

(** [Material.is_transparent] of [pyrender/material.py], which is not
    among the sources: it is a parameter. *)
Variable material_is_transparent : Material -> bool.

(** [np.any(self._color_0[:,3] != 1.0)] *)
Definition any_alpha_differs (color_0 : ndarray f32) : result bool :=
  and_then (take_axis1 3 color_0) (fun alpha =>
  Ok (existsb (fun x => negb (SFeqb x f32_one)) (flatten alpha))).

(** [_compute_transparency]; the value returned is that of
    [_is_transparent], [None] standing for Python's [None]. *)
Definition _compute_transparency : M state (option bool) :=
  p <- self ;;
  if material_is_transparent (_material p) then ret (Some true)
  else
    match _is_transparent p with
    | None =>
        assign (set_is_transparent (Some false)) ;;
        match _color_0 p with
        | Some color_0 =>
            differs <- lift (any_alpha_differs color_0) ;;
            if differs : bool then assign (set_is_transparent (Some true))
            else ret tt
        | None => ret tt
        end
    | Some _ => ret tt
    end ;;
    p <- self ;;
    ret (_is_transparent p).

(** The property [is_transparent] *)
Definition is_transparent : M state (option bool) := _compute_transparency.

End Transparency.

End Primitive.

(* ===================================================================== *)
(** ** The growable buffer of the specification                          *)
(* ===================================================================== *)

Module GrowableGpuBuffer.

Local Open Scope Z_scope.

(** The capacity reserved for [count] elements: [round (count * ratio)],
    where the specification rounds up. *)
Definition reserve (round : Q -> Z) (ratio : Q) (count : Z) : Z :=
  round (inject_Z count * ratio)%Q.

(** The capacity after a sequence of writes of [counts] elements, as
    the specification words it: the largest reserved capacity seen so
    far among the writes whose count exceeded the capacity current at
    the time, starting from the capacity of the allocation. *)
Fixpoint capacity_after (round : Q -> Z) (ratio : Q) (capacity : Z)
    (counts : list Z) : Z :=
  match counts with
  | [] => capacity
  | count :: rest =>
      capacity_after round ratio
        (if capacity <? count
         then Z.max capacity (reserve round ratio count)
         else capacity)
        rest
  end.

(** The reserve as Python computes it when the ratio is a float: the
    count is converted to binary64, the product is rounded to nearest,
    and [int] truncates it. *)
Definition reserve_binary64 (ratio : spec_float) (count : Z) : option Z :=
  Np.trunc (SFmul 53 1024 (binary_normalize 53 1024 count 0 false) ratio).

End GrowableGpuBuffer.

(* ===================================================================== *)
(** ** [pyrender/compute_shader.py]: class ComputeShader                  *)
(* ===================================================================== *)

Module ComputeShader.

Import Np GL.
Local Open Scope py_scope.

(** An entry of [_ssbo_map]: buffer name of the driver, binding point,
    element type and shape. *)
Definition ssbo_entry : Type := (Z * Z * dtype * list nat)%type.

Record ComputeShader : Type := mkComputeShader {
  _program_id : option Z;
  _source : string;
  _work_groups : Z * Z * Z;
  _ssbo_map : gmap string ssbo_entry
}.

Definition set_ssbo_map (v : gmap string ssbo_entry) (c : ComputeShader)
  : ComputeShader :=
  mkComputeShader (_program_id c) (_source c) (_work_groups c) v.

Definition state : Type := World ComputeShader.

(** [create_storage_buffer] *)
Definition create_storage_buffer (name : string) (data : rawarray)
    (binding : Z) : M state unit :=
  c <- self ;;
  if decide (is_Some (_ssbo_map c !! name)) then
    raise (ValueError ("Buffer " ++ name ++ " already exists"))
  else
    (* Create and bind buffer *)
    ssbo <- gl_gen (glGenBuffers 1) ;;
    gl (glBindBuffer GL_SHADER_STORAGE_BUFFER ssbo) ;;
    (* Initialize buffer with data *)
    gl (glBufferData GL_SHADER_STORAGE_BUFFER (nbytes data)
          (Some (Bytes (tobytes data))) GL_DYNAMIC_COPY) ;;
    (* Bind to shader *)
    gl (glBindBufferBase GL_SHADER_STORAGE_BUFFER binding ssbo) ;;
    assign (fun c =>
      set_ssbo_map
        (<[name := (ssbo, binding, r_dtype data, r_shape data)]> (_ssbo_map c))
        c).

(** The binding points in use. *)
Definition binding_of (e : ssbo_entry) : Z := snd (fst (fst e)).

Definition binding_in_use (binding : Z) (c : ComputeShader) : Prop :=
  exists name e, _ssbo_map c !! name = Some e /\ binding_of e = binding.

(** [update_buffer] *)
Definition update_buffer (name : string) (data : rawarray) : M state unit :=
  c <- self ;;
  match _ssbo_map c !! name with
  | None => raise (ValueError ("Buffer " ++ name ++ " does not exist"))
  | Some (ssbo, binding, dtype, shape) =>
      if decide (r_dtype data <> dtype \/ r_shape data <> shape) then
        raise (ValueError "Data type or shape mismatch")
      else
        gl (glBindBuffer GL_SHADER_STORAGE_BUFFER ssbo) ;;
        gl (glBufferSubData GL_SHADER_STORAGE_BUFFER 0 (nbytes data)
              (Bytes (tobytes data)))
  end.

End ComputeShader.

(* ===================================================================== *)
(** ** [pyrender/advanced_features.py]: class PersistentBuffer            *)
(* ===================================================================== *)

Module PersistentBuffer.

Import Np GL.
Local Open Scope py_scope.
Local Open Scope Z_scope.

Record PersistentBuffer : Type := mkPersistentBuffer {
  _id : option Z;
  _target : target;
  _size : Z;
  (** the address [glMapBufferRange] returned *)
  _mapped_data : option Z;
  (** the mapped region, one byte per element *)
  _array : option (list Byte.byte)
}.

Definition set_array (v : option (list Byte.byte)) (b : PersistentBuffer)
  : PersistentBuffer :=
  mkPersistentBuffer (_id b) (_target b) (_size b) (_mapped_data b) v.

(** What [__init__] establishes: the region is mapped and the array
    over it has shape [(size,)]. *)
Definition mapped (b : PersistentBuffer) : Prop :=
  exists region, _array b = Some region /\ Z.of_nat (length region) = _size b.

(** A bound of a slice on a sequence of [n] elements, as Python
    normalises it: a negative bound counts from the end, and the result
    is clipped to [0..n]. *)
Definition slice_bound (n i : Z) : Z :=
  let i := if i <? 0 then i + n else i in
  Z.max 0 (Z.min i n).

(** [a[start:stop] = values] on a 1-dimensional array: the slice and
    the values have the same length, or a single value is broadcast
    over the slice. *)
Definition setitem_slice {A} (a : list A) (start stop : Z) (values : list A)
  : result (list A) :=
  let n := Z.of_nat (length a) in
  let lo := slice_bound n start in
  let hi := slice_bound n stop in
  let m := Z.to_nat (Z.max 0 (hi - lo)) in
  let before := firstn (Z.to_nat lo) a in
  let after := skipn (Z.to_nat lo + m) a in
  if decide (length values = m) then Ok (before ++ values ++ after)
  else
    match values with
    | [v] => Ok (before ++ repeat v m ++ after)
    | _ => Raise (ValueError "could not broadcast input array")
    end.

Definition capacity_exceeded : exn :=
  ValueError "Update would exceed buffer size".

(** [update] *)
Definition update (data : rawarray) (offset : Z) : M PersistentBuffer unit :=
  b <- get ;;
  if offset + nbytes data >? _size b then raise capacity_exceeded
  else
    match _array b with
    | None =>
        raise (TypeError "'NoneType' object does not support item assignment")
    | Some region =>
        region <- lift (setitem_slice region offset (offset + nbytes data)
                          (tobytes data)) ;;
        modify (set_array (Some region))
    end.

(** The region with [bytes] written from position [offset] on. *)
Definition written (region : list Byte.byte) (offset : Z)
    (bytes : list Byte.byte) : list Byte.byte :=
  firstn (Z.to_nat offset) region ++ bytes
    ++ skipn (Z.to_nat offset + length bytes) region.

End PersistentBuffer.

(* ===================================================================== *)
(** ** [pyrender/advanced_features.py]: class DirectStateBuffer           *)
(* ===================================================================== *)

Module DirectStateBuffer.

Import Np GL.
Local Open Scope py_scope.
Local Open Scope Z_scope.

(** The attributes of a live buffer; [delete], which sets [_id] to
    [None], is not part of the model. *)
Record DirectStateBuffer : Type := mkDirectStateBuffer {
  _id : Z;
  _target : target;
  _usage : usage;
  _size : Z
}.

Definition set_id (v : Z) (b : DirectStateBuffer) : DirectStateBuffer :=
  mkDirectStateBuffer v (_target b) (_usage b) (_size b).

Definition set_target (v : target) (b : DirectStateBuffer)
  : DirectStateBuffer :=
  mkDirectStateBuffer (_id b) v (_usage b) (_size b).

Definition set_usage (v : usage) (b : DirectStateBuffer) : DirectStateBuffer :=
  mkDirectStateBuffer (_id b) (_target b) v (_size b).

Definition set_size (v : Z) (b : DirectStateBuffer) : DirectStateBuffer :=
  mkDirectStateBuffer (_id b) (_target b) (_usage b) v.

Definition state : Type := World DirectStateBuffer.

(** [__init__] *)
Definition __init__ (target : target) (usage : usage) : M state unit :=
  id <- gl_gen (glGenBuffers 1) ;;
  assign (set_id id) ;;
  gl (glBindBuffer target id) ;;
  assign (set_target target) ;;
  assign (set_usage usage) ;;
  assign (set_size 0).

(** [set_data] *)
Definition set_data (data : rawarray) : M state unit :=
  assign (set_size (nbytes data)) ;;
  b <- self ;;
  gl (glBindBuffer (_target b) (_id b)) ;;
  gl (glBufferData (_target b) (_size b) (Some (Bytes (tobytes data)))
        (_usage b)).

(** [update_data] *)
Definition update_data (data : rawarray) (offset : Z) : M state unit :=
  b <- self ;;
  if offset + nbytes data >? _size b then
    raise (ValueError "Update would exceed buffer size")
  else
    gl (glBindBuffer (_target b) (_id b)) ;;
    gl (glBufferSubData (_target b) offset (nbytes data)
          (Bytes (tobytes data))).

(** The object [__init__] starts from; the fields hold placeholders. *)
Definition blank : DirectStateBuffer :=
  mkDirectStateBuffer 0 GL_ARRAY_BUFFER GL_STATIC_DRAW 0.

(** A call of one of the two methods that move data. *)
Inductive method : Type :=
| Set_data (data : rawarray)
| Update_data (data : rawarray) (offset : Z).

Definition call_method (m : method) : M state unit :=
  match m with
  | Set_data data => set_data data
  | Update_data data offset => update_data data offset
  end.

(** The world after the calls [ms], made one after the other, an
    exception of one not keeping the caller from making the next. *)
Definition after (ms : list method) (w : state) : state :=
  fold_left (fun w m => snd (call_method m w)) ms w.

(** The size of the data store of a buffer after [calls], all to that
    buffer, when its store held [size] bytes before: [glBufferData]
    replaces the store, and a [glBufferSubData] has to end within the
    store it meets; [None] when one does not. *)
Fixpoint store_after (size : Z) (calls : list call) : option Z :=
  match calls with
  | [] => Some size
  | glBufferData _ sz _ _ :: rest => store_after sz rest
  | glBufferSubData _ offset sz _ :: rest =>
      if offset + sz <=? size then store_after size rest else None
  | _ :: rest => store_after size rest
  end.

End DirectStateBuffer.

(* ===================================================================== *)
(** ** Test data                                                         *)
(* ===================================================================== *)

Module Examples.

Import Np GL.
Local Open Scope py_scope.

Definition ints (shape : list nat) (values : list Z) : array_like :=
  mk_ndarray shape (map Int values).

(** The vertices and faces of [tests/unit/test_dynamic_topology.py]. *)
Definition quad : array_like :=
  ints [4; 3]%nat [0; 0; 0;  1; 0; 0;  0; 1; 0;  1; 1; 0]%Z.

Definition triangle : array_like :=
  ints [3; 3]%nat [0; 0; 0;  1; 0; 0;  0; 1; 0]%Z.

Definition raised_triangle : array_like :=
  ints [3; 3]%nat [0; 0; 1;  1; 0; 1;  0; 1; 1]%Z.

Definition initial_indices : array_like :=
  ints [2; 3]%nat [0; 1; 2;  1; 3; 2]%Z.

Definition new_indices : array_like :=
  ints [2; 3]%nat [0; 1; 3;  0; 3; 2]%Z.

(** Five vertices, and a face naming vertex 2^24 + 1. *)
Definition five_points : array_like :=
  ints [5; 3]%nat [0; 0; 0;  1; 0; 0;  0; 1; 0;  1; 1; 0;  2; 2; 2]%Z.

Definition large_index : array_like :=
  ints [1; 3]%nat [0; 1; 16777217]%Z.

(** A colour formatting that casts and keeps the shape; the examples
    pass no colours. *)
Definition cast_colors (value : array_like) (shape : nat * nat)
  : result (ndarray f32) :=
  Ok (asanyarray_float32 value).

(** A context in which no name has been generated yet. *)
Definition fresh_context : GL.context := mk_context 1 [].

(** [Primitive(positions=positions, indices=indices, mode=TRIANGLES,
    buffer_reserve_ratio=ratio)] *)
Definition new_primitive (positions : array_like)
    (indices : option array_like) (ratio : Q) : M Primitive.state unit :=
  Primitive.__init__ cast_colors positions None None None None None None None
    indices None (Some Primitive.GLTF.TRIANGLES) None None ratio.

(** The state a computation ends in, started on a blank primitive in
    the fresh context. *)
Definition final (m : M Primitive.state unit) : Primitive.state :=
  snd (m (Primitive.blank, fresh_context)).

(** The quad of the tests with its two faces, added to a context. *)
Definition bound_quad (ratio : Q) : Primitive.state :=
  final (new_primitive quad (Some initial_indices) ratio ;;
         Primitive._add_to_context).

(** A persistent buffer of 16 zero bytes and four bytes to write. *)
Definition buffer16 : PersistentBuffer.PersistentBuffer :=
  PersistentBuffer.mkPersistentBuffer (Some 1%Z) GL_ARRAY_BUFFER 16 (Some 4096%Z)
    (Some (repeat Byte.x00 16)).

Definition four_bytes : rawarray :=
  mk_rawarray uint8 [4%nat] [Byte.x01; Byte.x02; Byte.x03; Byte.x04].

(** A compute shader holding buffer "input" at binding point 0. *)
Definition shader_with_input : ComputeShader.state :=
  (ComputeShader.mkComputeShader (Some 1%Z) "void main() {}" (4, 1, 1)%Z
     {[ "input" := (2%Z, 0%Z, float32, [4%nat]) ]},
   mk_context 3 []).

Definition sixteen_bytes : rawarray :=
  mk_rawarray float32 [4%nat] (repeat Byte.x00 16).

(** Normals for the four vertices of the quad. *)
Definition quad_normals : array_like :=
  ints [4; 3]%nat [0; 0; 1;  0; 0; 1;  0; 0; 1;  0; 0; 1]%Z.

(** The quad with normals and with its two faces, as constructed. *)
Definition quad_with_normals : Primitive.state :=
  final (Primitive.__init__ cast_colors quad (Some quad_normals) None None
           None None None None (Some initial_indices) None
           (Some Primitive.GLTF.TRIANGLES) None None 1).

(** The quad with a colour for each vertex, the last one with alpha 0. *)
Definition quad_colors : array_like :=
  ints [4; 4]%nat [1; 0; 0; 1;  0; 1; 0; 1;  0; 0; 1; 1;  1; 1; 1; 0]%Z.

Definition coloured_quad : Primitive.state :=
  final (Primitive.__init__ cast_colors quad None None None None
           (Some quad_colors) None None (Some initial_indices) None
           (Some Primitive.GLTF.TRIANGLES) None None 1).

(** The quad of the tests with its two faces, as constructed. *)
Definition unbound_quad (ratio : Q) : Primitive.state :=
  final (new_primitive quad (Some initial_indices) ratio).

(** The quad without faces, added to a context. *)
Definition bound_points (ratio : Q) : Primitive.state :=
  final (new_primitive quad None ratio ;; Primitive._add_to_context).

(** The bound quad after its faces have been taken away and it has been
    deleted. *)
Definition deleted_quad : Primitive.state :=
  snd ((Primitive.update_topology None ;; Primitive.sync_gpu ;;
        Primitive.delete) (bound_quad 2)).

End Examples.

(* ===================================================================== *)
(** ** Properties                                                        *)
(* ===================================================================== *)

Import Np GL.
Local Open Scope py_scope.

(** *** Arithmetic of the reserve *)


(** *** Running the methods of [Primitive] *)

Ltac unfold_methods :=
  unfold Primitive.sync_gpu, Primitive._update_vertex_buffer,
    Primitive._update_index_buffer, Primitive.update_positions,
    Primitive.update_topology, Primitive._in_context, Primitive.delete,
    Primitive._unbind, Primitive._remove_from_context, Primitive._bind,
    Primitive.write_vertices, Primitive.write_indices,
    Py.bind, self, Py.ret, gl, gl_gen, Py.lift, assign, Py.raise in *.

Ltac run_with tac := unfold_methods; repeat (progress (cbn; tac)).

Arguments Primitive._update_vertex_buffer : simpl never.
Arguments Primitive._update_index_buffer : simpl never.
Arguments Primitive.write_calls : simpl never.
Arguments Primitive.grow : simpl never.
Arguments GL.uploads : simpl never.

(** *** The log of calls *)

Lemma uploads_app t l1 l2 : uploads t (l1 ++ l2) = uploads t l1 ++ uploads t l2.
Proof. unfold uploads. apply flat_map_app. Qed.

Lemma uploads_cons t c l :
  uploads t (c :: l)
  = match c with
    | glBufferSubData t' _ _ d => if decide (t' = t) then [d] else []
    | _ => []
    end ++ uploads t l.
Proof. reflexivity. Qed.

Lemma uploads_nil t : uploads t [] = [].
Proof. reflexivity. Qed.

Lemma uploads_write_calls t t' sz r n cap d :
  uploads t (Primitive.write_calls t' sz r n cap d)
  = if decide (t' = t) then [d] else [].
Proof.
  unfold Primitive.write_calls, uploads.
  destruct (Primitive.fits n cap); cbn; destruct (decide (t' = t)); reflexivity.
Qed.

Ltac simpl_uploads :=
  repeat (progress (rewrite ?uploads_app, ?uploads_cons, ?uploads_nil,
                      ?uploads_write_calls; cbn)).

(** Assigning to an attribute the value it holds changes nothing. *)
Lemma set_vertex_buffer_capacity_same (p : Primitive.Primitive) :
  Primitive.set_vertex_buffer_capacity (Primitive._vertex_buffer_capacity p) p
  = p.
Proof. destruct p; reflexivity. Qed.

Lemma set_index_buffer_capacity_same (p : Primitive.Primitive) :
  Primitive.set_index_buffer_capacity (Primitive._index_buffer_capacity p) p
  = p.
Proof. destruct p; reflexivity. Qed.

Section PrimitiveRuns.

Import Primitive.

Variables (p : Primitive) (g : context) (vaid : Z).
Hypothesis Hvaid : _vaid p = Some vaid.

Lemma update_vertex_buffer_runs (b0 : Z) (bs : list Z) (vd : list f32) :
  _buffers p = b0 :: bs ->
  vertex_data p = Ok vd ->
  let n := Z.of_nat (length vd) in
  let r := _buffer_reserve_ratio p in
  let cap := _vertex_buffer_capacity p in
  _update_vertex_buffer (p, g)
  = (Ok tt,
     (set_vertex_buffer_capacity (grow r n cap) p,
      mk_context (next_name g)
        (log g ++ [glBindVertexArray vaid; glBindBuffer GL_ARRAY_BUFFER b0]
           ++ write_calls GL_ARRAY_BUFFER FLOAT_SZ r n cap (Floats vd)
           ++ [glBindVertexArray 0]))).
Proof.
  intros Hb Hd n r cap. subst n r cap.
  run_with ltac:(rewrite ?Hvaid, ?Hb, ?Hd).
  unfold grow, write_calls, record.
  destruct (fits _ _); cbn; rewrite <- ?app_assoc,
    ?set_vertex_buffer_capacity_same; reflexivity.
Qed.

Lemma update_index_buffer_runs (indices : ndarray f32) (eb : Z) :
  _indices p = Some indices ->
  _element_buffer_id p = Some eb ->
  let m := Z.of_nat (size indices) in
  let r := _buffer_reserve_ratio p in
  let cap := _index_buffer_capacity p in
  _update_index_buffer (p, g)
  = (Ok tt,
     (set_index_buffer_capacity (grow r m cap) p,
      mk_context (next_name g)
        (log g
           ++ [glBindVertexArray vaid; glBindBuffer GL_ELEMENT_ARRAY_BUFFER eb]
           ++ write_calls GL_ELEMENT_ARRAY_BUFFER UINT_SZ r m cap
                (UInts (flatten_uint32 indices))
           ++ [glBindVertexArray 0]))).
Proof.
  intros Hi He m r cap. subst m r cap.
  run_with ltac:(rewrite ?Hvaid, ?Hi, ?He).
  unfold grow, write_calls, record.
  destruct (fits _ _); cbn; rewrite <- ?app_assoc,
    ?set_index_buffer_capacity_same; reflexivity.
Qed.

Lemma update_index_buffer_creates (indices : ndarray f32) :
  _indices p = Some indices ->
  _element_buffer_id p = None ->
  let m := Z.of_nat (size indices) in
  let r := _buffer_reserve_ratio p in
  let eb := next_name g in
  _update_index_buffer (p, g)
  = (Ok tt,
     (set_index_buffer_capacity (Some (int (inject_Z m * r)))
        (set_element_buffer_id (Some eb)
           (set_buffers (_buffers p ++ [eb]) p)),
      mk_context (next_name g + 1)
        (log g
           ++ [glBindVertexArray vaid; glGenBuffers 1 eb;
               glBindBuffer GL_ELEMENT_ARRAY_BUFFER eb]
           ++ write_calls GL_ELEMENT_ARRAY_BUFFER UINT_SZ r m None
                (UInts (flatten_uint32 indices))
           ++ [glBindVertexArray 0]))).
Proof.
  intros Hi He m r eb. subst m r eb.
  run_with ltac:(rewrite ?Hvaid, ?Hi, ?He).
  unfold write_calls, record, fresh. cbn. rewrite <- ?app_assoc. reflexivity.
Qed.

Lemma update_index_buffer_unindexed :
  _indices p = None ->
  _update_index_buffer (p, g)
  = (Ok tt,
     (p, mk_context (next_name g)
           (log g ++ [glBindVertexArray vaid;
                      glBindBuffer GL_ELEMENT_ARRAY_BUFFER 0;
                      glBindVertexArray 0]))).
Proof.
  intros Hi. run_with ltac:(rewrite ?Hvaid, ?Hi).
  unfold record. cbn. rewrite <- ?app_assoc. reflexivity.
Qed.

End PrimitiveRuns.

Section IndexUpdateFrame.

Import Primitive.

(** Whatever the indices are, [_update_index_buffer] returns, touches
    only the index side of the primitive and uploads nothing to the
    vertex buffer. *)
Lemma update_index_buffer_frame (p : Primitive) (g : context) (vaid : Z) :
  _vaid p = Some vaid ->
  exists c' e' b' g' calls,
    _update_index_buffer (p, g)
    = (Ok tt,
       (set_index_buffer_capacity c'
          (set_element_buffer_id e' (set_buffers (_buffers p ++ b') p)), g'))
    /\ log g' = log g ++ calls
    /\ uploads GL_ARRAY_BUFFER calls = []
    /\ uploads GL_ELEMENT_ARRAY_BUFFER calls
       = match _indices p with
         | Some indices => [UInts (flatten_uint32 indices)]
         | None => []
         end.
Proof.
  intros Hv.
  destruct (_indices p) as [indices|] eqn:Hi.
  - destruct (_element_buffer_id p) as [eb|] eqn:He.
    + rewrite (update_index_buffer_runs p g vaid Hv indices eb Hi He).
      eexists (grow (_buffer_reserve_ratio p) (Z.of_nat (size indices))
                 (_index_buffer_capacity p)), (Some eb), [], _, _.
      split.
      { rewrite app_nil_r. do 2 f_equal.
        destruct p; cbn in *; subst; reflexivity. }
      split; [reflexivity|].
      simpl_uploads. split; reflexivity.
    + rewrite (update_index_buffer_creates p g vaid Hv indices Hi He).
      eexists _, _, _, _, _. split; [reflexivity|]. split; [reflexivity|].
      simpl_uploads. split; reflexivity.
  - rewrite (update_index_buffer_unindexed p g vaid Hv Hi).
    eexists (_index_buffer_capacity p), (_element_buffer_id p), [], _, _.
    split.
    { rewrite app_nil_r. do 2 f_equal. destruct p; reflexivity. }
    split; [reflexivity|]. split; reflexivity.
Qed.

End IndexUpdateFrame.

(* ===================================================================== *)
(** ** C6: the last staged value wins                                    *)
(* ===================================================================== *)

(** C6.  When two values are staged in the same pending cell before one
    [sync_gpu], the run ends exactly as if only the second had been
    staged, for positions and for indices alike: the first value leaves
    no trace in the primitive or in the calls made.  On a bound
    primitive whose attributes stack with the second positions, the
    sync returns, uploads to the vertex buffer exactly the vertex data
    built from the second positions, and leaves them current with no
    vertex update pending.  On a bound primitive whose pending vertex
    update, if any, can be carried out, the sync after two staged index
    arrays returns, uploads to the element buffer exactly the second
    array, and leaves it current with no index update pending. *)
Theorem last_staged_value_wins
    (p : Primitive.Primitive) (g : context)
    (first second : array_like) (first_i : option array_like)
    (second_i : array_like) :
  (Primitive.update_positions first ;; Primitive.update_positions second ;;
   Primitive.sync_gpu) (p, g)
  = (Primitive.update_positions second ;; Primitive.sync_gpu) (p, g)
  /\ (Primitive.update_topology first_i ;;
      Primitive.update_topology (Some second_i) ;;
      Primitive.sync_gpu) (p, g)
     = (Primitive.update_topology (Some second_i) ;; Primitive.sync_gpu) (p, g)
  /\ (forall vd,
       Primitive.bound p ->
       Primitive.vertex_data
         (Primitive.set_positions (asanyarray_float32 second) p) = Ok vd ->
       exists w' calls,
         (Primitive.update_positions first ;;
          Primitive.update_positions second ;;
          Primitive.sync_gpu) (p, g) = (Ok tt, w')
         /\ log (snd w') = log g ++ calls
         /\ uploads GL_ARRAY_BUFFER calls = [Floats vd]
         /\ Primitive._positions (fst w') = asanyarray_float32 second
         /\ Primitive._needs_vertex_update (fst w') = Some false)
  /\ (Primitive.bound p ->
      Primitive.vertex_update_ready p = true ->
      exists w' calls,
        (Primitive.update_topology first_i ;;
         Primitive.update_topology (Some second_i) ;;
         Primitive.sync_gpu) (p, g) = (Ok tt, w')
        /\ log (snd w') = log g ++ calls
        /\ uploads GL_ELEMENT_ARRAY_BUFFER calls
           = [UInts (flatten_uint32 (asanyarray_float32 second_i))]
        /\ Primitive._indices (fst w') = Some (asanyarray_float32 second_i)
        /\ Primitive._needs_index_update (fst w') = Some false).
Proof.
  split; [reflexivity|]. split; [reflexivity|]. split.
  - intros vd (vaid & b0 & bs & Hv & Hb) Hd.
    unfold Primitive.update_positions, Primitive.sync_gpu,
      Primitive._in_context, Py.bind, self, Py.ret, assign. cbn.
    rewrite Hv. cbn.
    erewrite update_vertex_buffer_runs; [| exact Hv | exact Hb | exact Hd].
    cbn.
    destruct (Primitive.is_set (Primitive._needs_index_update p)).
    + match goal with
      | |- context [Primitive._update_index_buffer (?q, ?h)] =>
          destruct (update_index_buffer_frame q h vaid Hv)
            as (c' & e' & b' & g' & calls & -> & Hlog & Hup & _)
      end.
      cbn. eexists _, _. split; [reflexivity|]. cbn.
      rewrite Hlog. cbn. rewrite <- app_assoc. split; [reflexivity|].
      simpl_uploads. rewrite Hup. auto.
    + eexists _, _. split; [reflexivity|]. cbn. split; [reflexivity|].
      simpl_uploads. auto.
  - intros (vaid & b0 & bs & Hv & Hb) Hready.
    unfold Primitive.update_topology, Primitive.sync_gpu,
      Primitive._in_context, Py.bind, self, Py.ret, assign. cbn.
    rewrite Hv. cbn.
    unfold Primitive.vertex_update_ready in Hready.
    destruct (Primitive.is_set (Primitive._needs_vertex_update p));
      cbn in Hready.
    + destruct (Primitive.vertex_data p) as [vd|e] eqn:Hd; [|discriminate].
      erewrite update_vertex_buffer_runs; [| exact Hv | exact Hb | exact Hd].
      cbn.
      match goal with
      | |- context [Primitive._update_index_buffer (?q, ?h)] =>
          destruct (update_index_buffer_frame q h vaid Hv)
            as (c' & e' & b' & g' & calls & -> & Hlog & _ & Hup)
      end.
      cbn. eexists _, _. split; [reflexivity|]. cbn.
      rewrite Hlog. cbn. rewrite <- app_assoc. split; [reflexivity|].
      simpl_uploads. rewrite Hup. auto.
    + cbn.
      match goal with
      | |- context [Primitive._update_index_buffer (?q, ?h)] =>
          destruct (update_index_buffer_frame q h vaid Hv)
            as (c' & e' & b' & g' & calls & -> & Hlog & _ & Hup)
      end.
      cbn. eexists _, _. split; [reflexivity|]. cbn.
      split; [exact Hlog|]. rewrite Hup. auto.
Qed.

(* ===================================================================== *)
(** ** C7: positions and indices are staged independently                *)
(* ===================================================================== *)

(** C7.  [update_positions] returns and leaves the stored indices, the
    pending flag of the index cell, the index buffer's capacity and
    name, and the whole context as they were; [update_topology] does
    the same for the positions, the pending flag of the vertex cell and
    the vertex buffer's capacity. *)
Theorem positions_and_indices_independent
    (w : Primitive.state) (positions : array_like)
    (indices : option array_like) :
  (let r := Primitive.update_positions positions w in
   fst r = Ok tt
   /\ Primitive._indices (fst (snd r)) = Primitive._indices (fst w)
   /\ Primitive._needs_index_update (fst (snd r))
      = Primitive._needs_index_update (fst w)
   /\ Primitive._index_buffer_capacity (fst (snd r))
      = Primitive._index_buffer_capacity (fst w)
   /\ Primitive._element_buffer_id (fst (snd r))
      = Primitive._element_buffer_id (fst w)
   /\ snd (snd r) = snd w)
  /\
  (let r := Primitive.update_topology indices w in
   fst r = Ok tt
   /\ Primitive._positions (fst (snd r)) = Primitive._positions (fst w)
   /\ Primitive._needs_vertex_update (fst (snd r))
      = Primitive._needs_vertex_update (fst w)
   /\ Primitive._vertex_buffer_capacity (fst (snd r))
      = Primitive._vertex_buffer_capacity (fst w)
   /\ snd (snd r) = snd w).
Proof. repeat split. Qed.

(* ===================================================================== *)
(** ** C8: dropping the indices                                          *)
(* ===================================================================== *)

(** C8.  On a bound, indexed primitive whose pending vertex update (if
    any) can be carried out, [update_topology(None)] followed by
    [sync_gpu] returns; afterwards the indices are null and no index
    update is pending.  The sync ends by binding the vertex array,
    unbinding the element buffer and unbinding the vertex array, writes
    nothing to the element buffer, and the index buffer stays
    allocated: the buffer list, the element buffer's name and its
    capacity are unchanged. *)
Theorem topology_none_then_sync
    (p : Primitive.Primitive) (g : context) (indices : ndarray Np.f32)
    (vaid b0 : Z) (bs : list Z) :
  Primitive._vaid p = Some vaid ->
  Primitive._buffers p = b0 :: bs ->
  Primitive._indices p = Some indices ->
  Primitive.vertex_update_ready p = true ->
  exists w' vertex_calls,
    (Primitive.update_topology None ;; Primitive.sync_gpu) (p, g) = (Ok tt, w')
    /\ Primitive._indices (fst w') = None
    /\ Primitive._needs_index_update (fst w') = Some false
    /\ Primitive._vaid (fst w') = Some vaid
    /\ log (snd w')
       = log g ++ vertex_calls
           ++ [glBindVertexArray vaid; glBindBuffer GL_ELEMENT_ARRAY_BUFFER 0;
               glBindVertexArray 0]
    /\ uploads GL_ELEMENT_ARRAY_BUFFER vertex_calls = []
    /\ Primitive._buffers (fst w') = Primitive._buffers p
    /\ Primitive._element_buffer_id (fst w') = Primitive._element_buffer_id p
    /\ Primitive._index_buffer_capacity (fst w')
       = Primitive._index_buffer_capacity p.
Proof.
  intros Hv Hb Hi Hready.
  unfold Primitive.update_topology, Primitive.sync_gpu, Primitive._in_context,
    Py.bind, self, Py.ret, assign. cbn.
  rewrite Hv. cbn.
  unfold Primitive.vertex_update_ready in Hready.
  destruct (Primitive.is_set (Primitive._needs_vertex_update p)); cbn in Hready.
  - destruct (Primitive.vertex_data p) as [vd|e] eqn:Hd; [|discriminate].
    erewrite update_vertex_buffer_runs; [| exact Hv | exact Hb | exact Hd].
    cbn.
    erewrite update_index_buffer_unindexed; [| exact Hv | reflexivity].
    cbn.
    eexists _, ([glBindVertexArray vaid; glBindBuffer GL_ARRAY_BUFFER b0]
                  ++ Primitive.write_calls GL_ARRAY_BUFFER Primitive.FLOAT_SZ
                       (Primitive._buffer_reserve_ratio p)
                       (Z.of_nat (length vd))
                       (Primitive._vertex_buffer_capacity p) (Floats vd)
                  ++ [glBindVertexArray 0]).
    split; [reflexivity|]. cbn.
    split; [reflexivity|]. split; [reflexivity|]. split; [assumption|].
    split.
    { rewrite <- ?app_assoc. cbn. rewrite <- ?app_assoc. reflexivity. }
    split; [simpl_uploads; reflexivity|].
    repeat split.
  - cbn.
    erewrite update_index_buffer_unindexed; [| exact Hv | reflexivity].
    cbn. eexists _, []. split; [reflexivity|]. cbn.
    split; [reflexivity|]. split; [reflexivity|]. split; [assumption|].
    repeat split.
Qed.

(* ===================================================================== *)
(** ** C9: after [delete]                                                *)
(* ===================================================================== *)

(** C9, as the code has it.  [delete] always returns and leaves the
    primitive without a vertex array, that is, out of context.  From then
    on [_bind] raises ValueError and changes nothing, whereas
    [sync_gpu], [_update_vertex_buffer] and [_update_index_buffer]
    return without an error, without a call and without a change; a
    second [delete] returns, leaves the primitive as it is and only
    unbinds the vertex array once more. *)
Theorem after_delete (w : Primitive.state) :
  let d := Primitive.delete w in
  let w1 := snd d in
  fst d = Ok tt
  /\ Primitive._vaid (fst w1) = None
  /\ Primitive._bind w1
     = (Raise (ValueError
                 "Cannot bind a Mesh that has not been added to a context"),
        w1)
  /\ Primitive.sync_gpu w1 = (Ok tt, w1)
  /\ Primitive._update_vertex_buffer w1 = (Ok tt, w1)
  /\ Primitive._update_index_buffer w1 = (Ok tt, w1)
  /\ Primitive.delete w1
     = (Ok tt, (fst w1, GL.record (glBindVertexArray 0) (snd w1))).
Proof.
  destruct w as [p g].
  unfold_methods. cbn.
  destruct (Primitive._vaid p) eqn:Hv; cbn; rewrite ?Hv; cbn; repeat split.
Qed.

(** C9 as stated fails: on the quad of the tests, bound and then
    deleted, [sync_gpu] does not raise; it returns and changes
    nothing. *)
Lemma sync_after_delete_is_silent :
  let w1 := snd (Primitive.delete (Examples.bound_quad 2)) in
  fst (Primitive.sync_gpu w1) = Ok tt /\ snd (Primitive.sync_gpu w1) = w1.
Proof. vm_compute. split; reflexivity. Qed.

(* ===================================================================== *)
(** ** C10: texture coordinates keep their first two columns             *)
(* ===================================================================== *)

Lemma take_cols_nth {A} (rows cols k : nat) (l : list A) (i j : nat) :
  length l = (rows * cols)%nat -> (k <= cols)%nat ->
  (i < rows)%nat -> (j < k)%nat ->
  nth_error (take_cols rows cols k l) (i * k + j)
  = nth_error l (i * cols + j).
Proof.
  revert l i. induction rows as [|r IH]; intros l i Hlen Hk Hi Hj; [lia|].
  cbn [take_cols].
  assert (Hfirst : length (firstn k (firstn cols l)) = k).
  { rewrite !List.length_firstn. nia. }
  destruct i as [|i].
  - cbn [Nat.mul Nat.add].
    rewrite List.nth_error_app1 by lia.
    rewrite !List.nth_error_firstn.
    destruct (Nat.ltb_spec j k); [|lia].
    destruct (Nat.ltb_spec j cols); [reflexivity|lia].
  - rewrite List.nth_error_app2 by lia.
    rewrite Hfirst.
    replace (S i * k + j - k)%nat with (i * k + j)%nat by lia.
    rewrite IH; [| rewrite List.length_skipn; nia | lia | lia | lia].
    rewrite List.nth_error_skipn. f_equal. lia.
Qed.

(** C10.  With positions of [n] rows: a 2-dimensional array of [n]
    rows and more than two columns is accepted by the [texcoord_0]
    setter, and what is stored has shape [(n, 2)] and holds, row by
    row, the first two entries of the array; an array that is not
    2-dimensional, has another row count or has fewer than two columns
    is rejected with ValueError, the primitive unchanged. *)
Theorem texcoord_0_keeps_two_columns
    (p : Primitive.Primitive) (g : context) (value : array_like)
    (n : nat) (rest : list nat) :
  shape (Primitive._positions p) = n :: rest ->
  let rejected :=
    (Raise (ValueError "Incorrect texture coordinate shape"), (p, g)) in
  (forall cols,
      shape value = [n; cols] -> (2 < cols)%nat -> well_formed value ->
      let stored := slice_cols 2 (asanyarray_float32 value) in
      Primitive.texcoord_0_setter (Some value) (p, g)
      = (Ok tt, (Primitive.set_texcoord_0 (Some stored) p, g))
      /\ shape stored = [n; 2%nat]
      /\ forall i j, (i < n)%nat -> (j < 2)%nat ->
           nth_error (data stored) (i * 2 + j)
           = nth_error (data (asanyarray_float32 value)) (i * cols + j))
  /\ (ndim value <> 2%nat ->
      Primitive.texcoord_0_setter (Some value) (p, g) = rejected)
  /\ (forall rows cols,
         shape value = [rows; cols] -> rows <> n \/ (cols < 2)%nat ->
         Primitive.texcoord_0_setter (Some value) (p, g) = rejected).
Proof.
  intros Hp rejected. subst rejected.
  unfold Primitive.texcoord_0_setter, Primitive.texcoord_shape_is_wrong,
    Py.bind, Py.lift, Py.ret, Py.raise, self, assign, shape_at, ndim.
  split; [|split].
  - intros cols Hs Hc Hwf.
    destruct cols as [|[|[|c]]]; try lia.
    unfold slice_cols. cbn. rewrite Hs. cbn.
    rewrite Hp. cbn. rewrite Nat.eqb_refl. cbn.
    split; [reflexivity|]. split; [reflexivity|].
    intros i j Hi Hj. apply take_cols_nth; try lia.
    rewrite length_map. unfold well_formed, size in Hwf. rewrite Hwf, Hs.
    cbn. lia.
  - intros Hd. cbn.
    destruct (Nat.eqb_spec (length (shape value)) 2); [contradiction|].
    reflexivity.
  - intros rows cols Hs Hbad. cbn. rewrite Hs. cbn. rewrite Hp. cbn.
    destruct (Nat.eqb_spec rows n) as [->|Hne]; cbn.
    + destruct Hbad as [Hbad|Hbad]; [contradiction|].
      destruct (Nat.leb_spec cols 1); [reflexivity|lia].
    + reflexivity.
Qed.

(* ===================================================================== *)
(** ** C5: which attributes are checked against the positions            *)
(* ===================================================================== *)



(* ===================================================================== *)
(** ** C4: indices pass through float32                                   *)
(* ===================================================================== *)

Section Float32Indices.

Local Open Scope Z_scope.

Lemma digits2_pos_bounds (m : positive) :
  2 ^ (Z.pos (digits2_pos m) - 1) <= Z.pos m < 2 ^ Z.pos (digits2_pos m).
Proof.
  induction m as [m IH|m IH|]; cbn [digits2_pos].
  - rewrite Pos2Z.inj_succ.
    replace (Z.succ (Z.pos (digits2_pos m)) - 1)
      with (Z.succ (Z.pos (digits2_pos m) - 1)) by lia.
    rewrite !Z.pow_succ_r by lia. lia.
  - rewrite Pos2Z.inj_succ.
    replace (Z.succ (Z.pos (digits2_pos m)) - 1)
      with (Z.succ (Z.pos (digits2_pos m) - 1)) by lia.
    rewrite !Z.pow_succ_r by lia. lia.
  - cbn. lia.
Qed.

Lemma iter_xO_value (m k : positive) :
  Z.pos (Pos.iter xO m k) = Z.pos m * 2 ^ Z.pos k.
Proof.
  induction k as [|k IH] using Pos.peano_ind.
  - cbn. lia.
  - rewrite Pos.iter_succ, Pos2Z.inj_succ, Z.pow_succ_r by lia.
    rewrite Pos2Z.inj_xO, IH. lia.
Qed.

Lemma iter_xO_digits (m k : positive) :
  digits2_pos (Pos.iter xO m k) = (digits2_pos m + k)%positive.
Proof.
  induction k as [|k IH] using Pos.peano_ind.
  - cbn. lia.
  - rewrite Pos.iter_succ. cbn [digits2_pos]. rewrite IH. lia.
Qed.

(** Rounding keeps a mantissa of exactly 24 digits as it is. *)
Lemma binary_round_aux_exact (mz : positive) (e : Z) :
  Z.pos (digits2_pos mz) = 24 -> -149 <= e <= 104 ->
  binary_round_aux 24 128 false (Z.pos mz) e loc_Exact
  = S754_finite false mz e.
Proof.
  intros Hd He.
  unfold binary_round_aux, shr_fexp, fexp, emin, Zdigits2.
  cbn [shr_record_of_loc].
  rewrite Hd.
  replace (Z.max (24 + e - 24) (3 - 128 - 24) - e) with 0 by lia.
  cbn [shr shr_m loc_of_shr_record round_nearest_even].
  rewrite Hd.
  replace (Z.max (24 + e - 24) (3 - 128 - 24) - e) with 0 by lia.
  cbn [shr shr_m].
  destruct (Z.leb_spec e (128 - 24)); [reflexivity|lia].
Qed.

(** Up to 2^24 an index survives the passage through float32. *)
Lemma small_index_survives_float32 (z : Z) :
  0 <= z <= 2 ^ 24 -> to_uint32 (to_float32 (Int z)) = z.
Proof.
  intros Hz.
  destruct (Z.eq_dec z (2 ^ 24)) as [->|Hne]; [vm_compute; reflexivity|].
  destruct z as [|m|m]; [reflexivity| |lia].
  pose proof (digits2_pos_bounds m) as Hb.
  assert (Hd : Z.pos (digits2_pos m) <= 24).
  { destruct (Z.le_gt_cases (Z.pos (digits2_pos m)) 24) as [H|H]; [exact H|].
    exfalso.
    assert (2 ^ 24 <= 2 ^ (Z.pos (digits2_pos m) - 1))
      by (apply Z.pow_le_mono_r; lia).
    lia. }
  unfold to_float32, binary_normalize, binary_round, shl_align, fexp, emin.
  replace (Z.max (Z.pos (digits2_pos m) + 0 - 24) (3 - 128 - 24) - 0)
    with (Z.pos (digits2_pos m) - 24) by lia.
  destruct (Z.pos (digits2_pos m) - 24) as [|k|k] eqn:Hk; [|lia|].
  - replace (Z.max (Z.pos (digits2_pos m) + 0 - 24) (3 - 128 - 24))
      with 0 by lia.
    rewrite binary_round_aux_exact by lia.
    unfold to_uint32, trunc. cbn [cond_Zopp Z.leb Z.compare].
    rewrite Z.pow_0_r, Z.mul_1_r. apply Z.mod_small. lia.
  - replace (Z.max (Z.pos (digits2_pos m) + 0 - 24) (3 - 128 - 24))
      with (Z.neg k) by lia.
    rewrite binary_round_aux_exact; [| rewrite iter_xO_digits; lia | lia].
    unfold to_uint32, trunc. cbn [cond_Zopp Z.leb Z.compare Z.opp].
    rewrite iter_xO_value, Z.div_mul by lia. apply Z.mod_small. lia.
Qed.

(** An index array whose entries are at most 2^24 is uploaded as it
    is. *)
Lemma small_indices_survive_float32 (dims : list nat) (values : list Z) :
  Forall (fun z => 0 <= z <= 2 ^ 24) values ->
  flatten_uint32 (asanyarray_float32 (mk_ndarray dims (map Int values)))
  = values.
Proof.
  intros Hall. unfold flatten_uint32, flatten, asanyarray_float32.
  cbn [data].
  induction Hall as [|z rest Hz _ IH]; [reflexivity|].
  cbn [map]. rewrite small_index_survives_float32 by exact Hz.
  f_equal. exact IH.
Qed.

End Float32Indices.

(** C4.  The index 2^24 + 1 = 16777217 does not reach the element
    buffer: the setter stores indices as float32, where it rounds to
    16777216, and that is what [astype(np.uint32)] then yields and the
    code uploads, when the primitive is built with the index and bound,
    and when the index is supplied by [update_topology] and synced. *)
Theorem large_index_is_rounded :
  let built :=
    Examples.final
      (Examples.new_primitive Examples.five_points
         (Some Examples.large_index) 1 ;;
       Primitive._add_to_context) in
  let updated :=
    Examples.final
      (Examples.new_primitive Examples.five_points None 1 ;;
       Primitive._add_to_context ;;
       Primitive.update_topology (Some Examples.large_index) ;;
       Primitive.sync_gpu) in
  uploads GL_ELEMENT_ARRAY_BUFFER (log (snd built))
  = [UInts [0; 1; 16777216]%Z]
  /\ uploads GL_ELEMENT_ARRAY_BUFFER (log (snd updated))
     = [UInts [0; 1; 16777216]%Z]
  /\ to_uint32 (to_float32 (Int 16777217)) = 16777216%Z
  /\ to_uint32 (to_float32 (Int 16777216)) = 16777216%Z.
Proof. vm_compute. repeat split. Qed.

(* ===================================================================== *)
(** ** C3: registering a storage buffer                                  *)
(* ===================================================================== *)

(** C3, as the code has it.  [create_storage_buffer] raises ValueError
    when the name is already registered, and then changes neither the
    registry nor the context.  For a new name it returns, whatever the
    binding point, having generated a buffer, filled it and bound it,
    and the registry holds under the name the buffer, the binding
    point, the element type and the shape; no other entry changes. *)
Theorem create_storage_buffer_checks_name
    (c : ComputeShader.ComputeShader) (g : context)
    (name : string) (data : rawarray) (binding : Z) :
  (is_Some (ComputeShader._ssbo_map c !! name) ->
   ComputeShader.create_storage_buffer name data binding (c, g)
   = (Raise (ValueError ("Buffer " ++ name ++ " already exists")), (c, g)))
  /\ (ComputeShader._ssbo_map c !! name = None ->
      let ssbo := next_name g in
      ComputeShader.create_storage_buffer name data binding (c, g)
      = (Ok tt,
         (ComputeShader.set_ssbo_map
            (<[name := (ssbo, binding, r_dtype data, r_shape data)]>
               (ComputeShader._ssbo_map c)) c,
          mk_context (next_name g + 1)
            (log g ++ [glGenBuffers 1 ssbo;
                       glBindBuffer GL_SHADER_STORAGE_BUFFER ssbo;
                       glBufferData GL_SHADER_STORAGE_BUFFER (nbytes data)
                         (Some (Bytes (tobytes data))) GL_DYNAMIC_COPY;
                       glBindBufferBase GL_SHADER_STORAGE_BUFFER binding
                         ssbo])))).
Proof.
  unfold ComputeShader.create_storage_buffer, Py.bind, self, Py.raise, gl,
    gl_gen, assign, record, fresh. cbn.
  split.
  - intros Hin. destruct (decide _); [reflexivity|contradiction].
  - intros Hnone. destruct (decide _) as [Hin|_].
    + rewrite Hnone in Hin. destruct Hin as [? ?]. discriminate.
    + cbn. rewrite <- !app_assoc. reflexivity.
Qed.

(** C3 as stated fails for binding points: a shader holding "input" at
    binding point 0 accepts "output" at binding point 0 as well. *)
Lemma binding_point_reused :
  let w := Examples.shader_with_input in
  let r := ComputeShader.create_storage_buffer "output"
             Examples.sixteen_bytes 0 w in
  ComputeShader.binding_in_use 0 (fst w)
  /\ fst r = Ok tt
  /\ ComputeShader._ssbo_map (fst (snd r)) !! "output"
     = Some (3%Z, 0%Z, float32, [4%nat])
  /\ ComputeShader._ssbo_map (fst (snd r)) !! "input"
     = Some (2%Z, 0%Z, float32, [4%nat]).
Proof.
  split.
  - exists "input", (2%Z, 0%Z, float32, [4%nat]). split; reflexivity.
  - vm_compute. repeat split.
Qed.

(* ===================================================================== *)
(** ** C2: writes through the persistent mapping                         *)
(* ===================================================================== *)

Section PersistentUpdate.

Import PersistentBuffer.
Local Open Scope Z_scope.

Lemma slice_bound_range (n i : Z) : 0 <= n -> 0 <= slice_bound n i <= n.
Proof. unfold slice_bound. destruct (i <? 0); lia. Qed.

(** Assigning to a slice never changes the length of the array. *)
Lemma setitem_slice_length {A} (a : list A) (start stop : Z)
    (values a' : list A) :
  setitem_slice a start stop values = Ok a' -> length a' = length a.
Proof.
  unfold setitem_slice.
  pose proof (slice_bound_range (Z.of_nat (length a)) start
                ltac:(lia)) as Hlo.
  pose proof (slice_bound_range (Z.of_nat (length a)) stop
                ltac:(lia)) as Hhi.
  set (lo := slice_bound (Z.of_nat (length a)) start) in *.
  set (hi := slice_bound (Z.of_nat (length a)) stop) in *.
  set (m := Z.to_nat (Z.max 0 (hi - lo))).
  assert (Hm : (Z.to_nat lo + m <= length a)%nat) by lia.
  destruct (decide (length values = m)) as [Hv|Hv].
  - intros [= <-].
    rewrite !length_app, List.length_firstn, List.length_skipn. lia.
  - destruct values as [|v [|? ?]]; try discriminate.
    intros [= <-].
    rewrite !length_app, List.length_firstn, List.length_skipn, repeat_length.
    lia.
Qed.

(** Within bounds and from a non-negative offset, the slice is the
    range [offset .. offset + n) and takes the values as they are. *)
Lemma setitem_slice_in_range {A} (a : list A) (offset : Z) (values : list A) :
  0 <= offset ->
  offset + Z.of_nat (length values) <= Z.of_nat (length a) ->
  setitem_slice a offset (offset + Z.of_nat (length values)) values
  = Ok (firstn (Z.to_nat offset) a ++ values
          ++ skipn (Z.to_nat offset + length values) a).
Proof.
  intros H0 Hn. unfold setitem_slice, slice_bound.
  destruct (Z.ltb_spec offset 0); [lia|].
  destruct (Z.ltb_spec (offset + Z.of_nat (length values)) 0); [lia|].
  rewrite !Z.min_l, !Z.max_r by lia.
  replace (Z.to_nat (offset + Z.of_nat (length values) - offset))
    with (length values) by lia.
  destruct (decide (length values = length values)); [reflexivity|congruence].
Qed.

End PersistentUpdate.

(** C2, as the code has it.  On a mapped buffer, [update] raises the
    error "Update would exceed buffer size" exactly when
    [offset + data.nbytes > size], and then modifies nothing.  When the
    check passes and the offset is not negative, it returns and the
    region holds the bytes of the data from [offset] on, the bytes
    before and after them untouched.  In every case the size and the
    length of the mapped region stay as they are. *)
Theorem persistent_update_within_bounds
    (b : PersistentBuffer.PersistentBuffer) (data : rawarray) (offset : Z)
    (region : list Byte.byte) :
  PersistentBuffer._array b = Some region ->
  Z.of_nat (length region) = PersistentBuffer._size b ->
  let r := PersistentBuffer.update data offset b in
  (fst r = Raise PersistentBuffer.capacity_exceeded
   <-> (offset + nbytes data > PersistentBuffer._size b)%Z)
  /\ ((offset + nbytes data > PersistentBuffer._size b)%Z -> snd r = b)
  /\ ((0 <= offset)%Z ->
      (offset + nbytes data <= PersistentBuffer._size b)%Z ->
      r = (Ok tt,
           PersistentBuffer.set_array
             (Some (PersistentBuffer.written region offset (tobytes data)))
             b))
  /\ PersistentBuffer._size (snd r) = PersistentBuffer._size b
  /\ PersistentBuffer.mapped (snd r).
Proof.
  intros Ha Hlen r. subst r.
  unfold PersistentBuffer.update, Py.bind, Py.get, Py.raise, Py.lift,
    Py.modify, nbytes.
  cbn.
  destruct (Z.gtb_spec (offset + Z.of_nat (length (tobytes data)))
              (PersistentBuffer._size b)) as [Hgt|Hle].
  - cbn. split; [split; [lia|reflexivity]|].
    split; [reflexivity|]. split; [lia|]. split; [reflexivity|].
    exists region. split; assumption.
  - rewrite Ha. cbn.
    split.
    { split; [|lia].
      destruct (PersistentBuffer.setitem_slice _ _ _ _) as [a'|e] eqn:Hset;
        cbn; [discriminate|].
      unfold PersistentBuffer.setitem_slice in Hset.
      destruct (decide _); [discriminate|].
      destruct (tobytes data) as [|? [|? ?]]; inversion Hset; discriminate. }
    split; [lia|].
    split.
    { intros H0 _. rewrite setitem_slice_in_range by lia. reflexivity. }
    destruct (PersistentBuffer.setitem_slice _ _ _ _) as [a'|e] eqn:Hset; cbn.
    + split; [reflexivity|]. exists a'. split; [reflexivity|].
      cbn. rewrite (setitem_slice_length _ _ _ _ _ Hset). assumption.
    + split; [reflexivity|]. exists region. split; assumption.
Qed.

(** C2 as stated fails for a negative offset: on a buffer of 16 bytes,
    four bytes at offset -4 pass the bounds check, and yet nothing is
    copied: the slice [-4:0] is empty and the assignment raises. *)
Lemma persistent_update_negative_offset :
  let b := Examples.buffer16 in
  let r := PersistentBuffer.update Examples.four_bytes (-4) b in
  PersistentBuffer.mapped b
  /\ ~ (-4 + nbytes Examples.four_bytes > PersistentBuffer._size b)%Z
  /\ fst r = Raise (ValueError "could not broadcast input array")
  /\ snd r = b.
Proof.
  split.
  - eexists. split; reflexivity.
  - split; [vm_compute; discriminate|]. vm_compute. split; reflexivity.
Qed.

(* ===================================================================== *)
(** ** C1: the capacity of the vertex and index buffers                  *)
(* ===================================================================== *)

Arguments Primitive.vertex_data : simpl never.
Arguments Primitive.attr_sizes : simpl never.
Arguments Py.int : simpl never.

Section Capacity.

Import Primitive GrowableGpuBuffer.
Local Open Scope Z_scope.


Arguments Primitive.attrib_pointers : simpl never.




Lemma capacity_after_ge round r counts :
  forall c, c <= capacity_after round r c counts.
Proof.
  induction counts as [|n rest IH]; intros c; cbn; [lia|].
  destruct (c <? n); etransitivity; [| apply IH | | apply IH]; lia.
Qed.



End Capacity.


(** The reserve for 21 elements at ratio 1.5 is 31 in binary64
    arithmetic as well as in exact arithmetic; rounding up would give
    32. *)
Lemma reserve_of_21_at_ratio_3_2 :
  GrowableGpuBuffer.reserve_binary64 (binary_normalize 53 1024 3 (-1) false) 21
  = Some 31%Z
  /\ GrowableGpuBuffer.reserve int (3 # 2) 21 = 31%Z
  /\ GrowableGpuBuffer.reserve Qceiling (3 # 2) 21 = 32%Z.
Proof. vm_compute. repeat split. Qed.


(* ===================================================================== *)
(** ** The theorems at work on the test data                             *)
(* ===================================================================== *)


(** C2 on the buffer of 16 bytes: four bytes at offset 12 land in the
    last four bytes. *)
Lemma persistent_update_within_bounds_witness :
  PersistentBuffer.update Examples.four_bytes 12 Examples.buffer16
  = (Ok tt,
     PersistentBuffer.set_array
       (Some (repeat Byte.x00 12
                ++ [Byte.x01; Byte.x02; Byte.x03; Byte.x04]))
       Examples.buffer16).
Proof.
  destruct (persistent_update_within_bounds Examples.buffer16
              Examples.four_bytes 12 (repeat Byte.x00 16)
              eq_refl eq_refl) as (_ & _ & H & _).
  apply H; vm_compute; discriminate.
Defined.

(** C3 on the shader holding "input": "input" is refused, "output" is
    registered. *)
Lemma create_storage_buffer_checks_name_witness :
  let c := fst Examples.shader_with_input in
  let g := snd Examples.shader_with_input in
  fst (ComputeShader.create_storage_buffer "input" Examples.sixteen_bytes 1
         (c, g))
  = Raise (ValueError "Buffer input already exists")
  /\ fst (ComputeShader.create_storage_buffer "output"
            Examples.sixteen_bytes 1 (c, g))
     = Ok tt.
Proof.
  intros c g.
  destruct (create_storage_buffer_checks_name c g "input"
              Examples.sixteen_bytes 1) as (Hdup & _).
  destruct (create_storage_buffer_checks_name c g "output"
              Examples.sixteen_bytes 1) as (_ & Hnew).
  split.
  - rewrite Hdup; [reflexivity|]. eexists. reflexivity.
  - rewrite Hnew; reflexivity.
Defined.


(** C6 on the quad: of two staged position sets, the second is what
    the sync uploads. *)
Lemma last_staged_value_wins_witness :
  exists w' calls,
    (Primitive.update_positions Examples.five_points ;;
     Primitive.update_positions Examples.quad ;;
     Primitive.sync_gpu)
      (fst (Examples.bound_quad 2), snd (Examples.bound_quad 2))
    = (Ok tt, w')
    /\ log (snd w') = log (snd (Examples.bound_quad 2)) ++ calls
    /\ uploads GL_ARRAY_BUFFER calls
       = [Floats (flatten (asanyarray_float32 Examples.quad))]
    /\ Primitive._positions (fst w') = asanyarray_float32 Examples.quad
    /\ Primitive._needs_vertex_update (fst w') = Some false.
Proof.
  destruct (last_staged_value_wins
              (fst (Examples.bound_quad 2)) (snd (Examples.bound_quad 2))
              Examples.five_points Examples.quad None Examples.new_indices)
    as (_ & _ & H & _).
  apply H.
  - exists 1%Z, 2%Z, [3; 4]%Z. split; reflexivity.
  - reflexivity.
Defined.

(** C8 on the quad: after [update_topology(None)] and a sync the
    indices are null and nothing is pending. *)
Lemma topology_none_then_sync_witness :
  exists w',
    (Primitive.update_topology None ;; Primitive.sync_gpu)
      (fst (Examples.bound_quad 2), snd (Examples.bound_quad 2))
    = (Ok tt, w')
    /\ Primitive._indices (fst w') = None
    /\ Primitive._needs_index_update (fst w') = Some false.
Proof.
  destruct (topology_none_then_sync
              (fst (Examples.bound_quad 2)) (snd (Examples.bound_quad 2))
              (asanyarray_float32 Examples.initial_indices) 1 2 [3; 4]%Z)
    as (w' & calls & Hrun & Hi & Hn & _).
  - reflexivity.
  - reflexivity.
  - reflexivity.
  - reflexivity.
  - exists w'. split; [exact Hrun|]. split; assumption.
Defined.

(** C10 on the quad: texture coordinates of three columns are stored
    with two. *)
Lemma texcoord_0_keeps_two_columns_witness :
  let uvw := Examples.ints [4; 3]%nat
               [0; 0; 9;  1; 0; 9;  0; 1; 9;  1; 1; 9]%Z in
  Primitive.texcoord_0_setter (Some uvw)
    (fst (Examples.bound_quad 2), snd (Examples.bound_quad 2))
  = (Ok tt,
     (Primitive.set_texcoord_0
        (Some (asanyarray_float32
                 (Examples.ints [4; 2]%nat [0; 0;  1; 0;  0; 1;  1; 1]%Z)))
        (fst (Examples.bound_quad 2)),
      snd (Examples.bound_quad 2))).
Proof.
  intros uvw.
  destruct (texcoord_0_keeps_two_columns
              (fst (Examples.bound_quad 2)) (snd (Examples.bound_quad 2))
              uvw 4 [3%nat] eq_refl) as (H & _).
  destruct (H 3%nat eq_refl ltac:(lia) eq_refl) as (Hrun & _).
  exact Hrun.
Defined.

(* ===================================================================== *)
(** ** Further properties: the layout of the vertex buffer               *)
(* ===================================================================== *)

Section VertexLayout.

Import Primitive.

Lemma row_0 {A} (cols : nat) (l rest : list A) :
  length l = cols -> row cols 0 (l ++ rest) = l.
Proof.
  intros Hl. unfold row. rewrite Nat.mul_0_l, List.skipn_O.
  rewrite List.firstn_app, Hl, Nat.sub_diag, List.firstn_O, app_nil_r.
  rewrite <- Hl. apply List.firstn_all.
Qed.

Lemma row_S {A} (cols i : nat) (l rest : list A) :
  length l = cols -> row cols (S i) (l ++ rest) = row cols i rest.
Proof.
  intros Hl. unfold row. f_equal.
  replace (S i * cols)%nat with (length l + i * cols)%nat by lia.
  rewrite Nat.add_comm, <- List.skipn_skipn.
  rewrite List.skipn_app, Nat.sub_diag, List.skipn_all, List.skipn_O.
  reflexivity.
Qed.

Lemma row_skipn {A} (cols i : nat) (l : list A) :
  row cols i (skipn cols l) = row cols (S i) l.
Proof.
  unfold row. f_equal. rewrite List.skipn_skipn. f_equal. lia.
Qed.

(** Concatenation along axis 1 puts row [i] of the second array after
    row [i] of the first. *)
Lemma interleave_rows {A} (rows ca cb : nat) :
  forall (la lb : list A),
    length la = (rows * ca)%nat -> length lb = (rows * cb)%nat ->
    length (interleave rows ca cb la lb) = (rows * (ca + cb))%nat
    /\ forall i, (i < rows)%nat ->
         row (ca + cb) i (interleave rows ca cb la lb)
         = row ca i la ++ row cb i lb.
Proof.
  induction rows as [|r IH]; intros la lb Ha Hb.
  - split; [reflexivity|]. intros i Hi. lia.
  - cbn [interleave].
    assert (Hfa : length (firstn ca la) = ca)
      by (rewrite List.length_firstn; nia).
    assert (Hfb : length (firstn cb lb) = cb)
      by (rewrite List.length_firstn; nia).
    destruct (IH (skipn ca la) (skipn cb lb)) as [Hlen Hrows].
    { rewrite List.length_skipn. nia. }
    { rewrite List.length_skipn. nia. }
    split.
    + rewrite !length_app, Hfa, Hfb, Hlen. lia.
    + intros i Hi. rewrite app_assoc. destruct i as [|i].
      * rewrite row_0 by (rewrite length_app; lia). reflexivity.
      * rewrite row_S by (rewrite length_app; lia).
        rewrite Hrows by lia. rewrite !row_skipn. reflexivity.
Qed.

Lemma stack_stacked (n c w : nat) (rows : nat -> list f32) (v : ndarray f32)
    (attribute : option (ndarray f32)) :
  stacked n c rows v ->
  has_shape attribute [n; w] ->
  exists v',
    stack v attribute = Ok v'
    /\ stacked n (c + match attribute with Some _ => w | None => 0 end)
         (fun i => rows i ++ attr_row attribute w i) v'.
Proof.
  intros (Hs & Hl & Hr) Ha. destruct attribute as [a|]; cbn in *.
  - destruct Ha as [Hsa Hwa]. unfold well_formed, size in Hwa.
    rewrite Hsa in Hwa. cbn in Hwa.
    destruct (interleave_rows n c w (data v) (data a)) as [Hlen Hrows];
      [lia | lia |].
    unfold hstack, atleast_1d. rewrite Hs, Hsa. cbn. rewrite Hs, Hsa.
    destruct (decide (n = n /\ @nil nat = [])) as [_|Hne]; [|exfalso; auto].
    cbn. rewrite !Nat.mul_1_r.
    eexists. split; [reflexivity|].
    split; [reflexivity|]. split; [exact Hlen|].
    intros i Hi. cbn. rewrite Hrows by exact Hi. rewrite Hr by exact Hi.
    reflexivity.
  - exists v. split; [reflexivity|]. rewrite Nat.add_0_r.
    split; [exact Hs|]. split; [exact Hl|].
    intros i Hi. rewrite app_nil_r. apply Hr. exact Hi.
Qed.

End VertexLayout.

(** X1.  On a primitive with [n] positions of three coordinates whose
    attributes have the shapes that the setters admit, the vertex data
    is assembled without an error; it holds [n] records of
    [sum(attr_sizes)] floats, and record [i] is the position of vertex
    [i] followed by its normal, tangent, first and second texture
    coordinates and colour, as far as they are present. *)
Theorem vertex_data_is_interleaved (p : Primitive.Primitive) (n : nat) :
  shape (Primitive._positions p) = [n; 3%nat] ->
  well_formed (Primitive._positions p) ->
  Primitive.has_shape (Primitive._normals p) [n; 3%nat] ->
  Primitive.has_shape (Primitive._tangents p) [n; 4%nat] ->
  Primitive.has_shape (Primitive._texcoord_0 p) [n; 2%nat] ->
  Primitive.has_shape (Primitive._texcoord_1 p) [n; 2%nat] ->
  Primitive.has_shape (Primitive._color_0 p) [n; 4%nat] ->
  let stride := Z.to_nat (Primitive.sum (Primitive.attr_sizes p)) in
  exists vd,
    Primitive.vertex_data p = Ok vd
    /\ length vd = (n * stride)%nat
    /\ forall i, (i < n)%nat -> row stride i vd = Primitive.vertex_record p i.
Proof.
  intros Hs Hwf Hn Ht H0 H1 Hc stride.
  assert (Hpos : Primitive.stacked n 3 (fun i => row 3 i (data (Primitive._positions p)))
                   (Primitive._positions p)).
  { split; [exact Hs|]. split; [|reflexivity].
    unfold well_formed, size in Hwf. rewrite Hwf, Hs. cbn. lia. }
  destruct (stack_stacked n 3 3 _ _ _ Hpos Hn) as (v1 & E1 & S1).
  destruct (stack_stacked n _ 4 _ _ _ S1 Ht) as (v2 & E2 & S2).
  destruct (stack_stacked n _ 2 _ _ _ S2 H0) as (v3 & E3 & S3).
  destruct (stack_stacked n _ 2 _ _ _ S3 H1) as (v4 & E4 & S4).
  destruct (stack_stacked n _ 4 _ _ _ S4 Hc) as (v5 & E5 & S5).
  exists (flatten v5). unfold Primitive.vertex_data.
  rewrite E1. cbn [and_then]. rewrite E2. cbn [and_then].
  rewrite E3. cbn [and_then]. rewrite E4. cbn [and_then].
  rewrite E5. cbn [and_then].
  split; [reflexivity|].
  destruct S5 as (_ & Hlen & Hrows).
  assert (Hstride :
            stride
            = (3 + match Primitive._normals p with Some _ => 3 | None => 0 end
               + match Primitive._tangents p with Some _ => 4 | None => 0 end
               + match Primitive._texcoord_0 p with Some _ => 2 | None => 0 end
               + match Primitive._texcoord_1 p with Some _ => 2 | None => 0 end
               + match Primitive._color_0 p with Some _ => 4 | None => 0 end)%nat).
  { subst stride. unfold Primitive.attr_sizes.
    destruct (Primitive._normals p), (Primitive._tangents p),
      (Primitive._texcoord_0 p), (Primitive._texcoord_1 p),
      (Primitive._color_0 p); reflexivity. }
  rewrite Hstride. split; [exact Hlen|].
  intros i Hi. unfold flatten. rewrite Hrows by exact Hi.
  unfold Primitive.vertex_record. rewrite <- !app_assoc. reflexivity.
Qed.

(* ===================================================================== *)
(** ** Further properties: binding and releasing                         *)
(* ===================================================================== *)

Section Binding.

Import Primitive.
Local Open Scope Z_scope.

(** The attribute pointers upload nothing. *)
Lemma attrib_pointers_uploads (total : Z) (sizes : list Z) :
  forall (i offset : Z) (p : Primitive) (g : context),
  exists calls,
    attrib_pointers total sizes i offset (p, g)
    = (Ok tt, (p, mk_context (next_name g) (log g ++ calls)))
    /\ forall t, uploads t calls = [].
Proof.
  induction sizes as [|sz rest IH]; intros i offset p g.
  - exists []. rewrite app_nil_r. destruct g. split; reflexivity.
  - unfold attrib_pointers; fold attrib_pointers.
    unfold Py.bind, gl, record. cbn.
    match goal with
    | |- context [attrib_pointers _ _ ?i' ?o' (?q, ?h)] =>
        destruct (IH i' o' q h) as (calls & -> & Hup)
    end.
    cbn. eexists. split.
    + rewrite <- !app_assoc. reflexivity.
    + intros t. simpl_uploads. apply Hup.
Qed.

(** What [_add_to_context] does to an unbound primitive. *)
Lemma add_to_context_effect (p : Primitive) (g : context) (vd : list f32) :
  _vaid p = None ->
  vertex_data p = Ok vd ->
  poses_ready p = true ->
  exists calls,
    _add_to_context (p, g)
    = (Ok tt,
       (after_bind p (next_name g) (Z.of_nat (length vd)),
        mk_context
          (next_name g + match _indices p with Some _ => 4 | None => 3 end)
          (log g ++ calls)))
    /\ uploads GL_ARRAY_BUFFER calls = [Floats vd]
    /\ uploads GL_ELEMENT_ARRAY_BUFFER calls
       = match _indices p with
         | Some indices => [UInts (flatten_uint32 indices)]
         | None => []
         end.
Proof.
  intros Hv Hd Hposes.
  unfold _add_to_context, Py.bind, self, Py.ret, Py.raise, Py.lift, gl, gl_gen,
    assign, fresh, record.
  cbn. rewrite Hv. cbn.
  change (vertex_data (set_buffers _ (set_vaid _ p))) with (vertex_data p).
  rewrite Hd. cbn.
  match goal with
  | |- context [attrib_pointers ?t ?l ?i ?o (?q, ?h)] =>
      destruct (attrib_pointers_uploads t l i o q h) as (calls & -> & Hup)
  end.
  cbn. unfold poses_ready in Hposes.
  assert (Hstate : forall q,
             _vaid q = Some (next_name g) ->
             _positions q = _positions p -> _normals q = _normals p ->
             _tangents q = _tangents p -> _texcoord_0 q = _texcoord_0 p ->
             _texcoord_1 q = _texcoord_1 p -> _color_0 q = _color_0 p ->
             _joints_0 q = _joints_0 p -> _weights_0 q = _weights_0 p ->
             _indices q = _indices p -> _material q = _material p ->
             _mode q = _mode p -> _targets q = _targets p ->
             _poses q = _poses p -> _bounds q = _bounds p ->
             _is_transparent q = _is_transparent p ->
             _buf_flags q = _buf_flags p ->
             _buffer_reserve_ratio q = _buffer_reserve_ratio p ->
             _needs_vertex_update q = _needs_vertex_update p ->
             _needs_index_update q = _needs_index_update p ->
             _vertex_buffer_capacity q
             = Some (int (inject_Z (Z.of_nat (length vd))
                          * _buffer_reserve_ratio p)) ->
             match _indices p with
             | Some indices =>
                 _buffers q = _buffers p ++ [next_name g + 1; next_name g + 2;
                                             next_name g + 3]
                 /\ _element_buffer_id q = Some (next_name g + 3)
                 /\ _index_buffer_capacity q
                    = Some (int (inject_Z (Z.of_nat (size indices))
                                 * _buffer_reserve_ratio p))
             | None =>
                 _buffers q = _buffers p ++ [next_name g + 1; next_name g + 2]
                 /\ _element_buffer_id q = _element_buffer_id p
                 /\ _index_buffer_capacity q = _index_buffer_capacity p
             end ->
             q = after_bind p (next_name g) (Z.of_nat (length vd))).
  { intros q. unfold after_bind.
    destruct q, p; cbn. intros. subst.
    destruct _indices1; cbn;
      match goal with H : _ /\ _ /\ _ |- _ => destruct H as (-> & -> & ->) end;
      reflexivity. }
  destruct (_poses p) as [poses|] eqn:Hp;
    [destruct (transpose_021 poses) as [t|e] eqn:Ht; [|discriminate]|];
    cbn;
    (destruct (_indices p) as [indices|] eqn:Hi; cbn;
     replace (next_name g + 1 + 1 + 1 + 1) with (next_name g + 4) by lia;
     replace (next_name g + 1 + 1 + 1) with (next_name g + 3) by lia;
     replace (next_name g + 1 + 1) with (next_name g + 2) by lia;
     (eexists; split;
      [ f_equal; f_equal;
        [ apply Hstate; cbn; rewrite ?Hi, ?Hp; try reflexivity;
          rewrite <- ?app_assoc; repeat split; reflexivity
        | rewrite <- ?app_assoc; reflexivity ]
      | split; simpl_uploads; rewrite ?Hup; reflexivity ])).
Qed.

End Binding.

(* ===================================================================== *)
(** ** Further properties: the attribute pointers                        *)
(* ===================================================================== *)

Section AttributePointers.

Import Primitive.
Local Open Scope Z_scope.

(** The pointers that the loop over the attribute sizes sets. *)
Lemma attrib_pointers_calls (total : Z) (sizes : list Z) :
  forall (i offset : Z) (p : Primitive) (g : context),
  exists calls,
    attrib_pointers total sizes i offset (p, g)
    = (Ok tt, (p, mk_context (next_name g) (log g ++ calls)))
    /\ (forall t, uploads t calls = [])
    /\ forall idx size normalized stride pointer,
         In (glVertexAttribPointer idx size normalized stride pointer) calls
         <-> exists k : nat,
               idx = i + Z.of_nat k
               /\ nth_error sizes k = Some size
               /\ normalized = false
               /\ stride = FLOAT_SZ * total
               /\ pointer = FLOAT_SZ * (offset + sum (firstn k sizes)).
Proof.
  induction sizes as [|sz rest IH]; intros i offset p g.
  - exists []. rewrite app_nil_r. destruct g. split; [reflexivity|].
    split; [reflexivity|].
    intros idx size normalized stride pointer. split; [intros []|].
    intros (k & _ & Hk & _). destruct k; discriminate.
  - unfold attrib_pointers; fold attrib_pointers.
    unfold Py.bind, gl, record. cbn.
    match goal with
    | |- context [attrib_pointers _ _ ?i' ?o' (?q, ?h)] =>
        destruct (IH i' o' q h) as (calls & -> & Hup & Hin)
    end.
    cbn. eexists. split; [rewrite <- !app_assoc; reflexivity|].
    split; [intros t; simpl_uploads; apply Hup|].
    intros idx size normalized stride pointer. cbn. rewrite Hin. split.
    + intros [H|[H|(k & -> & Hk & -> & -> & ->)]].
      * injection H as <- <- <- <- <-. exists 0%nat. cbn.
        repeat split; try reflexivity; unfold FLOAT_SZ; lia.
      * discriminate.
      * exists (S k). cbn [nth_error firstn sum fold_right].
        fold (sum (firstn k rest)).
        repeat split; try assumption; unfold FLOAT_SZ; lia.
    + intros ([|k] & -> & Hk & -> & -> & ->).
      * cbn in Hk. injection Hk as <-. left. cbn. f_equal; lia.
      * right. right. exists k. cbn [nth_error firstn sum fold_right] in *.
        fold (sum (firstn k rest)).
        repeat split; try assumption; unfold FLOAT_SZ; lia.
Qed.

Lemma add_to_context_pointers (p : Primitive) (g : context) (vd : list f32) :
  _vaid p = None ->
  vertex_data p = Ok vd ->
  poses_ready p = true ->
  exists calls,
    fst (_add_to_context (p, g)) = Ok tt
    /\ log (snd (snd (_add_to_context (p, g)))) = log g ++ calls
    /\ uploads GL_ARRAY_BUFFER calls = [Floats vd]
    /\ forall k : nat,
         (k < length (attr_sizes p))%nat ->
         forall size normalized stride pointer,
           In (glVertexAttribPointer (Z.of_nat k) size normalized stride
                 pointer) calls
           <-> nth_error (attr_sizes p) k = Some size
               /\ normalized = false
               /\ stride = FLOAT_SZ * sum (attr_sizes p)
               /\ pointer = FLOAT_SZ * sum (firstn k (attr_sizes p)).
Proof.
  intros Hv Hd Hposes.
  unfold _add_to_context, Py.bind, self, Py.ret, Py.raise, Py.lift, gl, gl_gen,
    assign, fresh, record.
  cbn. rewrite Hv. cbn.
  change (vertex_data (set_buffers _ (set_vaid _ p))) with (vertex_data p).
  rewrite Hd. cbn.
  match goal with
  | |- context [attrib_pointers ?t ?l ?i ?o (?q, ?h)] =>
      destruct (attrib_pointers_calls t l i o q h) as (calls & -> & Hup & Hin)
  end.
  cbn. unfold poses_ready in Hposes.
  change (attr_sizes (set_buffers _ (set_vaid _ p))) with (attr_sizes p) in *.
  set (sizes := attr_sizes p) in *.
  assert (Hmine : forall k size normalized stride pointer,
             (k < length sizes)%nat ->
             (exists k' : nat,
                 Z.of_nat k = 0 + Z.of_nat k'
                 /\ nth_error sizes k' = Some size
                 /\ normalized = false
                 /\ stride = FLOAT_SZ * sum sizes
                 /\ pointer = FLOAT_SZ * (0 + sum (firstn k' sizes)))
             <-> nth_error sizes k = Some size
                 /\ normalized = false
                 /\ stride = FLOAT_SZ * sum sizes
                 /\ pointer = FLOAT_SZ * sum (firstn k sizes)).
  { intros k size normalized stride pointer _. split.
    - intros (k' & Hk & H1 & H2 & H3 & H4).
      assert (k' = k) by lia. subst k'. rewrite Z.add_0_l in H4.
      repeat split; assumption.
    - intros (H1 & H2 & H3 & H4). exists k. rewrite Z.add_0_l.
      repeat split; assumption || lia. }
  clearbody sizes.
  destruct (_poses p) as [poses|] eqn:Hp;
    [destruct (transpose_021 poses) as [t|e] eqn:Ht; [|discriminate]|];
    cbn;
    (destruct (_indices p) as [indices|] eqn:Hi; cbn;
     (eexists; split; [reflexivity|]; split;
      [ match goal with |- _ = ?r => set (rhs := r) end;
        rewrite <- !app_assoc; subst rhs; reflexivity
      | split;
        [ simpl_uploads; rewrite ?Hup; reflexivity
        | intros k Hk size normalized stride pointer;
          rewrite <- (Hmine k size normalized stride pointer Hk), <- Hin;
          rewrite !in_app_iff; cbn [In]; split;
          [ intros H;
            repeat match goal with
                   | H : _ \/ _ |- _ => destruct H as [H|H]
                   end;
            try discriminate; try contradiction;
            try (exfalso; injection H; intros; lia);
            exact H
          | intros H; tauto ] ] ])).
Qed.

End AttributePointers.

(** X2.  A primitive is added to a context once: on a bound primitive
    [_add_to_context] raises ValueError and changes nothing; on an
    unbound one whose vertex data and poses are in order it returns,
    takes the first name of the driver as vertex array, after which
    [_bind] binds that vertex array and a second [_add_to_context] is
    refused. *)
Theorem add_to_context_binds_once (p : Primitive.Primitive) (g : context) :
  (forall vaid,
      Primitive._vaid p = Some vaid ->
      Primitive._add_to_context (p, g)
      = (Raise (ValueError "Mesh is already bound to a context"), (p, g)))
  /\ (forall vd,
         Primitive._vaid p = None ->
         Primitive.vertex_data p = Ok vd ->
         Primitive.poses_ready p = true ->
         exists w',
           Primitive._add_to_context (p, g) = (Ok tt, w')
           /\ Primitive._vaid (fst w') = Some (next_name g)
           /\ Primitive._bind w'
              = (Ok tt,
                 (fst w', GL.record (glBindVertexArray (next_name g)) (snd w')))
           /\ Primitive._add_to_context w'
              = (Raise (ValueError "Mesh is already bound to a context"), w')).
Proof.
  assert (Hbound : forall q h vaid,
             Primitive._vaid q = Some vaid ->
             Primitive._add_to_context (q, h)
             = (Raise (ValueError "Mesh is already bound to a context"),
                (q, h))).
  { intros q h vaid Hq.
    unfold Primitive._add_to_context, Py.bind, self, Py.raise. cbn.
    rewrite Hq. reflexivity. }
  split; [intros vaid Hv; apply (Hbound p g vaid Hv)|].
  intros vd Hv Hd Hposes.
  destruct (add_to_context_effect p g vd Hv Hd Hposes) as (calls & Hrun & _).
  eexists. split; [exact Hrun|].
  assert (Hvaid : Primitive._vaid
                    (Primitive.after_bind p (next_name g)
                       (Z.of_nat (length vd))) = Some (next_name g)).
  { unfold Primitive.after_bind. destruct (Primitive._indices p); reflexivity. }
  cbn [fst snd]. split; [exact Hvaid|]. split.
  - unfold Primitive._bind, Py.bind, self, gl. cbn. rewrite Hvaid. reflexivity.
  - apply (Hbound _ _ _ Hvaid).
Qed.

(** X3.  Adding a primitive that owns no buffers to a context and
    deleting it releases every name the driver handed out: the run
    returns, the primitive is unbound and owns no buffers again, and it
    ends by unbinding the vertex array, deleting the vertex array [n]
    and deleting the buffers [n + 1], [n + 2] and, when there are
    indices, [n + 3], where [n] is the first name generated; no other
    name is generated in between. *)
Theorem add_then_delete_releases_all
    (p : Primitive.Primitive) (g : context) (vd : list Np.f32) :
  Primitive._vaid p = None ->
  Primitive._buffers p = [] ->
  Primitive.vertex_data p = Ok vd ->
  Primitive.poses_ready p = true ->
  let n := next_name g in
  let names := match Primitive._indices p with
               | Some _ => [n + 1; n + 2; n + 3]%Z
               | None => [n + 1; n + 2]%Z
               end in
  exists p' calls,
    (Primitive._add_to_context ;; Primitive.delete) (p, g)
    = (Ok tt,
       (p', mk_context (n + 1 + Z.of_nat (length names))
              (log g ++ calls
                 ++ [glBindVertexArray 0; glDeleteVertexArrays 1 [n];
                     glDeleteBuffers (Z.of_nat (length names)) names])))
    /\ Primitive._vaid p' = None
    /\ Primitive._buffers p' = [].
Proof.
  intros Hv Hb Hd Hposes n names.
  destruct (add_to_context_effect p g vd Hv Hd Hposes) as (calls & Hrun & _).
  unfold Py.bind at 1. rewrite Hrun.
  unfold Primitive.delete, Primitive._unbind, Primitive._remove_from_context,
    Py.bind, self, Py.ret, gl, assign, record.
  cbn. subst names n. unfold Primitive.after_bind. rewrite Hb.
  destruct (Primitive._indices p); cbn;
    (eexists _, calls; split;
     [ f_equal; f_equal; f_equal; [lia | rewrite <- !app_assoc; reflexivity]
     | split; reflexivity ]).
Qed.

Arguments Primitive.after_bind : simpl never.

(** X4.  [delete] keeps the name and the capacity of the element
    buffer.  When a primitive that has lost its indices is deleted and
    added to a context again, indices supplied afterwards are not given
    a new buffer: the sync binds the old element buffer, which the
    primitive no longer owns, and uploads the indices there; the only
    names generated are the vertex array and the vertex and model
    matrix buffers. *)
Theorem stale_element_buffer_after_delete
    (p : Primitive.Primitive) (g : context) (vd : list Np.f32)
    (eb : Z) (indices : array_like) :
  Primitive._vaid p = None ->
  Primitive._buffers p = [] ->
  Primitive._indices p = None ->
  Primitive._element_buffer_id p = Some eb ->
  (eb < next_name g)%Z ->
  Primitive.vertex_data p = Ok vd ->
  Primitive.poses_ready p = true ->
  Primitive.is_set (Primitive._needs_vertex_update p) = false ->
  exists w' calls,
    (Primitive._add_to_context ;;
     Primitive.update_topology (Some indices) ;;
     Primitive.sync_gpu) (p, g) = (Ok tt, w')
    /\ log (snd w') = log g ++ calls
    /\ next_name (snd w') = (next_name g + 3)%Z
    /\ In (glBindBuffer GL_ELEMENT_ARRAY_BUFFER eb) calls
    /\ uploads GL_ELEMENT_ARRAY_BUFFER calls
       = [UInts (flatten_uint32 (asanyarray_float32 indices))]
    /\ Primitive._element_buffer_id (fst w') = Some eb
    /\ ~ In eb (Primitive._buffers (fst w')).
Proof.
  intros Hv Hb Hi He Hlt Hd Hposes Hflag.
  destruct (add_to_context_effect p g vd Hv Hd Hposes)
    as (calls & Hrun & _ & Hup).
  unfold Primitive.after_bind in Hrun. rewrite Hi, Hb in Hrun. rewrite Hi in Hup.
  unfold Py.bind at 1. rewrite Hrun.
  unfold Primitive.update_topology, Primitive.sync_gpu, Primitive._in_context,
    Py.bind, self, Py.ret, assign.
  cbn. rewrite Hflag. cbn.
  erewrite update_index_buffer_runs; [| reflexivity | reflexivity | exact He].
  cbn. eexists _, _. split; [reflexivity|]. cbn.
  split; [rewrite <- app_assoc; reflexivity|].
  split; [reflexivity|]. split.
  { apply in_or_app. right. right. left. reflexivity. }
  split.
  { simpl_uploads. rewrite Hup. reflexivity. }
  split; [exact He|].
  intros [H|[H|[]]]; lia.
Qed.

(** X5.  Positions staged before the primitive is added to a context
    are uploaded by [_add_to_context] and, the update still being
    pending, once more by the first [sync_gpu]. *)
Theorem staged_before_binding_uploads_twice
    (p : Primitive.Primitive) (g : context) (positions : array_like)
    (vd : list Np.f32) :
  Primitive._vaid p = None ->
  Primitive._buffers p = [] ->
  Primitive.vertex_data
    (Primitive.set_positions (asanyarray_float32 positions) p) = Ok vd ->
  Primitive.poses_ready p = true ->
  exists w' calls,
    (Primitive.update_positions positions ;;
     Primitive._add_to_context ;;
     Primitive.sync_gpu) (p, g) = (Ok tt, w')
    /\ log (snd w') = log g ++ calls
    /\ uploads GL_ARRAY_BUFFER calls = [Floats vd; Floats vd]
    /\ Primitive._needs_vertex_update (fst w') = Some false.
Proof.
  intros Hv Hb Hd Hposes.
  set (staged := Primitive.set_needs_vertex_update (Some true)
                   (Primitive.set_bounds None
                      (Primitive.set_positions
                         (asanyarray_float32 positions) p))).
  change ((Primitive.update_positions positions ;;
           Primitive._add_to_context ;; Primitive.sync_gpu) (p, g))
    with ((Primitive._add_to_context ;; Primitive.sync_gpu) (staged, g)).
  destruct (add_to_context_effect staged g vd Hv Hd Hposes)
    as (calls & Hrun & Hup & _).
  unfold Py.bind at 1. rewrite Hrun. clear Hrun.
  assert (Hvaid : forall n k q,
             Primitive._vaid (Primitive.after_bind q n k) = Some n).
  { intros n k q. unfold Primitive.after_bind.
    destruct (Primitive._indices q); reflexivity. }
  assert (Hbufs : forall n k q,
             Primitive._buffers q = [] ->
             exists bs, Primitive._buffers (Primitive.after_bind q n k)
                        = (n + 1)%Z :: bs).
  { intros n k q Hq. unfold Primitive.after_bind.
    destruct (Primitive._indices q); cbn; rewrite Hq; eexists; reflexivity. }
  assert (Hdata : forall n k q,
             Primitive.vertex_data (Primitive.after_bind q n k)
             = Primitive.vertex_data q).
  { intros n k q. unfold Primitive.after_bind.
    destruct (Primitive._indices q); reflexivity. }
  assert (Hvflag : forall n k q,
             Primitive._needs_vertex_update (Primitive.after_bind q n k)
             = Primitive._needs_vertex_update q).
  { intros n k q. unfold Primitive.after_bind.
    destruct (Primitive._indices q); reflexivity. }
  unfold Primitive.sync_gpu, Primitive._in_context, Py.bind, self, Py.ret,
    assign.
  cbn. rewrite Hvaid. cbn. rewrite Hvflag. cbn.
  destruct (Hbufs (next_name g) (Z.of_nat (length vd)) staged Hb)
    as (bs & Hbs).
  match goal with
  | |- context [Primitive._update_vertex_buffer (?q, ?h)] =>
      rewrite (update_vertex_buffer_runs q h (next_name g) (Hvaid _ _ _)
                 _ bs vd Hbs
                 (eq_trans (Hdata (next_name g) (Z.of_nat (length vd)) staged)
                    Hd))
  end.
  cbn.
  destruct (Primitive.is_set _).
  - match goal with
    | |- context [Primitive._update_index_buffer (?q, ?h)] =>
        destruct (update_index_buffer_frame q h (next_name g))
          as (c' & e' & b' & g' & calls' & -> & Hlog & Hup' & _);
          [cbn; apply Hvaid|]
    end.
    cbn. eexists _, _. split; [reflexivity|]. cbn.
    rewrite Hlog. cbn. rewrite <- !app_assoc. split; [reflexivity|].
    simpl_uploads. rewrite Hup, Hup'. split; reflexivity.
  - eexists _, _. split; [reflexivity|]. cbn.
    rewrite <- !app_assoc. split; [reflexivity|].
    simpl_uploads. rewrite Hup. split; reflexivity.
Qed.

Arguments Primitive.set_needs_vertex_update : simpl never.
Arguments Primitive.set_needs_index_update : simpl never.
Arguments Primitive.set_vertex_buffer_capacity : simpl never.
Arguments Primitive.set_index_buffer_capacity : simpl never.
Arguments Primitive.set_element_buffer_id : simpl never.
Arguments Primitive.set_buffers : simpl never.
Arguments Primitive.set_positions : simpl never.
Arguments Primitive.set_indices : simpl never.
Arguments Primitive.set_bounds : simpl never.
Arguments Primitive.set_vaid : simpl never.

(* ===================================================================== *)
(** ** Further properties: synchronisation                               *)
(* ===================================================================== *)

Section Synchronisation.

Import Primitive.
Local Open Scope Z_scope.

(** Whether it returns or raises, [_update_vertex_buffer] touches at
    most the recorded capacity of the vertex buffer. *)
Lemma update_vertex_buffer_frame (p : Primitive) (g : context) (vaid : Z) :
  _vaid p = Some vaid ->
  exists r c' g',
    _update_vertex_buffer (p, g)
    = (r, (set_vertex_buffer_capacity c' p, g')).
Proof.
  intros Hv. run_with ltac:(rewrite ?Hv).
  destruct (vertex_data p) as [vd|e]; cbn.
  - destruct (_buffers p) as [|b0 bs]; cbn.
    + eexists _, (_vertex_buffer_capacity p), _.
      rewrite set_vertex_buffer_capacity_same. reflexivity.
    + destruct (fits _ _); cbn.
      * eexists _, (_vertex_buffer_capacity p), _.
        rewrite set_vertex_buffer_capacity_same. reflexivity.
      * eexists _, _, _. reflexivity.
  - eexists _, (_vertex_buffer_capacity p), _.
    rewrite set_vertex_buffer_capacity_same. reflexivity.
Qed.

End Synchronisation.

(** X6.  A [sync_gpu] that returns leaves nothing to do: run again on
    the state it reached, [sync_gpu] returns without a call and without
    a change. *)
Theorem sync_gpu_is_idempotent (w w' : Primitive.state) :
  Primitive.sync_gpu w = (Ok tt, w') ->
  Primitive.sync_gpu w' = (Ok tt, w').
Proof.
  destruct w as [p g].
  assert (Hdone : forall q h,
             Primitive.is_set (Primitive._needs_vertex_update q) = false ->
             Primitive.is_set (Primitive._needs_index_update q) = false ->
             Primitive.sync_gpu (q, h) = (Ok tt, (q, h))).
  { intros q h Hfv Hfi.
    unfold Primitive.sync_gpu, Primitive._in_context, Py.bind, self, Py.ret.
    cbn. destruct (Primitive._vaid q); [|reflexivity].
    cbn. rewrite Hfv. cbn. rewrite Hfi. reflexivity. }
  assert (Hidx : forall q h vaid r w1,
             Primitive._vaid q = Some vaid ->
             Primitive.is_set (Primitive._needs_vertex_update q) = false ->
             Primitive._update_index_buffer (q, h) = (r, w1) ->
             Primitive.is_set (Primitive._needs_vertex_update (fst w1))
             = false).
  { intros q h vaid r w1 Hq Hfv.
    destruct (update_index_buffer_frame q h vaid Hq)
      as (ci & ei & bi & gi & callsi & -> & _).
    intros [= _ <-]. exact Hfv. }
  unfold Primitive.sync_gpu at 1, Primitive._in_context, Py.bind, self,
    Py.ret, assign.
  cbn.
  destruct (Primitive._vaid p) as [vaid|] eqn:Hv; cbn.
  2:{ intros [= <-]. unfold Primitive.sync_gpu, Primitive._in_context,
        Py.bind, self, Py.ret. cbn. rewrite Hv. reflexivity. }
  destruct (Primitive.is_set (Primitive._needs_vertex_update p)) eqn:Hfv.
  - destruct (update_vertex_buffer_frame p g vaid Hv) as (r & c' & g' & ->).
    destruct r as [[]|e]; cbn; [|discriminate].
    set (q := Primitive.set_needs_vertex_update (Some false)
                (Primitive.set_vertex_buffer_capacity c' p)).
    assert (Hq : Primitive._vaid q = Some vaid) by exact Hv.
    assert (Hfq : Primitive.is_set (Primitive._needs_vertex_update q) = false)
      by reflexivity.
    clearbody q.
    destruct (Primitive.is_set (Primitive._needs_index_update q)) eqn:Hfi.
    + destruct (Primitive._update_index_buffer (q, g')) as [ri w1] eqn:Hi.
      pose proof (Hidx q g' vaid ri w1 Hq Hfq Hi) as Hf1.
      destruct ri as [[]|e]; cbn; [|discriminate].
      destruct w1 as [q1 g1]. cbn in *.
      intros [= <-]. apply Hdone; [exact Hf1|reflexivity].
    + intros [= <-]. apply Hdone; [exact Hfq|exact Hfi].
  - cbn.
    destruct (Primitive.is_set (Primitive._needs_index_update p)) eqn:Hfi.
    + destruct (Primitive._update_index_buffer (p, g)) as [ri w1] eqn:Hi.
      pose proof (Hidx p g vaid ri w1 Hv Hfv Hi) as Hf1.
      destruct ri as [[]|e]; cbn; [|discriminate].
      destruct w1 as [q1 g1]. cbn in *.
      intros [= <-]. apply Hdone; [exact Hf1|reflexivity].
    + intros [= <-]. apply Hdone; [exact Hfv|exact Hfi].
Qed.

(** X7.  Positions whose row count differs from that of the normals
    are accepted by [update_positions] and make the next [sync_gpu]
    raise ValueError from [np.hstack]: nothing is uploaded, the only
    call made binds the vertex array, which stays bound, the vertex
    update stays pending and the index cell is not looked at; a further
    [sync_gpu] raises again. *)
Theorem sync_fails_on_row_mismatch
    (p : Primitive.Primitive) (g : context) (vaid : Z)
    (normals : ndarray Np.f32) (positions : array_like) (n m c k : nat) :
  Primitive._vaid p = Some vaid ->
  Primitive._normals p = Some normals ->
  shape normals = [n; k] ->
  shape positions = [m; c] ->
  m <> n ->
  let staged :=
    Primitive.set_needs_vertex_update (Some true)
      (Primitive.set_bounds None
         (Primitive.set_positions (asanyarray_float32 positions) p)) in
  let g' := GL.record (glBindVertexArray vaid) g in
  (Primitive.update_positions positions ;; Primitive.sync_gpu) (p, g)
  = (Raise concat_error, (staged, g'))
  /\ Primitive.sync_gpu (staged, g')
     = (Raise concat_error, (staged, GL.record (glBindVertexArray vaid) g')).
Proof.
  intros Hv Hn Hsn Hsp Hne staged g'.
  assert (Hns : Primitive._normals staged = Some normals) by exact Hn.
  assert (Hps : Primitive._positions staged = asanyarray_float32 positions)
    by reflexivity.
  assert (Hdata : Primitive.vertex_data staged = Raise concat_error).
  { unfold Primitive.vertex_data. rewrite Hns, Hps. cbn.
    unfold hstack, atleast_1d. cbn. rewrite Hsp, Hsn. cbn.
    rewrite Hsp, Hsn.
    destruct (decide (m = n /\ @nil nat = [])) as [[? _]|_]; [contradiction|].
    reflexivity. }
  assert (Hvs : Primitive._vaid staged = Some vaid) by exact Hv.
  assert (Hfv : Primitive.is_set (Primitive._needs_vertex_update staged)
                = true) by reflexivity.
  assert (Hstep : (Primitive.update_positions positions ;; Primitive.sync_gpu)
                    (p, g) = Primitive.sync_gpu (staged, g)) by reflexivity.
  rewrite Hstep. clear Hstep. clearbody staged.
  assert (Hsync : forall h,
             Primitive.sync_gpu (staged, h)
             = (Raise concat_error,
                (staged, GL.record (glBindVertexArray vaid) h))).
  { intros h.
    unfold Primitive.sync_gpu, Primitive._update_vertex_buffer,
      Primitive._in_context, Py.bind, self, Py.ret, Py.lift, gl, assign.
    repeat (progress (cbn; rewrite ?Hvs, ?Hfv, ?Hdata)). reflexivity. }
  split; apply Hsync.
Qed.

Section Reserve.

Local Open Scope Z_scope.


End Reserve.



(* ===================================================================== *)
(** ** Further properties: the attribute setters and the constructor     *)
(* ===================================================================== *)

Section Setters.

Import Primitive.

(** A sequence that returns has run both of its parts. *)
Lemma bind_ok {S A B} (m : M S A) (k : A -> M S B) (s s' : S) (b : B) :
  Py.bind m k s = (Ok b, s') ->
  exists a s1, m s = (Ok a, s1) /\ k a s1 = (Ok b, s').
Proof.
  unfold Py.bind. destruct (m s) as [[a|e] s1]; [|discriminate].
  intros H. exists a, s1. split; [reflexivity|exact H].
Qed.

Lemma asanyarray_float32_well_formed (value : array_like) :
  well_formed value -> well_formed (asanyarray_float32 value).
Proof.
  unfold well_formed, size, asanyarray_float32. cbn.
  rewrite length_map. trivial.
Qed.

Lemma take_cols_length {A} (rows cols k : nat) :
  forall l : list A,
    length l = (rows * cols)%nat ->
    length (take_cols rows cols k l) = (rows * Nat.min k cols)%nat.
Proof.
  induction rows as [|r IH]; intros l Hl; [reflexivity|].
  cbn [take_cols]. rewrite length_app, !List.length_firstn.
  rewrite IH by (rewrite List.length_skipn; lia).
  cbn in Hl. lia.
Qed.

Lemma slice_cols_well_formed {A} (k rows cols : nat) (a : ndarray A) :
  shape a = [rows; cols] -> well_formed a ->
  shape (slice_cols k a) = [rows; Nat.min k cols]
  /\ well_formed (slice_cols k a).
Proof.
  intros Hs Hwf. unfold slice_cols. rewrite Hs. split; [reflexivity|].
  unfold well_formed, size in *. rewrite Hs in Hwf. cbn in *.
  rewrite take_cols_length by lia. lia.
Qed.

End Setters.

(** X10.  What the checked setters let through.  On a primitive with
    [n] positions of three coordinates, an assignment to [normals],
    [tangents], [texcoord_0] or [texcoord_1] that returns stores an
    array of shape (n,3), (n,4), (n,2) and (n,2) respectively, which
    holds as many elements as its shape says when the value assigned
    does, and changes no other attribute and makes no call. *)
Theorem accepted_attributes_have_layout_shapes
    (p : Primitive.Primitive) (g : context) (n : nat) (value : array_like) :
  shape (Primitive._positions p) = [n; 3%nat] ->
  well_formed value ->
  (forall w',
      Primitive.normals_setter (Some value) (p, g) = (Ok tt, w') ->
      exists stored,
        w' = (Primitive.set_normals (Some stored) p, g)
        /\ Primitive.has_shape (Some stored) [n; 3%nat])
  /\ (forall w',
         Primitive.tangents_setter (Some value) (p, g) = (Ok tt, w') ->
         exists stored,
           w' = (Primitive.set_tangents (Some stored) p, g)
           /\ Primitive.has_shape (Some stored) [n; 4%nat])
  /\ (forall w',
         Primitive.texcoord_0_setter (Some value) (p, g) = (Ok tt, w') ->
         exists stored,
           w' = (Primitive.set_texcoord_0 (Some stored) p, g)
           /\ Primitive.has_shape (Some stored) [n; 2%nat])
  /\ (forall w',
         Primitive.texcoord_1_setter (Some value) (p, g) = (Ok tt, w') ->
         exists stored,
           w' = (Primitive.set_texcoord_1 (Some stored) p, g)
           /\ Primitive.has_shape (Some stored) [n; 2%nat]).
Proof.
  intros Hp Hwf.
  pose proof (asanyarray_float32_well_formed value Hwf) as Hwf'.
  assert (Htex : forall bad w1 wrong,
             Primitive.texcoord_shape_is_wrong bad (asanyarray_float32 value)
               (p, g) = (Ok wrong, w1) ->
             wrong = false ->
             w1 = (p, g)
             /\ exists cols, shape value = [n; cols] /\ bad cols = false).
  { intros bad w1 wrong.
    unfold Primitive.texcoord_shape_is_wrong, Py.bind, Py.lift, Py.ret, self,
      shape_at, ndim.
    cbn.
    destruct (shape value) as [|rows [|cols [|? ?]]] eqn:Hs; cbn;
      try (intros [= <- <-]; discriminate).
    rewrite Hp. cbn.
    destruct (Nat.eqb_spec rows n) as [->|Hne]; cbn.
    - intros [= <- <-] Hbad. split; [reflexivity|]. exists cols.
      split; [reflexivity|exact Hbad].
    - intros [= <- <-]; discriminate. }
  split; [|split; [|split]]; intros w'.
  - unfold Primitive.normals_setter, Py.bind, Py.ret, Py.raise, self, assign.
    cbn. rewrite Hp.
    destruct (decide (shape value <> [n; 3%nat])) as [|Heq]; [discriminate|].
    apply dec_stable in Heq. cbn. intros [= <-].
    eexists. split; [reflexivity|]. split; [exact Heq|exact Hwf'].
  - unfold Primitive.tangents_setter, Py.bind, Py.lift, Py.ret, Py.raise,
      self, assign, shape_at.
    cbn. rewrite Hp. cbn.
    destruct (decide (shape value <> [n; 4%nat])) as [|Heq]; [discriminate|].
    apply dec_stable in Heq. cbn. intros [= <-].
    eexists. split; [reflexivity|]. split; [exact Heq|exact Hwf'].
  - unfold Primitive.texcoord_0_setter. intros H.
    apply bind_ok in H. destruct H as (stored & w1 & H & Hassign).
    apply bind_ok in H. destruct H as (wrong & w2 & Hwrong & H).
    destruct wrong; [discriminate|].
    destruct (Htex _ _ _ Hwrong eq_refl) as (-> & cols & Hs & Hbad).
    apply Nat.ltb_ge in Hbad.
    unfold Py.bind, Py.lift, Py.ret, shape_at in H. cbn in H.
    rewrite Hs in H. cbn in H.
    unfold assign in Hassign. cbn in Hassign.
    destruct cols as [|[|[|cols]]]; [lia | lia | |]; cbn in H;
      injection H as <- <-; injection Hassign as <-;
      (eexists; split; [reflexivity|]).
    + split; [exact Hs|exact Hwf'].
    + destruct (slice_cols_well_formed 2 n (S (S (S cols)))
                  (asanyarray_float32 value) Hs Hwf') as [Hshape Hwfs].
      split; [exact Hshape|exact Hwfs].
  - unfold Primitive.texcoord_1_setter. intros H.
    apply bind_ok in H. destruct H as (stored & w1 & H & Hassign).
    apply bind_ok in H. destruct H as (wrong & w2 & Hwrong & H).
    destruct wrong; [discriminate|].
    destruct (Htex _ _ _ Hwrong eq_refl) as (-> & cols & Hs & Hbad).
    apply negb_false_iff, Nat.eqb_eq in Hbad. subst cols.
    unfold Py.ret in H. injection H as <- <-.
    unfold assign in Hassign. cbn in Hassign. injection Hassign as <-.
    eexists. split; [reflexivity|]. split; [exact Hs|exact Hwf'].
Qed.

(** X11.  Which pose arrays [poses.setter] takes.  An array of fewer
    than two dimensions raises IndexError, not ValueError.  A (4,4)
    array is stored as (1,4,4); any other 2-dimensional array raises
    ValueError.  An array of three or more dimensions is stored as it
    is when its second and third dimensions are 4 and raises ValueError
    otherwise.  A setter that raises leaves the primitive as it was; one
    that returns also resets the cached bounds.  No call is made. *)
Theorem poses_setter_shapes
    (p : Primitive.Primitive) (g : context) (value : array_like) :
  let run := Primitive.poses_setter (Some value) (p, g) in
  let stored v :=
    (Primitive.set_bounds None (Primitive.set_poses (Some v) p), g) in
  ((ndim value < 2)%nat ->
   run = (Raise (IndexError "tuple index out of range"), (p, g)))
  /\ (forall a b,
         shape value = [a; b] ->
         (a = 4%nat /\ b = 4%nat ->
          run = (Ok tt,
                 stored (mk_ndarray [1; 4; 4]%nat
                           (map to_float32 (data value)))))
         /\ (~ (a = 4%nat /\ b = 4%nat) ->
             exists msg, run = (Raise (ValueError msg), (p, g))))
  /\ (forall d0 d1 d2 rest,
         shape value = d0 :: d1 :: d2 :: rest ->
         (d1 = 4%nat /\ d2 = 4%nat ->
          run = (Ok tt, stored (asanyarray_float32 value)))
         /\ (~ (d1 = 4%nat /\ d2 = 4%nat) ->
             exists msg, run = (Raise (ValueError msg), (p, g)))).
Proof.
  intros run stored. subst run stored.
  unfold Primitive.poses_setter, Py.bind, Py.lift, Py.ret, Py.raise, assign,
    shape_at, ndim, asanyarray_float32.
  cbn.
  split; [|split].
  - intros Hn. destruct (shape value) as [|d0 [|d1 ds]]; cbn in *;
      [reflexivity|reflexivity|lia].
  - intros a b ->. cbn. split.
    + intros [-> ->]. reflexivity.
    + intros Hne.
      destruct (Nat.eqb_spec a 4) as [->|Ha]; cbn.
      * destruct (Nat.eqb_spec b 4) as [->|Hb]; cbn;
          [exfalso; auto|eexists; reflexivity].
      * eexists; reflexivity.
  - intros d0 d1 d2 rest ->. cbn.
    destruct rest as [|d3 rest]; cbn.
    + split.
      * intros [-> ->]. reflexivity.
      * intros Hne.
        destruct (Nat.eqb_spec d1 4) as [->|Ha]; cbn.
        -- destruct (Nat.eqb_spec d2 4) as [->|Hb]; cbn;
             [exfalso; auto|eexists; reflexivity].
        -- eexists; reflexivity.
    + split.
      * intros [-> ->]. reflexivity.
      * intros Hne.
        destruct (Nat.eqb_spec d1 4) as [->|Ha]; cbn.
        -- destruct (Nat.eqb_spec d2 4) as [->|Hb]; cbn;
             [exfalso; auto|eexists; reflexivity].
        -- eexists; reflexivity.
Qed.

Section Frames.

Context {Obj : Type} {X : Type} (proj : World Obj -> X).

Lemma keeps_ret {A} (a : A) : keeps proj (Py.ret a).
Proof. intros w. reflexivity. Qed.

Lemma keeps_raise {A} (e : exn) : keeps proj (@Py.raise _ A e).
Proof. intros w. reflexivity. Qed.

Lemma keeps_lift {A} (r : result A) : keeps proj (Py.lift r).
Proof. intros w. reflexivity. Qed.

Lemma keeps_self : keeps proj self.
Proof. intros w. reflexivity. Qed.

Lemma keeps_assign (f : Obj -> Obj) :
  (forall w, proj (f (fst w), snd w) = proj w) -> keeps proj (assign f).
Proof. intros Hf w. apply Hf. Qed.

Lemma keeps_bind {A B} (m : M (World Obj) A) (k : A -> M (World Obj) B) :
  keeps proj m -> (forall a, keeps proj (k a)) -> keeps proj (Py.bind m k).
Proof.
  intros Hm Hk w. unfold Py.bind. specialize (Hm w).
  destruct (m w) as [[a|e] w1]; cbn in *.
  - rewrite Hk. exact Hm.
  - exact Hm.
Qed.

End Frames.

Ltac keeps_step :=
  first
    [ apply keeps_bind; [|intros ?]
    | apply keeps_ret
    | apply keeps_raise
    | apply keeps_lift
    | apply keeps_self
    | apply keeps_assign; intros [? ?]; reflexivity
    | match goal with
      | |- keeps _ (match ?x with _ => _ end) => destruct x
      end ].


Ltac keeps_all := cbv zeta; repeat keeps_step.

Section Construction.

Import Primitive.

Variable format_color_array :
  array_like -> nat * nat -> result (ndarray f32).





Section Init.

Variables (positions : array_like)
  (normals tangents texcoord_0 texcoord_1 color_0 joints_0 weights_0
     indices : option array_like)
  (material : option object) (mode : option Z)
  (targets poses : option array_like) (ratio : Q)
  (p0 : Primitive) (g : context) (w' : state).

Hypothesis Hrun :
  __init__ format_color_array positions normals tangents texcoord_0
    texcoord_1 color_0 joints_0 weights_0 indices material mode targets
    poses ratio (p0, g) = (Ok tt, w').




End Init.

End Construction.


(* ===================================================================== *)
(** ** Further properties: storage buffers of a compute shader           *)
(* ===================================================================== *)

(** X13.  A storage buffer that [create_storage_buffer] has registered
    is updated in place.  After a successful creation under a new name,
    [update_buffer] with data of the same element type and shape binds
    the buffer created and writes the data from offset 0, as many bytes
    as the buffer was allocated with; with another element type or
    shape it raises ValueError, and so it does for a name that was
    never registered; in both cases it makes no call.  The map of
    buffers is not changed by [update_buffer]. *)
Theorem update_buffer_after_create
    (c : ComputeShader.ComputeShader) (g : context) (name : string)
    (data data' : rawarray) (binding : Z) :
  ComputeShader._ssbo_map c !! name = None ->
  raw_well_formed data ->
  raw_well_formed data' ->
  let created := ComputeShader.create_storage_buffer name data binding (c, g) in
  let w := snd created in
  fst created = Ok tt
  /\ (r_dtype data' = r_dtype data /\ r_shape data' = r_shape data ->
      nbytes data' = nbytes data
      /\ ComputeShader.update_buffer name data' w
         = (Ok tt,
            (fst w,
             mk_context (next_name (snd w))
               (log (snd w)
                  ++ [glBindBuffer GL_SHADER_STORAGE_BUFFER (next_name g);
                      glBufferSubData GL_SHADER_STORAGE_BUFFER 0
                        (nbytes data') (Bytes (tobytes data'))]))))
  /\ (~ (r_dtype data' = r_dtype data /\ r_shape data' = r_shape data) ->
      ComputeShader.update_buffer name data' w
      = (Raise (ValueError "Data type or shape mismatch"), w))
  /\ (forall other,
         other <> name ->
         ComputeShader._ssbo_map c !! other = None ->
         ComputeShader.update_buffer other data' w
         = (Raise (ValueError ("Buffer " ++ other ++ " does not exist")), w)).
Proof.
  intros Hnew Hwf Hwf' created w.
  set (c1 := ComputeShader.set_ssbo_map
               (<[name := (next_name g, binding, r_dtype data, r_shape data)]>
                  (ComputeShader._ssbo_map c)) c).
  set (g1 := mk_context (next_name g + 1)
               (log g ++ [glGenBuffers 1 (next_name g);
                          glBindBuffer GL_SHADER_STORAGE_BUFFER (next_name g);
                          glBufferData GL_SHADER_STORAGE_BUFFER (nbytes data)
                            (Some (Bytes (tobytes data))) GL_DYNAMIC_COPY;
                          glBindBufferBase GL_SHADER_STORAGE_BUFFER binding
                            (next_name g)])).
  assert (Hcreated : created = (Ok tt, (c1, g1))).
  { subst created c1 g1.
    unfold ComputeShader.create_storage_buffer, Py.bind, Py.raise, self, gl,
      gl_gen, assign, fresh, record.
    cbn. rewrite Hnew.
    destruct (decide (is_Some (@None ComputeShader.ssbo_entry))) as [[? Hn]|_];
      [discriminate|].
    cbn. rewrite <- !app_assoc. reflexivity. }
  subst w. rewrite Hcreated. cbn [fst snd]. clear Hcreated created.
  assert (Hname : ComputeShader._ssbo_map c1 !! name
                  = Some (next_name g, binding, r_dtype data, r_shape data)).
  { subst c1. cbn. apply lookup_insert_eq. }
  assert (Hother : forall other,
             other <> name ->
             ComputeShader._ssbo_map c !! other = None ->
             ComputeShader._ssbo_map c1 !! other = None).
  { intros other Hne Hnone. subst c1. cbn.
    rewrite lookup_insert_ne by congruence. exact Hnone. }
  clearbody c1 g1.
  split; [reflexivity|].
  assert (Hupdate :
             ComputeShader.update_buffer name data' (c1, g1)
             = (if decide (r_dtype data' <> r_dtype data
                           \/ r_shape data' <> r_shape data)
                then (Raise (ValueError "Data type or shape mismatch"),
                      (c1, g1))
                else (Ok tt,
                      (c1, mk_context (next_name g1)
                             (log g1
                                ++ [glBindBuffer GL_SHADER_STORAGE_BUFFER
                                      (next_name g);
                                    glBufferSubData GL_SHADER_STORAGE_BUFFER 0
                                      (nbytes data')
                                      (Bytes (tobytes data'))]))))).
  { unfold ComputeShader.update_buffer, Py.bind, Py.raise, self, gl, record.
    cbn. rewrite Hname. destruct (decide _); [reflexivity|].
    cbn. rewrite <- !app_assoc. reflexivity. }
  rewrite Hupdate. clear Hupdate.
  split; [|split].
  - intros [Hd Hs].
    split.
    { unfold nbytes. unfold raw_well_formed in *. rewrite Hwf, Hwf', Hd, Hs.
      reflexivity. }
    destruct (decide (r_dtype data' <> r_dtype data
                      \/ r_shape data' <> r_shape data)) as [[H|H]|_];
      [contradiction|contradiction|].
    reflexivity.
  - intros Hne.
    destruct (decide (r_dtype data' <> r_dtype data
                      \/ r_shape data' <> r_shape data)) as [_|H];
      [reflexivity|].
    exfalso. apply Hne. split.
    + destruct (decide (r_dtype data' = r_dtype data)); [assumption|].
      exfalso. apply H. left. assumption.
    + destruct (decide (r_shape data' = r_shape data)); [assumption|].
      exfalso. apply H. right. assumption.
  - intros other Hne Hnone.
    unfold ComputeShader.update_buffer, Py.bind, Py.raise, self.
    cbn. specialize (Hother other Hne Hnone).
    destruct (ComputeShader._ssbo_map c1 !! other); [discriminate|].
    reflexivity.
Qed.

(* ===================================================================== *)
(** ** Further properties: DirectStateBuffer                             *)
(* ===================================================================== *)

Section DirectState.

Import DirectStateBuffer.
Local Open Scope Z_scope.

Lemma store_after_app (size : Z) (l1 l2 : list call) :
  store_after size (l1 ++ l2)
  = match store_after size l1 with
    | Some size' => store_after size' l2
    | None => None
    end.
Proof.
  revert size. induction l1 as [|c l1 IH]; intros size; [reflexivity|].
  destruct c; cbn; try apply IH.
  destruct (_ <=? _); [apply IH|reflexivity].
Qed.

(** What holds of a buffer between calls: it has the name and target
    it was made with, and its calls so far add up to a store of
    [_size] bytes. *)
Lemma call_method_keeps_store (id : Z) (t : target) (base : list call)
    (m : method) (w : state) (calls : list call) :
  _id (fst w) = id -> _target (fst w) = t ->
  log (snd w) = base ++ calls ->
  store_after 0 calls = Some (_size (fst w)) ->
  let w' := snd (call_method m w) in
  _id (fst w') = id /\ _target (fst w') = t
  /\ next_name (snd w') = next_name (snd w)
  /\ exists calls',
       log (snd w') = base ++ calls'
       /\ store_after 0 calls' = Some (_size (fst w')).
Proof.
  intros Hid Ht Hlog Hstore. destruct w as [b g]. cbn in *.
  destruct m as [data|data offset]; cbn.
  - unfold set_data, Py.bind, self, gl, assign, record. cbn.
    split; [exact Hid|]. split; [exact Ht|]. split; [reflexivity|].
    eexists. rewrite Hlog, <- !app_assoc. split; [reflexivity|].
    rewrite store_after_app, Hstore. reflexivity.
  - unfold update_data, Py.bind, Py.raise, self, gl, record. cbn.
    destruct (Z.gtb_spec (offset + nbytes data) (_size b)) as [Hgt|Hle]; cbn.
    + split; [exact Hid|]. split; [exact Ht|]. split; [reflexivity|].
      exists calls. split; assumption.
    + split; [exact Hid|]. split; [exact Ht|]. split; [reflexivity|].
      eexists. rewrite Hlog, <- !app_assoc. split; [reflexivity|].
      rewrite store_after_app, Hstore. cbn.
      destruct (Z.leb_spec (offset + nbytes data) (_size b)); [|lia].
      reflexivity.
Qed.

End DirectState.

(** X14.  A DirectStateBuffer never writes past the end of its store.
    After [__init__] and any sequence of calls of [set_data] and
    [update_data], some of which may have raised, the buffer still has
    the name that [__init__] generated, no other name was generated,
    and in the calls made since, every [glBufferSubData] ends within the
    store that the last [glBufferData] before it allocated (an empty
    store if there was none), and [_size] is the size of the store. *)
Theorem direct_buffer_stays_within_store
    (t : target) (u : usage) (g : context)
    (ms : list DirectStateBuffer.method) :
  let w0 := snd (DirectStateBuffer.__init__ t u (DirectStateBuffer.blank, g)) in
  let w := DirectStateBuffer.after ms w0 in
  DirectStateBuffer._id (fst w) = next_name g
  /\ DirectStateBuffer._target (fst w) = t
  /\ next_name (snd w) = (next_name g + 1)%Z
  /\ exists calls,
       log (snd w)
       = (log g ++ [glGenBuffers 1 (next_name g); glBindBuffer t (next_name g)])
           ++ calls
       /\ DirectStateBuffer.store_after 0 calls
          = Some (DirectStateBuffer._size (fst w)).
Proof.
  intros w0 w. subst w.
  induction ms as [|m ms IH] using rev_ind.
  - subst w0. cbn. split; [reflexivity|]. split; [reflexivity|].
    split; [reflexivity|]. exists []. rewrite app_nil_r, <- app_assoc.
    split; reflexivity.
  - unfold DirectStateBuffer.after in *. rewrite fold_left_app. cbn.
    destruct IH as (Hid & Ht & Hn & calls & Hlog & Hstore).
    destruct (call_method_keeps_store _ _ _ m _ calls Hid Ht Hlog Hstore)
      as (Hid' & Ht' & Hn' & calls' & Hlog' & Hstore').
    split; [exact Hid'|]. split; [exact Ht'|].
    split; [etransitivity; [exact Hn'|exact Hn]|].
    exists calls'. split; assumption.
Qed.

(* ===================================================================== *)
(** ** Further properties: PersistentBuffer.update                       *)
(* ===================================================================== *)

Section PersistentNegative.

Import PersistentBuffer.
Local Open Scope Z_scope.

(** A slice that starts and ends before the end of the sequence,
    counted from the end. *)
Lemma setitem_slice_from_end {A} (a : list A) (offset : Z) (values : list A) :
  - Z.of_nat (length a) <= offset ->
  offset + Z.of_nat (length values) < 0 ->
  setitem_slice a offset (offset + Z.of_nat (length values)) values
  = Ok (firstn (Z.to_nat (Z.of_nat (length a) + offset)) a ++ values
          ++ skipn (Z.to_nat (Z.of_nat (length a) + offset) + length values) a).
Proof.
  intros Hlo Hhi. unfold setitem_slice, slice_bound.
  destruct (Z.ltb_spec offset 0); [|lia].
  destruct (Z.ltb_spec (offset + Z.of_nat (length values)) 0); [|lia].
  rewrite !Z.min_l, !Z.max_r by lia.
  replace (Z.to_nat (offset + Z.of_nat (length values) + Z.of_nat (length a)
                     - (offset + Z.of_nat (length a))))
    with (length values) by lia.
  destruct (decide (length values = length values)); [|congruence].
  rewrite (Z.add_comm offset). reflexivity.
Qed.

(** A slice that starts before the end, counted from the end, and
    stops at a position counted from the start that lies before it, is
    empty. *)
Lemma setitem_slice_empty {A} (a : list A) (offset : Z) (values : list A) :
  - Z.of_nat (length a) <= offset < 0 ->
  0 <= offset + Z.of_nat (length values) ->
  (length values <= length a)%nat ->
  setitem_slice a offset (offset + Z.of_nat (length values)) values
  = match values with
    | [] | [_] => Ok a
    | _ => Raise (ValueError "could not broadcast input array")
    end.
Proof.
  intros Hlo Hhi Hlen. unfold setitem_slice, slice_bound.
  destruct (Z.ltb_spec offset 0); [|lia].
  destruct (Z.ltb_spec (offset + Z.of_nat (length values)) 0); [lia|].
  replace (Z.to_nat (Z.max 0 _)) with 0%nat by lia.
  rewrite Nat.add_0_r.
  destruct values as [|v [|v' values]]; cbn [length] in *.
  - lia.
  - destruct (decide (1 = 0)%nat); [lia|].
    cbn. rewrite firstn_skipn. reflexivity.
  - destruct (decide _); [lia|]. reflexivity.
Qed.

End PersistentNegative.

(** X15.  [update] with a negative offset.  The bounds check lets a
    negative offset through, and the slice assignment then counts it
    from the end of the mapped region.  When the data end before the
    end of the region that way ([offset + nbytes < 0], with the offset
    not below [-size]), they are written at [size + offset].  When the
    data would reach the end or beyond ([0 <= offset + nbytes]), the
    slice is empty: a single byte is dropped without an error, and
    more than one byte raise ValueError; the region is unchanged. *)
Theorem persistent_update_counts_negative_offset_from_end
    (b : PersistentBuffer.PersistentBuffer) (data : rawarray) (offset : Z)
    (region : list Byte.byte) :
  PersistentBuffer._array b = Some region ->
  Z.of_nat (length region) = PersistentBuffer._size b ->
  (- PersistentBuffer._size b <= offset < 0)%Z ->
  ((offset + nbytes data < 0)%Z ->
   PersistentBuffer.update data offset b
   = (Ok tt,
      PersistentBuffer.set_array
        (Some (PersistentBuffer.written region
                 (PersistentBuffer._size b + offset) (tobytes data)))
        b))
  /\ ((0 <= offset + nbytes data)%Z ->
      (nbytes data <= PersistentBuffer._size b)%Z ->
      (nbytes data = 1%Z -> PersistentBuffer.update data offset b = (Ok tt, b))
      /\ ((1 < nbytes data)%Z ->
          PersistentBuffer.update data offset b
          = (Raise (ValueError "could not broadcast input array"), b))).
Proof.
  intros Ha Hlen Hoff.
  unfold PersistentBuffer.update, Py.bind, Py.get, Py.raise, Py.lift,
    Py.modify, nbytes.
  cbn.
  split.
  - intros Hend.
    destruct (Z.gtb_spec (offset + Z.of_nat (length (tobytes data)))
                (PersistentBuffer._size b)); [lia|].
    rewrite Ha. cbn.
    rewrite setitem_slice_from_end by lia.
    unfold PersistentBuffer.written. rewrite Hlen. reflexivity.
  - intros Hend Hfit.
    destruct (Z.gtb_spec (offset + Z.of_nat (length (tobytes data)))
                (PersistentBuffer._size b)); [lia|].
    rewrite Ha. cbn.
    rewrite setitem_slice_empty by lia.
    split.
    + intros Hone. destruct (tobytes data) as [|v [|v' l]]; cbn in Hone; try lia.
      unfold PersistentBuffer.set_array. destruct b; cbn in *. subst.
      reflexivity.
    + intros Hmany.
      destruct (tobytes data) as [|v [|v' l]]; cbn in Hmany; try lia.
      reflexivity.
Qed.

Section PersistentCompose.

Import PersistentBuffer.
Local Open Scope Z_scope.

Lemma update_in_range (b : PersistentBuffer) (data : rawarray) (offset : Z)
    (region : list Byte.byte) :
  _array b = Some region ->
  Z.of_nat (length region) = _size b ->
  0 <= offset ->
  offset + nbytes data <= _size b ->
  update data offset b
  = (Ok tt, set_array (Some (written region offset (tobytes data))) b).
Proof.
  intros Ha Hlen H0 Hfit.
  unfold update, Py.bind, Py.get, Py.raise, Py.lift, Py.modify, nbytes in *.
  cbn.
  destruct (Z.gtb_spec (offset + Z.of_nat (length (tobytes data))) (_size b));
    [lia|].
  rewrite Ha. cbn. rewrite setitem_slice_in_range by lia. reflexivity.
Qed.

Lemma written_length (region : list Byte.byte) (offset : Z)
    (bytes : list Byte.byte) :
  0 <= offset ->
  offset + Z.of_nat (length bytes) <= Z.of_nat (length region) ->
  length (written region offset bytes) = length region.
Proof.
  intros H0 Hfit. unfold written.
  rewrite !length_app, List.length_firstn, List.length_skipn. lia.
Qed.

(** The byte at position [i] after a write. *)
Lemma written_lookup (region : list Byte.byte) (offset : Z)
    (bytes : list Byte.byte) (i : nat) :
  0 <= offset ->
  offset + Z.of_nat (length bytes) <= Z.of_nat (length region) ->
  nth_error (written region offset bytes) i
  = if (Z.of_nat i <? offset) || (offset + Z.of_nat (length bytes) <=? Z.of_nat i)
    then nth_error region i
    else nth_error bytes (i - Z.to_nat offset).
Proof.
  intros H0 Hfit. unfold written.
  destruct (Z.ltb_spec (Z.of_nat i) offset) as [Hlt|Hge]; cbn.
  - rewrite nth_error_app1 by (rewrite List.length_firstn; lia).
    rewrite nth_error_firstn.
    destruct (Nat.ltb_spec i (Z.to_nat offset)); [reflexivity|lia].
  - rewrite nth_error_app2 by (rewrite List.length_firstn; lia).
    rewrite List.length_firstn.
    replace (Nat.min (Z.to_nat offset) (length region)) with (Z.to_nat offset)
      by lia.
    destruct (Z.leb_spec (offset + Z.of_nat (length bytes)) (Z.of_nat i)).
    + rewrite nth_error_app2 by lia.
      rewrite nth_error_skipn. f_equal. lia.
    + rewrite nth_error_app1 by lia. reflexivity.
Qed.

Lemma nth_error_ext {A} (l1 l2 : list A) :
  (forall i, nth_error l1 i = nth_error l2 i) -> l1 = l2.
Proof.
  revert l2. induction l1 as [|x l1 IH]; intros [|y l2] H.
  - reflexivity.
  - specialize (H 0%nat). discriminate.
  - specialize (H 0%nat). discriminate.
  - pose proof (H 0%nat) as H0. cbn in H0. injection H0 as ->.
    f_equal. apply IH. intros i. exact (H (S i)).
Qed.

End PersistentCompose.

(** X16.  How two updates of a mapped buffer compose, both within
    bounds and from offsets that are not negative.  Written to the same
    range, the second replaces the first: the buffer ends as if only
    the second had been made.  Written to ranges that do not overlap,
    the two can be made in either order. *)
Theorem persistent_updates_compose
    (b : PersistentBuffer.PersistentBuffer) (d1 d2 : rawarray)
    (o1 o2 : Z) (region : list Byte.byte) :
  PersistentBuffer._array b = Some region ->
  Z.of_nat (length region) = PersistentBuffer._size b ->
  (0 <= o1)%Z -> (o1 + nbytes d1 <= PersistentBuffer._size b)%Z ->
  (0 <= o2)%Z -> (o2 + nbytes d2 <= PersistentBuffer._size b)%Z ->
  (o1 = o2 -> nbytes d1 = nbytes d2 ->
   (PersistentBuffer.update d1 o1 ;; PersistentBuffer.update d2 o2) b
   = PersistentBuffer.update d2 o2 b)
  /\ ((o1 + nbytes d1 <= o2)%Z ->
      (PersistentBuffer.update d1 o1 ;; PersistentBuffer.update d2 o2) b
      = (PersistentBuffer.update d2 o2 ;; PersistentBuffer.update d1 o1) b).
Proof.
  intros Ha Hlen H1 F1 H2 F2.
  pose proof (update_in_range b d1 o1 region Ha Hlen H1 F1) as U1.
  pose proof (update_in_range b d2 o2 region Ha Hlen H2 F2) as U2.
  unfold nbytes in *.
  assert (L1 : length (PersistentBuffer.written region o1 (tobytes d1))
               = length region) by (apply written_length; lia).
  assert (L2 : length (PersistentBuffer.written region o2 (tobytes d2))
               = length region) by (apply written_length; lia).
  assert (U12 := fun H =>
            update_in_range
              (PersistentBuffer.set_array
                 (Some (PersistentBuffer.written region o1 (tobytes d1))) b)
              d2 o2 _ eq_refl H H2 F2).
  assert (U21 := fun H =>
            update_in_range
              (PersistentBuffer.set_array
                 (Some (PersistentBuffer.written region o2 (tobytes d2))) b)
              d1 o1 _ eq_refl H H1 F1).
  cbn [PersistentBuffer._size PersistentBuffer.set_array] in U12, U21.
  specialize (U12 ltac:(lia)). specialize (U21 ltac:(lia)).
  split.
  - intros <- Hn. apply Nat2Z.inj in Hn.
    unfold Py.bind at 1. rewrite U1, U12, U2.
    f_equal. unfold PersistentBuffer.set_array. cbn. f_equal. f_equal.
    apply nth_error_ext. intros i.
    rewrite (written_lookup (PersistentBuffer.written _ _ _)) by lia.
    rewrite !written_lookup by lia.
    rewrite Hn. destruct (_ || _)%bool; reflexivity.
  - intros Hdisjoint. unfold Py.bind. rewrite U1, U12, U2, U21.
    f_equal. unfold PersistentBuffer.set_array. cbn. f_equal. f_equal.
    apply nth_error_ext. intros i.
    rewrite !(written_lookup (PersistentBuffer.written _ _ _)) by lia.
    rewrite !written_lookup by lia.
    destruct (Z.ltb_spec (Z.of_nat i) o2), (Z.ltb_spec (Z.of_nat i) o1),
      (Z.leb_spec (o2 + Z.of_nat (length (tobytes d2))) (Z.of_nat i)),
      (Z.leb_spec (o1 + Z.of_nat (length (tobytes d1))) (Z.of_nat i));
      cbn; try reflexivity; lia.
Qed.

(** X17.  Indices given to a bound primitive that had none get a
    buffer of their own, which the primitive owns: the sync generates
    one name, uploads the indices to it and appends it to the buffers,
    so that [delete] releases it with the others.  As after any
    [delete], the name stays recorded as the element buffer. *)
Theorem late_indices_get_an_owned_buffer
    (p : Primitive.Primitive) (g : context) (vaid : Z) (indices : array_like) :
  Primitive._vaid p = Some vaid ->
  Primitive._element_buffer_id p = None ->
  Primitive.is_set (Primitive._needs_vertex_update p) = false ->
  let eb := next_name g in
  exists p' calls,
    (Primitive.update_topology (Some indices) ;;
     Primitive.sync_gpu ;;
     Primitive.delete) (p, g)
    = (Ok tt,
       (p', mk_context (next_name g + 1)
              (log g ++ calls
                 ++ [glBindVertexArray 0; glDeleteVertexArrays 1 [vaid];
                     glDeleteBuffers
                       (Z.of_nat (length (Primitive._buffers p ++ [eb])))
                       (Primitive._buffers p ++ [eb])])))
    /\ In (glGenBuffers 1 eb) calls
    /\ uploads GL_ELEMENT_ARRAY_BUFFER calls
       = [UInts (flatten_uint32 (asanyarray_float32 indices))]
    /\ Primitive._vaid p' = None
    /\ Primitive._buffers p' = []
    /\ Primitive._element_buffer_id p' = Some eb.
Proof.
  intros Hv He Hflag eb.
  set (staged := Primitive.set_needs_index_update (Some true)
                   (Primitive.set_bounds None
                      (Primitive.set_indices
                         (Some (asanyarray_float32 indices)) p))).
  assert (Hstage : forall k : Primitive.state -> result unit * Primitive.state,
             Py.bind (Primitive.update_topology (Some indices)) (fun _ => k)
               (p, g) = k (staged, g)) by reflexivity.
  rewrite Hstage. clear Hstage.
  assert (Hvs : Primitive._vaid staged = Some vaid) by exact Hv.
  assert (Hes : Primitive._element_buffer_id staged = None) by exact He.
  assert (Hfs : Primitive.is_set (Primitive._needs_vertex_update staged)
                = false) by exact Hflag.
  assert (His : Primitive._indices staged = Some (asanyarray_float32 indices))
    by reflexivity.
  assert (Hfi : Primitive.is_set (Primitive._needs_index_update staged) = true)
    by reflexivity.
  assert (Hbs : Primitive._buffers staged = Primitive._buffers p)
    by reflexivity.
  clearbody staged.
  pose proof (update_index_buffer_creates staged g vaid Hvs _ His Hes) as Hrun.
  cbv zeta in Hrun.
  unfold Py.bind at 1.
  assert (Hsync :
            Primitive.sync_gpu (staged, g)
            = (Ok tt,
               (Primitive.set_needs_index_update (Some false)
                  (Primitive.set_index_buffer_capacity
                     (Some (int (inject_Z
                                   (Z.of_nat (size (asanyarray_float32 indices)))
                                 * Primitive._buffer_reserve_ratio staged)))
                     (Primitive.set_element_buffer_id (Some (next_name g))
                        (Primitive.set_buffers
                           (Primitive._buffers staged ++ [next_name g])
                           staged))),
                mk_context (next_name g + 1)
                  (log g
                     ++ [glBindVertexArray vaid; glGenBuffers 1 (next_name g);
                         glBindBuffer GL_ELEMENT_ARRAY_BUFFER (next_name g)]
                     ++ Primitive.write_calls GL_ELEMENT_ARRAY_BUFFER
                          Primitive.UINT_SZ
                          (Primitive._buffer_reserve_ratio staged)
                          (Z.of_nat (size (asanyarray_float32 indices))) None
                          (UInts (flatten_uint32 (asanyarray_float32 indices)))
                     ++ [glBindVertexArray 0])))).
  { unfold Primitive.sync_gpu, Primitive._in_context, Py.bind, self, Py.ret,
      assign.
    cbn. rewrite Hvs. cbn. rewrite Hfs. cbn. rewrite Hfi.
    rewrite Hrun. reflexivity. }
  rewrite Hsync. clear Hsync Hrun.
  match goal with
  | |- context [Primitive.delete (?q, _)] =>
      set (synced := q);
      assert (Hvq : Primitive._vaid synced = Some vaid) by exact Hvs;
      assert (Hbq : Primitive._buffers synced
                    = Primitive._buffers p ++ [eb])
        by (rewrite <- Hbs; reflexivity);
      assert (Heq : Primitive._element_buffer_id synced = Some eb)
        by reflexivity;
      clearbody synced
  end.
  unfold Primitive.delete, Primitive._unbind, Primitive._remove_from_context,
    Py.bind, self, Py.ret, gl, assign, record.
  cbn. rewrite Hvq. cbn. rewrite Hbq.
  eexists _,
    ([glBindVertexArray vaid; glGenBuffers 1 eb;
      glBindBuffer GL_ELEMENT_ARRAY_BUFFER eb]
       ++ Primitive.write_calls GL_ELEMENT_ARRAY_BUFFER Primitive.UINT_SZ
            (Primitive._buffer_reserve_ratio staged)
            (Z.of_nat (size (asanyarray_float32 indices))) None
            (UInts (flatten_uint32 (asanyarray_float32 indices)))
       ++ [glBindVertexArray 0]).
  split.
  { f_equal. f_equal. f_equal. rewrite <- ?app_assoc. cbn.
    rewrite <- ?app_assoc. reflexivity. }
  split.
  { apply in_or_app. left. right. left. reflexivity. }
  split.
  { simpl_uploads. reflexivity. }
  split; [reflexivity|]. split; [reflexivity|exact Heq].
Qed.

(* ===================================================================== *)
(** ** Further properties: the flags of the render buffer                *)
(* ===================================================================== *)

Section BufFlagsCache.

Import Primitive.

Variable format_color_array :
  array_like -> nat * nat -> result (ndarray f32).

Lemma setters_keep_buf_flags :
  (forall v, keeps (fun w => _buf_flags (fst w)) (normals_setter v))
  /\ (forall v, keeps (fun w => _buf_flags (fst w)) (tangents_setter v))
  /\ (forall v, keeps (fun w => _buf_flags (fst w)) (texcoord_0_setter v))
  /\ (forall v, keeps (fun w => _buf_flags (fst w)) (texcoord_1_setter v))
  /\ (forall v, keeps (fun w => _buf_flags (fst w))
                  (color_0_setter format_color_array v))
  /\ (forall v, keeps (fun w => _buf_flags (fst w)) (joints_0_setter v))
  /\ (forall v, keeps (fun w => _buf_flags (fst w)) (weights_0_setter v)).
Proof.
  repeat split; intros v;
    unfold normals_setter, tangents_setter,
      texcoord_0_setter, texcoord_1_setter, texcoord_shape_is_wrong,
      color_0_setter, joints_0_setter, weights_0_setter;
    keeps_all.
Qed.

Lemma with_flag_lor {A} (attribute : option A) (flag flags extra : Z) :
  with_flag attribute flag (Z.lor flags extra)
  = Z.lor (with_flag attribute flag flags) extra.
Proof.
  destruct attribute; cbn; [|reflexivity].
  rewrite <- !Z.lor_assoc. f_equal. apply Z.lor_comm.
Qed.

End BufFlagsCache.

(** X18.  The flags of the render buffer are computed once.  The first
    read of [buf_flags] computes them from the attributes present and
    stores them; no attribute setter resets what is stored, so a read
    after an attribute has been assigned returns the flags of before.
    When normals are assigned to a primitive that had none, the flags
    computed afresh would have NORMAL set, and the read still returns
    the old ones. *)
Theorem buf_flags_are_computed_once
    (POSITION NORMAL TANGENT TEXCOORD_0 TEXCOORD_1 COLOR_0 JOINTS_0
       WEIGHTS_0 : Z)
    (format_color_array : array_like -> nat * nat -> result (ndarray Np.f32))
    (p : Primitive.Primitive) (g : context) :
  let compute :=
    Primitive._compute_buf_flags POSITION NORMAL TANGENT TEXCOORD_0
      TEXCOORD_1 COLOR_0 JOINTS_0 WEIGHTS_0 in
  let read :=
    Primitive.buf_flags POSITION NORMAL TANGENT TEXCOORD_0 TEXCOORD_1
      COLOR_0 JOINTS_0 WEIGHTS_0 in
  Primitive._buf_flags p = None ->
  exists flags,
    let cached := (Primitive.set_buf_flags (Some flags) p, g) in
    compute (p, g) = (Ok flags, (p, g))
    /\ read (p, g) = (Ok flags, cached)
    /\ (forall (m : M Primitive.state unit) r w',
           (exists v, m = Primitive.normals_setter v)
           \/ (exists v, m = Primitive.tangents_setter v)
           \/ (exists v, m = Primitive.texcoord_0_setter v)
           \/ (exists v, m = Primitive.texcoord_1_setter v)
           \/ (exists v, m = Primitive.color_0_setter format_color_array v)
           \/ (exists v, m = Primitive.joints_0_setter v)
           \/ (exists v, m = Primitive.weights_0_setter v) ->
           m cached = (r, w') ->
           read w' = (Ok flags, w'))
    /\ (Primitive._normals p = None ->
        forall v w',
          Primitive.normals_setter (Some v) cached = (Ok tt, w') ->
          compute w' = (Ok (Z.lor flags NORMAL), w')).
Proof.
  intros compute read Hnone.
  eexists. split; [reflexivity|].
  split.
  { subst read. unfold Primitive.buf_flags, Py.bind, self, assign, Py.ret.
    cbn. rewrite Hnone. reflexivity. }
  split.
  - intros m r w' Hm Hrun.
    assert (Hk : keeps (fun w => Primitive._buf_flags (fst w)) m).
    { destruct (setters_keep_buf_flags format_color_array)
        as (K1 & K2 & K3 & K4 & K5 & K6 & K7).
      destruct Hm as [[v ->]|[[v ->]|[[v ->]|[[v ->]|[[v ->]|[[v ->]|[v ->]]]]]]];
        auto. }
    match type of Hrun with
    | m ?cached = _ => specialize (Hk cached)
    end.
    rewrite Hrun in Hk. cbn in Hk.
    subst read. unfold Primitive.buf_flags, Py.bind, self, Py.ret.
    cbn. rewrite Hk. reflexivity.
  - intros Hn v w'.
    unfold Primitive.normals_setter, Py.bind, Py.ret, Py.raise, self, assign.
    cbn. destruct (decide _); [discriminate|]. cbn. intros [= <-].
    subst compute.
    unfold Primitive._compute_buf_flags, Py.bind, self, Py.ret.
    cbn. rewrite Hn. cbn [Primitive.with_flag].
    rewrite !with_flag_lor. reflexivity.
Qed.

(* ===================================================================== *)
(** ** Further properties: transparency                                  *)
(* ===================================================================== *)

Section TransparencyOfColours.

Import Primitive.

(** The alpha of vertex [i] in the row-major data of (n,4) colours. *)
Lemma alpha_entry (l : list f32) (i : nat) :
  firstn (prod_dims []) (skipn (3 * prod_dims []) (row (4 * prod_dims []) i l))
  = match nth_error l (4 * i + 3) with
    | Some x => [x]
    | None => []
    end.
Proof.
  unfold row. cbn [prod_dims fold_right]. rewrite !Nat.mul_1_r.
  replace (4 * i + 3)%nat with (i * 4 + 3)%nat by lia.
  rewrite <- nth_error_skipn.
  destruct (skipn (i * 4) l) as [|a [|b [|c [|d rest]]]]; reflexivity.
Qed.

Lemma any_alpha_differs_spec (color_0 : ndarray f32) (n : nat) :
  shape color_0 = [n; 4%nat] ->
  exists differs,
    any_alpha_differs color_0 = Ok differs
    /\ (differs = true
        <-> exists i x,
              (i < n)%nat
              /\ nth_error (data color_0) (4 * i + 3) = Some x
              /\ SFeqb x f32_one = false).
Proof.
  intros Hs. unfold any_alpha_differs, take_axis1. rewrite Hs.
  change (3 <? 4)%nat with true. cbn [and_then flatten data].
  eexists. split; [reflexivity|].
  rewrite existsb_exists. split.
  - intros (x & Hin & Hx). apply List.in_flat_map in Hin.
    destruct Hin as (i & Hi & Hin). apply in_seq in Hi.
    rewrite alpha_entry in Hin.
    destruct (nth_error (data color_0) (4 * i + 3)) as [y|] eqn:Hy;
      [|destruct Hin].
    destruct Hin as [<-|[]].
    exists i, y. split; [lia|]. split; [exact Hy|].
    apply negb_true_iff. exact Hx.
  - intros (i & x & Hi & Hx & Hne).
    exists x. split; [|apply negb_true_iff; exact Hne].
    apply List.in_flat_map. exists i. split; [apply in_seq; lia|].
    rewrite alpha_entry, Hx. left. reflexivity.
Qed.

End TransparencyOfColours.

(** X19.  What [is_transparent] answers on a primitive whose
    transparency has not been computed yet.  With a transparent
    material the answer is True and nothing is stored.  Otherwise the
    answer is stored: it is False without colours; with (n,4) colours
    it is True exactly when some vertex has an alpha that is not 1, and
    the next read returns what was stored.  With colours of fewer than
    four columns the read raises IndexError after False has been
    stored, so that the next read returns False. *)
Theorem transparency_of_colours
    (material_is_transparent : Primitive.Material -> bool)
    (p : Primitive.Primitive) (g : context) :
  let read := Primitive.is_transparent material_is_transparent in
  let stored b := (Primitive.set_is_transparent (Some b) p, g) in
  Primitive._is_transparent p = None ->
  (material_is_transparent (Primitive._material p) = true ->
   read (p, g) = (Ok (Some true), (p, g)))
  /\ (material_is_transparent (Primitive._material p) = false ->
      (Primitive._color_0 p = None ->
       read (p, g) = (Ok (Some false), stored false))
      /\ (forall color_0 n,
             Primitive._color_0 p = Some color_0 ->
             shape color_0 = [n; 4%nat] ->
             exists b,
               read (p, g) = (Ok (Some b), stored b)
               /\ read (stored b) = (Ok (Some b), stored b)
               /\ (b = true
                   <-> exists i x,
                         (i < n)%nat
                         /\ nth_error (data color_0) (4 * i + 3) = Some x
                         /\ SFeqb x f32_one = false))
      /\ (forall color_0 n k,
             Primitive._color_0 p = Some color_0 ->
             shape color_0 = [n; k] ->
             (k <= 3)%nat ->
             exists msg,
               read (p, g) = (Raise (IndexError msg), stored false)
               /\ read (stored false) = (Ok (Some false), stored false))).
Proof.
  intros read stored Hnone. subst read stored.
  assert (Hcached : forall b,
             material_is_transparent (Primitive._material p) = false ->
             Primitive.is_transparent material_is_transparent
               (Primitive.set_is_transparent (Some b) p, g)
             = (Ok (Some b), (Primitive.set_is_transparent (Some b) p, g))).
  { intros b Hm.
    unfold Primitive.is_transparent, Primitive._compute_transparency,
      Py.bind, self, Py.ret.
    cbn. rewrite Hm. reflexivity. }
  split.
  - intros Hm.
    unfold Primitive.is_transparent, Primitive._compute_transparency,
      Py.bind, self, Py.ret.
    cbn. rewrite Hm. reflexivity.
  - intros Hm. split; [|split].
    + intros Hc.
      unfold Primitive.is_transparent, Primitive._compute_transparency,
        Py.bind, self, Py.ret, assign.
      cbn. rewrite Hm, Hnone. cbn. rewrite Hc. reflexivity.
    + intros color_0 n Hc Hs.
      destruct (any_alpha_differs_spec color_0 n Hs) as (b & Hb & Hiff).
      exists b. split; [|split; [apply Hcached; exact Hm|exact Hiff]].
      unfold Primitive.is_transparent, Primitive._compute_transparency,
        Py.bind, self, Py.ret, Py.lift, assign.
      cbn. rewrite Hm, Hnone. cbn. rewrite Hc, Hb.
      destruct b; cbn; [|reflexivity].
      do 2 f_equal.
    + intros color_0 n k Hc Hs Hk.
      assert (Hraise : exists msg,
                 Primitive.any_alpha_differs color_0
                 = Raise (IndexError msg)).
      { unfold Primitive.any_alpha_differs, take_axis1. rewrite Hs.
        destruct (Nat.ltb_spec 3 k); [lia|]. eexists. reflexivity. }
      destruct Hraise as (msg & Hraise).
      exists msg. split; [|apply Hcached; exact Hm].
      unfold Primitive.is_transparent, Primitive._compute_transparency,
        Py.bind, self, Py.ret, Py.lift, assign.
      cbn. rewrite Hm, Hnone. cbn. rewrite Hc, Hraise. reflexivity.
Qed.

Section Fetching.

Import Primitive.

Lemma row_length {A} (cols i n : nat) (l : list A) :
  length l = (n * cols)%nat -> (i < n)%nat -> length (row cols i l) = cols.
Proof.
  intros Hl Hi. unfold row.
  rewrite List.length_firstn, List.length_skipn. nia.
Qed.

(** In a concatenation, the [k]-th part lies behind the parts before
    it. *)
Lemma concat_part {A} (parts : list (list A)) :
  forall (k : nat) (part : list A),
    nth_error parts k = Some part ->
    firstn (length part)
      (skipn (length (concat (firstn k parts))) (concat parts)) = part
    /\ (length (concat (firstn k parts)) + length part
        <= length (concat parts))%nat.
Proof.
  induction parts as [|q parts IH]; intros [|k] part Hk; try discriminate.
  - cbn in Hk. injection Hk as ->. cbn. rewrite List.skipn_O.
    rewrite firstn_app, Nat.sub_diag, firstn_all, length_app. cbn.
    rewrite app_nil_r. split; [reflexivity|lia].
  - cbn in Hk. destruct (IH k part Hk) as [Hpart Hlen].
    cbn [firstn concat]. rewrite !length_app.
    rewrite List.skipn_app.
    rewrite List.skipn_all2 by lia.
    replace (length q + length (concat (firstn k parts)) - length q)%nat
      with (length (concat (firstn k parts))) by lia.
    cbn [app]. split; [exact Hpart|lia].
Qed.

Lemma firstn_skipn_within {A} (w off stride : nat) (l : list A) :
  (off + w <= stride)%nat ->
  firstn w (skipn off (firstn stride l)) = firstn w (skipn off l).
Proof.
  intros H. rewrite List.skipn_firstn_comm, List.firstn_firstn.
  f_equal. lia.
Qed.

Lemma attr_sizes_are_widths (p : Primitive) :
  attr_sizes p = map (fun a => Z.of_nat (fst a)) (vertex_attributes p).
Proof.
  unfold attr_sizes, vertex_attributes.
  destruct (_normals p), (_tangents p), (_texcoord_0 p), (_texcoord_1 p),
    (_color_0 p); reflexivity.
Qed.

Lemma vertex_record_is_concat (p : Primitive) (i : nat) :
  vertex_record p i
  = concat (map (fun a => row (fst a) i (data (snd a))) (vertex_attributes p)).
Proof.
  unfold vertex_record, vertex_attributes, attr_row.
  destruct (_normals p), (_tangents p), (_texcoord_0 p), (_texcoord_1 p),
    (_color_0 p); cbn; rewrite ?app_nil_r; reflexivity.
Qed.

Lemma vertex_attributes_shapes (p : Primitive) (n : nat) :
  shape (_positions p) = [n; 3%nat] ->
  well_formed (_positions p) ->
  has_shape (_normals p) [n; 3%nat] ->
  has_shape (_tangents p) [n; 4%nat] ->
  has_shape (_texcoord_0 p) [n; 2%nat] ->
  has_shape (_texcoord_1 p) [n; 2%nat] ->
  has_shape (_color_0 p) [n; 4%nat] ->
  List.Forall (fun a => length (data (snd a)) = (n * fst a)%nat)
    (vertex_attributes p).
Proof.
  intros Hs Hwf Hn Ht H0 H1 Hc.
  assert (Hlen : forall (a : ndarray f32) w,
             shape a = [n; w] -> well_formed a ->
             length (data a) = (n * w)%nat).
  { intros a w Ha Hw. unfold well_formed, size in Hw. rewrite Hw, Ha.
    cbn. lia. }
  unfold vertex_attributes, has_shape in *.
  destruct (_normals p), (_tangents p), (_texcoord_0 p), (_texcoord_1 p),
    (_color_0 p); cbn;
    repeat match goal with H : _ /\ _ |- _ => destruct H end;
    repeat (constructor; [cbn; apply Hlen; assumption|]); constructor.
Qed.

Lemma sum_widths_prefix (attrs : list (nat * ndarray f32)) (n i : nat) :
  List.Forall (fun a => length (data (snd a)) = (n * fst a)%nat) attrs ->
  (i < n)%nat ->
  forall k,
    sum (firstn k (map (fun a => Z.of_nat (fst a)) attrs))
    = Z.of_nat
        (length (concat (firstn k (map (fun a => row (fst a) i (data (snd a)))
                                     attrs)))).
Proof.
  intros Hall Hi. induction Hall as [|a attrs Ha Hall IH]; intros k.
  - destruct k; reflexivity.
  - destruct k as [|k]; [reflexivity|].
    cbn [map firstn sum fold_right concat]. fold (sum (firstn k (map (fun a => Z.of_nat (fst a)) attrs))).
    rewrite IH, length_app, (row_length _ _ n _ Ha Hi). lia.
Qed.

(** The vertex data of a primitive whose attributes have the shapes of
    the setters: one record a vertex. *)
Lemma vertex_data_records (p : Primitive) (n : nat) :
  shape (_positions p) = [n; 3%nat] ->
  well_formed (_positions p) ->
  has_shape (_normals p) [n; 3%nat] ->
  has_shape (_tangents p) [n; 4%nat] ->
  has_shape (_texcoord_0 p) [n; 2%nat] ->
  has_shape (_texcoord_1 p) [n; 2%nat] ->
  has_shape (_color_0 p) [n; 4%nat] ->
  exists vd stride,
    vertex_data p = Ok vd
    /\ length vd = (n * stride)%nat
    /\ forall i, (i < n)%nat -> row stride i vd = vertex_record p i.
Proof.
  intros Hs Hwf Hn Ht H0 H1 Hc.
  assert (Hpos : stacked n 3 (fun i => row 3 i (data (_positions p)))
                   (_positions p)).
  { split; [exact Hs|]. split; [|reflexivity].
    unfold well_formed, size in Hwf. rewrite Hwf, Hs. cbn. lia. }
  destruct (stack_stacked n 3 3 _ _ _ Hpos Hn) as (v1 & E1 & S1).
  destruct (stack_stacked n _ 4 _ _ _ S1 Ht) as (v2 & E2 & S2).
  destruct (stack_stacked n _ 2 _ _ _ S2 H0) as (v3 & E3 & S3).
  destruct (stack_stacked n _ 2 _ _ _ S3 H1) as (v4 & E4 & S4).
  destruct (stack_stacked n _ 4 _ _ _ S4 Hc) as (v5 & E5 & S5).
  eexists (flatten v5), _. unfold vertex_data.
  rewrite E1. cbn [and_then]. rewrite E2. cbn [and_then].
  rewrite E3. cbn [and_then]. rewrite E4. cbn [and_then].
  rewrite E5. cbn [and_then].
  split; [reflexivity|].
  destruct S5 as (_ & Hlen & Hrows).
  split; [exact Hlen|].
  intros i Hi. unfold flatten. rewrite Hrows by exact Hi.
  unfold vertex_record. rewrite <- !app_assoc. reflexivity.
Qed.

End Fetching.

(** X20.  The attribute pointers that [_add_to_context] sets address
    the data it uploads.  For a primitive whose attributes have the
    shapes of the setters, the [k]-th attribute that is present
    (positions, normals, tangents, texcoord_0, texcoord_1, colours, in
    this order) gets exactly one pointer with index [k], of its width,
    and what that pointer makes the driver read for vertex [i] from the
    uploaded vertex data is row [i] of that attribute. *)
Theorem attribute_pointers_address_the_attributes
    (p : Primitive.Primitive) (g : context) (n : nat) :
  Primitive._vaid p = None ->
  Primitive.poses_ready p = true ->
  shape (Primitive._positions p) = [n; 3%nat] ->
  well_formed (Primitive._positions p) ->
  Primitive.has_shape (Primitive._normals p) [n; 3%nat] ->
  Primitive.has_shape (Primitive._tangents p) [n; 4%nat] ->
  Primitive.has_shape (Primitive._texcoord_0 p) [n; 2%nat] ->
  Primitive.has_shape (Primitive._texcoord_1 p) [n; 2%nat] ->
  Primitive.has_shape (Primitive._color_0 p) [n; 4%nat] ->
  exists vd calls,
    fst (Primitive._add_to_context (p, g)) = Ok tt
    /\ log (snd (snd (Primitive._add_to_context (p, g)))) = log g ++ calls
    /\ uploads GL_ARRAY_BUFFER calls = [Floats vd]
    /\ forall k width a,
         nth_error (Primitive.vertex_attributes p) k = Some (width, a) ->
         exists stride pointer,
           (forall size normalized stride' pointer',
               In (glVertexAttribPointer (Z.of_nat k) size normalized
                     stride' pointer') calls
               <-> size = Z.of_nat width /\ normalized = false
                   /\ stride' = stride /\ pointer' = pointer)
           /\ forall i,
                (i < n)%nat ->
                Primitive.fetch vd (Z.of_nat width) stride pointer i
                = row width i (data a).
Proof.
  intros Hv Hposes Hs Hwf Hn Ht H0 H1 Hc.
  destruct (vertex_data_records p n Hs Hwf Hn Ht H0 H1 Hc)
    as (vd & stride & Hd & Hlen & Hrows).
  destruct (add_to_context_pointers p g vd Hv Hd Hposes)
    as (calls & Hok & Hlog & Hup & Hptr).
  exists vd, calls. split; [exact Hok|]. split; [exact Hlog|].
  split; [exact Hup|].
  intros k width a Hk.
  pose proof (vertex_attributes_shapes p n Hs Hwf Hn Ht H0 H1 Hc) as Hall.
  set (attrs := Primitive.vertex_attributes p) in *.
  assert (Hsizes : Primitive.attr_sizes p
                   = map (fun a => Z.of_nat (fst a)) attrs)
    by apply attr_sizes_are_widths.
  assert (Hsize : nth_error (Primitive.attr_sizes p) k = Some (Z.of_nat width)).
  { rewrite Hsizes, nth_error_map, Hk. reflexivity. }
  assert (Hklt : (k < length (Primitive.attr_sizes p))%nat).
  { apply nth_error_Some. rewrite Hsize. discriminate. }
  exists (Primitive.FLOAT_SZ * Primitive.sum (Primitive.attr_sizes p))%Z,
    (Primitive.FLOAT_SZ
     * Primitive.sum (firstn k (Primitive.attr_sizes p)))%Z.
  split.
  - intros size normalized stride' pointer'.
    rewrite (Hptr k Hklt). rewrite Hsize. split.
    + intros ([= <-] & -> & -> & ->). repeat split.
    + intros (-> & -> & -> & ->). repeat split.
  - intros i Hi.
    set (parts := map (fun a => row (fst a) i (data (snd a))) attrs).
    assert (Hrec : row stride i vd = concat parts).
    { rewrite (Hrows i Hi). apply vertex_record_is_concat. }
    assert (Hpart : nth_error parts k = Some (row width i (data a))).
    { subst parts. rewrite nth_error_map, Hk. reflexivity. }
    assert (Hw : length (row width i (data a)) = width).
    { apply (row_length _ _ n); [|exact Hi].
      apply (proj1 (List.Forall_forall _ _) Hall (width, a)).
      apply nth_error_In with k. exact Hk. }
    destruct (concat_part parts k _ Hpart) as [Hslice Hfit].
    rewrite Hw in Hslice, Hfit.
    assert (Hstride : length (concat parts) = stride).
    { rewrite <- Hrec. apply (row_length _ _ n); assumption. }
    pose proof (sum_widths_prefix attrs n i Hall Hi) as Hsum.
    fold parts in Hsum. rewrite <- Hsizes in Hsum.
    assert (Htotal : Primitive.sum (Primitive.attr_sizes p) = Z.of_nat stride).
    { rewrite <- (firstn_all (Primitive.attr_sizes p)).
      rewrite Hsum. rewrite Hsizes, length_map, <- (length_map (fun a => row (fst a) i (data (snd a)))).
      fold parts. rewrite firstn_all. rewrite Hstride. reflexivity. }
    unfold Primitive.fetch. rewrite Htotal, Hsum, Nat2Z.id.
    set (off := length (concat (firstn k parts))) in *.
    replace ((Z.of_nat i * (Primitive.FLOAT_SZ * Z.of_nat stride)
              + Primitive.FLOAT_SZ * Z.of_nat off) / Primitive.FLOAT_SZ)%Z
      with (Z.of_nat (off + i * stride)).
    2:{ unfold Primitive.FLOAT_SZ.
        replace (Z.of_nat i * (4 * Z.of_nat stride) + 4 * Z.of_nat off)%Z
          with ((Z.of_nat (off + i * stride)) * 4)%Z by lia.
        rewrite Z.div_mul by lia. reflexivity. }
    rewrite Nat2Z.id, <- List.skipn_skipn.
    rewrite <- (firstn_skipn_within width off stride) by lia.
    change (firstn stride (skipn (i * stride) vd)) with (row stride i vd).
    rewrite Hrec. exact Hslice.
Qed.

(* ===================================================================== *)
(** ** The further properties on the test data                           *)
(* ===================================================================== *)

(** X1 on the quad with normals: 24 floats, six a vertex. *)
Lemma vertex_data_is_interleaved_witness :
  exists vd,
    Primitive.vertex_data (fst Examples.quad_with_normals) = Ok vd
    /\ length vd = 24%nat
    /\ row 6 1 vd
       = map to_float32 [Int 1; Int 0; Int 0; Int 0; Int 0; Int 1].
Proof.
  destruct (vertex_data_is_interleaved (fst Examples.quad_with_normals) 4)
    as (vd & Hd & Hl & Hrow).
  - reflexivity.
  - reflexivity.
  - vm_compute. split; reflexivity.
  - exact I.
  - exact I.
  - exact I.
  - exact I.
  - exists vd. split; [exact Hd|]. split; [exact Hl|].
    apply (Hrow 1%nat). lia.
Defined.

(** X2 on the quad as constructed: it is added once. *)
Lemma add_to_context_binds_once_witness :
  exists w',
    Primitive._add_to_context
      (fst (Examples.unbound_quad 2), snd (Examples.unbound_quad 2))
    = (Ok tt, w')
    /\ Primitive._vaid (fst w') = Some 1%Z
    /\ Primitive._add_to_context w'
       = (Raise (ValueError "Mesh is already bound to a context"), w').
Proof.
  destruct (add_to_context_binds_once (fst (Examples.unbound_quad 2))
              (snd (Examples.unbound_quad 2))) as (_ & H).
  destruct (H (flatten (asanyarray_float32 Examples.quad)))
    as (w' & Hrun & Hv & _ & Hagain).
  - reflexivity.
  - reflexivity.
  - reflexivity.
  - exists w'. split; [exact Hrun|]. split; [exact Hv|exact Hagain].
Defined.

(** X3 on the quad as constructed: the names 1 to 4 are generated and
    released. *)
Lemma add_then_delete_releases_all_witness :
  exists p' calls,
    (Primitive._add_to_context ;; Primitive.delete)
      (fst (Examples.unbound_quad 2), snd (Examples.unbound_quad 2))
    = (Ok tt,
       (p', mk_context 5
              (calls ++ [glBindVertexArray 0; glDeleteVertexArrays 1 [1%Z];
                         glDeleteBuffers 3 [2; 3; 4]%Z])))
    /\ Primitive._vaid p' = None
    /\ Primitive._buffers p' = [].
Proof.
  apply (add_then_delete_releases_all (fst (Examples.unbound_quad 2))
           (snd (Examples.unbound_quad 2))
           (flatten (asanyarray_float32 Examples.quad)));
    reflexivity.
Defined.

(** X4 on the quad that lost its faces and was deleted: new faces go to
    the element buffer 4 of before, which is not among the buffers. *)
Lemma stale_element_buffer_after_delete_witness :
  exists w' calls,
    (Primitive._add_to_context ;;
     Primitive.update_topology (Some Examples.new_indices) ;;
     Primitive.sync_gpu)
      (fst Examples.deleted_quad, snd Examples.deleted_quad) = (Ok tt, w')
    /\ In (glBindBuffer GL_ELEMENT_ARRAY_BUFFER 4) calls
    /\ Primitive._buffers (fst w') = [6; 7]%Z.
Proof.
  destruct (stale_element_buffer_after_delete (fst Examples.deleted_quad)
              (snd Examples.deleted_quad)
              (flatten (asanyarray_float32 Examples.quad)) 4
              Examples.new_indices)
    as (w' & calls & Hrun & _ & _ & Hin & _ & _ & _).
  - reflexivity.
  - reflexivity.
  - reflexivity.
  - reflexivity.
  - reflexivity.
  - reflexivity.
  - reflexivity.
  - reflexivity.
  - exists w', calls. split; [exact Hrun|]. split; [exact Hin|].
    vm_compute in Hrun. injection Hrun as <-. reflexivity.
Defined.

(** X5 on the quad as constructed: the triangle staged before the
    binding is uploaded twice. *)
Lemma staged_before_binding_uploads_twice_witness :
  exists w' calls,
    (Primitive.update_positions Examples.quad ;;
     Primitive._add_to_context ;;
     Primitive.sync_gpu)
      (fst (Examples.unbound_quad 2), snd (Examples.unbound_quad 2))
    = (Ok tt, w')
    /\ uploads GL_ARRAY_BUFFER calls
       = [Floats (flatten (asanyarray_float32 Examples.quad));
          Floats (flatten (asanyarray_float32 Examples.quad))].
Proof.
  destruct (staged_before_binding_uploads_twice
              (fst (Examples.unbound_quad 2)) (snd (Examples.unbound_quad 2))
              Examples.quad (flatten (asanyarray_float32 Examples.quad)))
    as (w' & calls & Hrun & _ & Hup & _).
  - reflexivity.
  - reflexivity.
  - reflexivity.
  - reflexivity.
  - exists w', calls. split; [exact Hrun|exact Hup].
Defined.

(** X6 on the quad with staged positions: the state after one sync is
    left alone by the next. *)
Lemma sync_gpu_is_idempotent_witness :
  let w := snd (Primitive.update_positions Examples.quad
                  (Examples.bound_quad 2)) in
  let w' := snd (Primitive.sync_gpu w) in
  Primitive.sync_gpu w' = (Ok tt, w').
Proof.
  intros w w'.
  apply (sync_gpu_is_idempotent w w').
  vm_compute. reflexivity.
Defined.

(** X7 on the bound quad with normals: five positions against four
    normals make the sync raise. *)
Lemma sync_fails_on_row_mismatch_witness :
  let w := snd (Primitive._add_to_context Examples.quad_with_normals) in
  fst ((Primitive.update_positions Examples.five_points ;;
        Primitive.sync_gpu) (fst w, snd w))
  = Raise concat_error.
Proof.
  intros w.
  destruct (sync_fails_on_row_mismatch (fst w) (snd w) 1
              (asanyarray_float32 Examples.quad_normals)
              Examples.five_points 4 5 3 3) as (H & _).
  - reflexivity.
  - reflexivity.
  - reflexivity.
  - reflexivity.
  - lia.
  - rewrite H. reflexivity.
Defined.



(** X10 on the quad as constructed: texture coordinates of three
    columns are let through and stored as (4,2). *)
Lemma accepted_attributes_have_layout_shapes_witness :
  let w := Examples.unbound_quad 2 in
  let uv := Examples.ints [4; 3]%nat
              [0; 0; 9;  1; 0; 9;  0; 1; 9;  1; 1; 9]%Z in
  exists stored,
    snd (Primitive.texcoord_0_setter (Some uv) (fst w, snd w))
    = (Primitive.set_texcoord_0 (Some stored) (fst w), snd w)
    /\ Primitive.has_shape (Some stored) [4; 2]%nat.
Proof.
  intros w uv.
  destruct (accepted_attributes_have_layout_shapes (fst w) (snd w) 4 uv)
    as (_ & _ & H & _).
  - reflexivity.
  - reflexivity.
  - destruct (H (snd (Primitive.texcoord_0_setter (Some uv) (fst w, snd w))))
      as (stored & Hw & Hs).
    + vm_compute. reflexivity.
    + exists stored. split; [exact Hw|exact Hs].
Defined.

(** X11 on the quad: a flat array of 16 numbers is refused with
    IndexError, a (4,4) array is stored as (1,4,4). *)
Lemma poses_setter_shapes_witness :
  let w := Examples.bound_quad 2 in
  let flat := Examples.ints [16]%nat (repeat 0%Z 16) in
  let square := Examples.ints [4; 4]%nat (repeat 0%Z 16) in
  Primitive.poses_setter (Some flat) (fst w, snd w)
  = (Raise (IndexError "tuple index out of range"), (fst w, snd w))
  /\ fst (Primitive.poses_setter (Some square) (fst w, snd w)) = Ok tt.
Proof.
  intros w flat square. split.
  - destruct (poses_setter_shapes (fst w) (snd w) flat) as (H & _).
    apply H. cbn. lia.
  - destruct (poses_setter_shapes (fst w) (snd w) square) as (_ & H & _).
    destruct (H 4%nat 4%nat eq_refl) as (Hok & _).
    rewrite Hok; [reflexivity|]. split; reflexivity.
Defined.


(** X13 on the shader holding "input": "output" is created as buffer 3
    and then updated in place. *)
Lemma update_buffer_after_create_witness :
  let w := snd (ComputeShader.create_storage_buffer "output"
                  Examples.sixteen_bytes 1
                  (fst Examples.shader_with_input,
                   snd Examples.shader_with_input)) in
  exists g',
    ComputeShader.update_buffer "output" Examples.sixteen_bytes w
    = (Ok tt, (fst w, g'))
    /\ log g'
       = log (snd w)
           ++ [glBindBuffer GL_SHADER_STORAGE_BUFFER 3;
               glBufferSubData GL_SHADER_STORAGE_BUFFER 0 16
                 (Bytes (tobytes Examples.sixteen_bytes))].
Proof.
  intros w.
  destruct (update_buffer_after_create (fst Examples.shader_with_input)
              (snd Examples.shader_with_input) "output"
              Examples.sixteen_bytes Examples.sixteen_bytes 1)
    as (_ & H & _).
  - reflexivity.
  - reflexivity.
  - reflexivity.
  - destruct H as (_ & Hrun); [split; reflexivity|].
    eexists. split; [exact Hrun|reflexivity].
Defined.

(** X15 on the buffer of 16 bytes: four bytes at offset -8 land at
    offset 8. *)
Lemma persistent_update_counts_negative_offset_from_end_witness :
  PersistentBuffer.update Examples.four_bytes (-8) Examples.buffer16
  = (Ok tt,
     PersistentBuffer.set_array
       (Some (repeat Byte.x00 8
                ++ [Byte.x01; Byte.x02; Byte.x03; Byte.x04]
                ++ repeat Byte.x00 4))
       Examples.buffer16).
Proof.
  destruct (persistent_update_counts_negative_offset_from_end
              Examples.buffer16 Examples.four_bytes (-8)
              (repeat Byte.x00 16) eq_refl eq_refl) as (H & _).
  - vm_compute. split; [discriminate|reflexivity].
  - apply H. vm_compute. reflexivity.
Defined.

(** X16 on the buffer of 16 bytes: writes at offsets 0 and 4 can be
    made in either order. *)
Lemma persistent_updates_compose_witness :
  (PersistentBuffer.update Examples.four_bytes 0 ;;
   PersistentBuffer.update Examples.four_bytes 4) Examples.buffer16
  = (PersistentBuffer.update Examples.four_bytes 4 ;;
     PersistentBuffer.update Examples.four_bytes 0) Examples.buffer16.
Proof.
  destruct (persistent_updates_compose Examples.buffer16
              Examples.four_bytes Examples.four_bytes 0 4
              (repeat Byte.x00 16) eq_refl eq_refl) as (_ & H).
  - vm_compute. discriminate.
  - vm_compute. discriminate.
  - vm_compute. discriminate.
  - vm_compute. discriminate.
  - apply H. vm_compute. discriminate.
Defined.

(** X17 on the quad without faces: the faces get buffer 4, which is
    deleted with buffers 2 and 3. *)
Lemma late_indices_get_an_owned_buffer_witness :
  let w := Examples.bound_points 2 in
  exists p' calls,
    (Primitive.update_topology (Some Examples.initial_indices) ;;
     Primitive.sync_gpu ;;
     Primitive.delete) (fst w, snd w)
    = (Ok tt,
       (p', mk_context 5
              (log (snd w) ++ calls
                 ++ [glBindVertexArray 0; glDeleteVertexArrays 1 [1%Z];
                     glDeleteBuffers 3 [2; 3; 4]%Z])))
    /\ In (glGenBuffers 1 4) calls.
Proof.
  intros w.
  destruct (late_indices_get_an_owned_buffer (fst w) (snd w) 1
              Examples.initial_indices)
    as (p' & calls & Hrun & Hin & _).
  - reflexivity.
  - reflexivity.
  - reflexivity.
  - exists p', calls. split; [exact Hrun|exact Hin].
Defined.

(** X18 on the quad with flags that are powers of two: the flags read
    are 1 before and after normals are assigned, and computed afresh
    they would be 3. *)
Lemma buf_flags_are_computed_once_witness :
  let w := Examples.unbound_quad 2 in
  let read := Primitive.buf_flags 1 2 4 8 16 32 64 128 in
  let compute := Primitive._compute_buf_flags 1 2 4 8 16 32 64 128 in
  let w1 := snd (read (fst w, snd w)) in
  let w2 := snd (Primitive.normals_setter (Some Examples.quad_normals) w1) in
  fst (read (fst w, snd w)) = Ok 1%Z
  /\ read w2 = (Ok 1%Z, w2)
  /\ compute w2 = (Ok 3%Z, w2).
Proof.
  intros w read compute w1 w2.
  destruct (buf_flags_are_computed_once 1 2 4 8 16 32 64 128
              Examples.cast_colors (fst w) (snd w) eq_refl)
    as (flags & Hc & Hr & Hkeep & Hfresh).
  assert (Hflags : flags = 1%Z).
  { vm_compute in Hc. injection Hc as <-. reflexivity. }
  subst flags. fold read in Hr. fold compute in Hfresh.
  split; [rewrite Hr; reflexivity|].
  assert (Hw1 : w1 = (Primitive.set_buf_flags (Some 1%Z) (fst w), snd w)).
  { subst w1. rewrite Hr. reflexivity. }
  split.
  - apply (Hkeep (Primitive.normals_setter (Some Examples.quad_normals))
             (Ok tt) w2).
    + left. eexists. reflexivity.
    + rewrite <- Hw1. vm_compute. reflexivity.
  - apply (Hfresh eq_refl Examples.quad_normals w2).
    rewrite <- Hw1. vm_compute. reflexivity.
Defined.

(** X19 on the coloured quad with an opaque material: the alpha 0 of
    the last vertex makes it transparent, and the answer is stored. *)
Lemma transparency_of_colours_witness :
  let w := Examples.coloured_quad in
  Primitive.is_transparent (fun _ => false) (fst w, snd w)
  = (Ok (Some true),
     (Primitive.set_is_transparent (Some true) (fst w), snd w)).
Proof.
  intros w.
  destruct (transparency_of_colours (fun _ => false) (fst w) (snd w) eq_refl)
    as (_ & H).
  destruct (H eq_refl) as (_ & Hcolours & _).
  destruct (Hcolours (asanyarray_float32 Examples.quad_colors) 4%nat
              eq_refl eq_refl) as (b & Hread & _ & Hb).
  assert (Htrue : b = true).
  { apply Hb. exists 3%nat, (to_float32 (Int 0)).
    split; [lia|]. split; reflexivity. }
  subst b. exact Hread.
Defined.

(** X20 on the quad with normals: the normals are attribute 1, three
    floats at byte 12 of records of 24 bytes, and the normal of vertex 2
    is what the driver reads there. *)
Lemma attribute_pointers_address_the_attributes_witness :
  let w := Examples.quad_with_normals in
  exists vd calls stride pointer,
    log (snd (snd (Primitive._add_to_context (fst w, snd w))))
    = log (snd w) ++ calls
    /\ uploads GL_ARRAY_BUFFER calls = [Floats vd]
    /\ In (glVertexAttribPointer 1 3 false stride pointer) calls
    /\ (stride, pointer) = (24, 12)%Z
    /\ Primitive.fetch vd 3 stride pointer 2
       = map to_float32 [Int 0; Int 0; Int 1].
Proof.
  intros w.
  destruct (attribute_pointers_address_the_attributes (fst w) (snd w) 4)
    as (vd & calls & _ & Hlog & Hup & Hattr).
  - reflexivity.
  - reflexivity.
  - reflexivity.
  - reflexivity.
  - vm_compute. split; reflexivity.
  - exact I.
  - exact I.
  - exact I.
  - exact I.
  - destruct (Hattr 1%nat 3%nat (asanyarray_float32 Examples.quad_normals)
                eq_refl) as (stride & pointer & Hin & Hfetch).
    assert (Hcalls : calls
                     = log (snd (snd (Primitive._add_to_context
                                        (fst w, snd w)))))
      by (rewrite Hlog; reflexivity).
    assert (Hcall : In (glVertexAttribPointer 1 3 false 24 12) calls).
    { rewrite Hcalls. vm_compute. auto 20. }
    destruct (proj1 (Hin 3%Z false 24%Z 12%Z) Hcall) as (_ & _ & <- & <-).
    exists vd, calls, 24%Z, 12%Z.
    split; [exact Hlog|]. split; [exact Hup|].
    split; [exact Hcall|]. split; [reflexivity|].
    exact (Hfetch 2%nat ltac:(lia)).
Defined.
